(** * Vision Transformer / Pyramid Vision Transformer: tensor-shape and
      data-flow verification of the layer definitions.

    The Python sources ([PVT/pvt.py], [model.py]) are layer definitions on
    top of a tensor framework.  The embedding below keeps the layer code
    generic over an interface [Tensor] of the framework primitives the
    sources call, and interprets that interface twice:

    - over shapes ([list Z]), where every primitive computes the shape of
      its result or raises the framework's shape error;
    - over symbolic tensors (a shape together with the expression that
      produced it), which records the data flow of a forward pass.

    Python exceptions are values of [error]; a Python function that may
    raise returns a [result].  The constructors of the framework's layers
    validate their arguments, and are functions that may raise as well.
    A Python [float] is a binary64 number, modelled by the primitive
    floats.  Integers are unbounded and the storage of tensors is not
    modelled: no operation fails for lack of memory. *)

From Stdlib Require Import ZArith List String Bool Lia QArith Floats.
Import ListNotations.
Local Open Scope Z_scope.

Set Implicit Arguments.

(** ** Exceptions and the result monad *)

Inductive error : Type :=
| AssertionError      (* a failed [assert] *)
| ZeroDivisionError   (* [%], [//] or [**] on zero *)
| IndexError          (* list or shape index out of range *)
| AttributeError      (* attribute that was never assigned, or is None *)
| ValueError          (* an argument that a framework layer or [int] refuses *)
| OverflowError       (* a number beyond the range of [float] or [int] *)
| TensorShapeError.   (* shape error raised by a framework primitive *)

Inductive result (A : Type) : Type :=
| Ok (a : A)
| Err (e : error).
Arguments Ok {A} a.
Arguments Err {A} e.

Definition bind {A B : Type} (m : result A) (k : A -> result B) : result B :=
  match m with
  | Ok a => k a
  | Err e => Err e
  end.

Arguments bind {A B} !m k.

Notation "x <- m ;; k" := (bind m (fun x => k))
  (at level 61, m at next level, right associativity).
Notation "' pat <- m ;; k" := (bind m (fun x => match x with pat => k end))
  (at level 61, pat pattern, m at next level, right associativity).

Definition is_ok {A : Type} (m : result A) : bool :=
  match m with Ok _ => true | Err _ => false end.

(** ** Python integers and lists *)

(** [a % b] on Python ints: floor remainder, [ZeroDivisionError] on 0. *)
Definition py_mod (a b : Z) : result Z :=
  if b =? 0 then Err ZeroDivisionError else Ok (a mod b).

(** [a // b] on Python ints: floor quotient, [ZeroDivisionError] on 0. *)
Definition py_floordiv (a b : Z) : result Z :=
  if b =? 0 then Err ZeroDivisionError else Ok (a / b).

(** [assert c]. *)
Definition py_assert (c : bool) : result unit :=
  if c then Ok tt else Err AssertionError.

(** [l[i]] for a literal, non-negative index. *)
Definition py_index {A : Type} (l : list A) (i : nat) : result A :=
  match nth_error l i with
  | Some a => Ok a
  | None => Err IndexError
  end.

(** [l[-1]]. *)
Definition py_last {A : Type} (l : list A) : result A :=
  match rev l with
  | a :: _ => Ok a
  | [] => Err IndexError
  end.

(** [range(n)]: empty when [n <= 0]. *)
Definition py_range (n : Z) : list nat := seq 0 (Z.to_nat n).

(** A Python number: an [int] or a [float]. *)
Inductive number : Type :=
| PyInt (z : Z)
| PyFloat (f : float).

(** [float(z)] on a Python int: the nearest double, ties to even;
    [OverflowError] beyond the range of the doubles. *)
Definition py_float (z : Z) : result float :=
  match binary_normalize prec emax z 0 false with
  | S754_infinity _ => Err OverflowError
  | x => Ok (SF2Prim x)
  end.

(** [a * b] for a Python int [a]: exact on ints; with a float, [a] is
    converted to a float and the product is rounded. *)
Definition py_mul (a : Z) (b : number) : result number :=
  match b with
  | PyInt z => Ok (PyInt (a * z))
  | PyFloat f => x <- py_float a ;; Ok (PyFloat (PrimFloat.mul x f))
  end.

(** [int(x)] on a number: truncation towards zero; [ValueError] on a
    NaN and [OverflowError] on an infinity. *)
Definition py_int (x : number) : result Z :=
  match x with
  | PyInt z => Ok z
  | PyFloat f =>
      match Prim2SF f with
      | S754_zero _ => Ok 0
      | S754_infinity _ => Err OverflowError
      | S754_nan => Err ValueError
      | S754_finite s m e =>
          let v := if 0 <=? e then Zpos m * 2 ^ e else Zpos m / 2 ^ (- e) in
          Ok (if s then - v else v)
      end
  end.

(** Truthiness of an optional number ([None], [0] and [0.0] are falsy). *)
Definition py_truthy (x : option Q) : bool :=
  match x with
  | Some q => negb (Qeq_bool q 0)
  | None => false
  end.

(** ** Layer objects of the framework

    Every framework layer object owns its weights.  A layer object is
    identified by the attribute path under which the sources store it. *)

Inductive seg : Type :=
| Attr (s : string)
| Idx (n : nat).

Definition name : Type := list seg.

Record Dense : Type := mkDense
  { dense_name : name; units : Z; use_bias : bool }.

Record Conv2D : Type := mkConv2D
  { conv_name : name; filters : Z; kernel_size : Z; strides : Z }.

Record LayerNormalization : Type := mkLayerNormalization
  { ln_name : name }.

Record Dropout : Type := mkDropout
  { rate : Q }.

(** [layers.Dense(units, use_bias=...)]: a negative number of units is
    refused. *)
Definition layers_Dense (nm : name) (units : Z) (use_bias : bool)
  : result Dense :=
  if units <? 0 then Err ValueError else Ok (mkDense nm units use_bias).

(** [layers.Conv2D(filters, kernel_size=k, strides=s)]: the number of
    filters, the kernel size and the stride must be positive. *)
Definition layers_Conv2D (nm : name) (filters kernel_size strides : Z)
  : result Conv2D :=
  if (filters <=? 0) || (kernel_size <=? 0) || (strides <=? 0)
  then Err ValueError
  else Ok (mkConv2D nm filters kernel_size strides).

(** [layers.Dropout(rate)]: the rate must lie between 0 and 1.  A rate is
    only compared with 0 and 1, which is exact on floats, and is modelled
    by a rational. *)
Definition layers_Dropout (rate : Q) : result Dropout :=
  if Qle_bool 0 rate && Qle_bool rate 1 then Ok (mkDropout rate)
  else Err ValueError.

(** Scalars the sources multiply or divide a tensor by. *)
Inductive scalar : Type :=
| Given (q : Q)           (* a number passed by the caller *)
| PowNegHalf (d : Z)      (* [d ** -.5] *)
| Sqrt (d : Z).           (* [tf.sqrt(tf.cast(d, ...))] *)

(** [d ** -.5] on a Python int: [ZeroDivisionError] on 0. *)
Definition py_pow_neg_half (d : Z) : result scalar :=
  if d =? 0 then Err ZeroDivisionError else Ok (PowNegHalf d).

(** ** Shape semantics of the framework primitives *)

Module Shape.

Definition t : Type := list Z.

Definition prod (s : t) : Z := fold_right Z.mul 1 s.

Fixpoint eqb (a b : t) : bool :=
  match a, b with
  | [], [] => true
  | x :: a', y :: b' => (x =? y) && eqb a' b'
  | _, _ => false
  end.

(** Number of [-1] entries of a reshape target. *)
Definition unknowns (target : t) : nat :=
  List.length (filter (fun d => d =? -1) target).

(** Product of the positive entries of a reshape target: its sizes
    other than 0. *)
Definition given (target : t) : Z :=
  prod (filter (fun d => 0 <? d) target).

(** The axes of the input that count for an inferred size: all of them,
    or those of a size other than 0 when the target has an axis of size
    0. *)
Definition counted (zero : bool) (d : Z) : bool := (0 <? d) || negb zero.

(** [tf.reshape(x, target)]: at most one entry of the target is [-1] and
    is inferred, the others are sizes; the element count is preserved.
    The inferred size is the quotient of the counted axes of the input by
    the sizes given, which must divide it unless an axis of size 0 was
    left out. *)
Definition reshape (s target : t) : result t :=
  if negb (forallb (fun d => -1 <=? d) target) then Err TensorShapeError
  else match unknowns target with
       | O => if prod s =? prod target then Ok target
              else Err TensorShapeError
       | S O =>
           let zero := existsb (Z.eqb 0) target in
           let elements := prod (filter (counted zero) s) in
           let missing := elements / given target in
           if forallb (counted zero) s
              && negb (given target * missing =? elements)
           then Err TensorShapeError
           else
             let r := map (fun d => if d =? -1 then missing else d) target in
             if prod r =? prod s then Ok r else Err TensorShapeError
       | _ => Err TensorShapeError
       end.

(** [layers.Reshape(target)(x)]: the batch axis is kept and the other
    axes are reshaped to [target]. *)
Definition Reshape (target s : t) : result t :=
  match s with
  | b :: _ => reshape s (b :: target)
  | [] => Err TensorShapeError
  end.

Definition is_perm (perm : list nat) (rank : nat) : bool :=
  (List.length perm =? rank)%nat
  && forallb (fun i => existsb (Nat.eqb i) perm) (seq 0 rank).

(** [tf.transpose(x, perm)]. *)
Definition transpose (s : t) (perm : list nat) : result t :=
  if is_perm perm (List.length s)
  then Ok (map (fun i => nth i s 0) perm)
  else Err TensorShapeError.

(** Splits a shape into its batch axes and its last two axes. *)
Fixpoint split_matrix (s : t) : option (t * Z * Z) :=
  match s with
  | [] => None
  | [_] => None
  | [m; n] => Some ([], m, n)
  | b :: s' => match split_matrix s' with
               | Some (bs, m, n) => Some (b :: bs, m, n)
               | None => None
               end
  end.

(** [tf.matmul(a, b, transpose_b=...)] on tensors with equal batch
    axes: the inner sizes must agree. *)
Definition matmul (a b : t) (transpose_b : bool) : result t :=
  match split_matrix a, split_matrix b with
  | Some (ba, m, k), Some (bb, p, q) =>
      let '(k', n) := if transpose_b then (q, p) else (p, q) in
      if eqb ba bb && (k =? k') then Ok (ba ++ [m; n])
      else Err TensorShapeError
  | _, _ => Err TensorShapeError
  end.

(** Broadcasting of two shapes, aligned at the last axis; the
    arguments are the reversed shapes. *)
Fixpoint broadcast_rev (a b : t) : result t :=
  match a, b with
  | [], _ => Ok b
  | _, [] => Ok a
  | x :: a', y :: b' =>
      d <- (if x =? y then Ok x
            else if x =? 1 then Ok y
            else if y =? 1 then Ok x
            else Err TensorShapeError) ;;
      r <- broadcast_rev a' b' ;;
      Ok (d :: r)
  end.

(** [a + b] on tensors. *)
Definition add (a b : t) : result t :=
  r <- broadcast_rev (rev a) (rev b) ;; Ok (rev r).

(** [tf.broadcast_to(x, target)]. *)
Definition broadcast_to (s target : t) : result t :=
  r <- add s target ;;
  if eqb r target then Ok target else Err TensorShapeError.

(** Replaces the size of axis [axis]. *)
Fixpoint set_axis (axis : nat) (d : Z) (s : t) : t :=
  match s, axis with
  | [], _ => []
  | _ :: s', O => d :: s'
  | x :: s', S axis' => x :: set_axis axis' d s'
  end.

(** [tf.concat([a, b], axis)]: the shapes agree outside [axis]. *)
Definition concat (a b : t) (axis : nat) : result t :=
  match nth_error a axis, nth_error b axis with
  | Some da, Some db =>
      if eqb (set_axis axis 0 a) (set_axis axis 0 b)
      then Ok (set_axis axis (da + db) a)
      else Err TensorShapeError
  | _, _ => Err TensorShapeError
  end.

(** [layers.Dense(units)(x)]: acts on the last axis of a tensor of
    rank at least 2. *)
Definition dense (l : Dense) (s : t) : result t :=
  match s with
  | _ :: _ :: _ => Ok (removelast s ++ [units l])
  | _ => Err TensorShapeError
  end.

(** Splits a shape into its batch axes and its last three axes. *)
Fixpoint split_image (s : t) : option (t * Z * Z * Z) :=
  match s with
  | [] => None
  | [_] => None
  | [_; _] => None
  | [h; w; c] => Some ([], h, w, c)
  | b :: s' => match split_image s' with
               | Some (bs, h, w, c) => Some (b :: bs, h, w, c)
               | None => None
               end
  end.

(** [layers.Conv2D(filters, kernel_size=k, strides=k')(x)], padding
    "valid", channels last, on a tensor of rank at least 4: the axes
    before the last three are batch axes; every output size must be
    positive. *)
Definition conv2d (l : Conv2D) (s : t) : result t :=
  match split_image s with
  | Some (b :: bs, h, w, c) =>
      let k := kernel_size l in
      let st := strides l in
      if (0 <? k) && (0 <? st) && (0 <? c) then
        let h' := (h - k) / st + 1 in
        let w' := (w - k) / st + 1 in
        if (0 <? h') && (0 <? w') then Ok (b :: bs ++ [h'; w'; filters l])
        else Err TensorShapeError
      else Err TensorShapeError
  | _ => Err TensorShapeError
  end.

(** A dropout layer called on a tensor: the identity outside training;
    in training the framework drops with a rate from 0 up to, and not
    including, 1, and refuses any other rate. *)
Definition dropout (l : Dropout) (training : bool) (s : t) : result t :=
  if training && negb (Qle_bool 0 (rate l) && negb (Qle_bool 1 (rate l)))
  then Err ValueError
  else Ok s.

(** Primitives that keep the shape of a tensor of rank at least 1:
    normalisation and softmax over the last axis. *)
Definition last_axis_op (s : t) : result t :=
  match s with
  | [] => Err TensorShapeError
  | _ => Ok s
  end.

(** [x[i]]: index into the first axis. *)
Definition index0 (s : t) (i : Z) : result t :=
  match s with
  | d :: s' => if (0 <=? i) && (i <? d) then Ok s' else Err IndexError
  | [] => Err IndexError
  end.

(** [x[:, i]]: index into the second axis. *)
Definition index1 (s : t) (i : Z) : result t :=
  match s with
  | b :: d :: s' => if (0 <=? i) && (i <? d) then Ok (b :: s')
                    else Err IndexError
  | _ => Err IndexError
  end.

End Shape.

(** ** The tensor interface

    The primitives of the framework that the sources call.  [shape] is
    [x.shape]; [add_weight] is [self.add_weight(shape=...)]; [dropout]
    takes the training flag of the call context (a dropout layer is the
    identity outside training). *)

Class Tensor (T : Type) : Type :=
  { shape : T -> Shape.t;
    add_weight : name -> Shape.t -> T;
    dense : Dense -> T -> result T;
    conv2d : Conv2D -> T -> result T;
    layer_norm : LayerNormalization -> T -> result T;
    dropout : Dropout -> bool -> T -> result T;
    gelu : T -> result T;
    Reshape : Shape.t -> T -> result T;         (* layers.Reshape(target)(x) *)
    reshape : T -> Shape.t -> result T;         (* tf.reshape(x, target) *)
    transpose : T -> list nat -> result T;      (* tf.transpose(x, perm) *)
    matmul : T -> T -> bool -> result T;        (* tf.matmul(a, b, transpose_b) *)
    mul_scalar : T -> scalar -> result T;       (* x * c *)
    div_scalar : T -> scalar -> result T;       (* x / c *)
    softmax : T -> result T;                    (* tf.nn.softmax(x, axis=-1) *)
    broadcast_to : T -> Shape.t -> result T;    (* tf.broadcast_to(x, target) *)
    concat : T -> T -> nat -> result T;         (* tf.concat([a, b], axis) *)
    add : T -> T -> result T;                   (* a + b *)
    cast : T -> T -> result T;                  (* tf.cast(x, dtype=y.dtype) *)
    index0 : T -> Z -> result T;                (* x[i] *)
    index1 : T -> Z -> result T }.              (* x[:, i] *)

(** *** Interpretation over shapes *)

#[export] Instance ShapeTensor : Tensor Shape.t :=
  { shape := fun s => s;
    add_weight := fun _ s => s;
    dense := Shape.dense;
    conv2d := Shape.conv2d;
    layer_norm := fun _ s => Shape.last_axis_op s;
    dropout := Shape.dropout;
    gelu := fun s => Ok s;
    Reshape := Shape.Reshape;
    reshape := Shape.reshape;
    transpose := Shape.transpose;
    matmul := Shape.matmul;
    mul_scalar := fun s _ => Ok s;
    div_scalar := fun s _ => Ok s;
    softmax := Shape.last_axis_op;
    broadcast_to := Shape.broadcast_to;
    concat := Shape.concat;
    add := Shape.add;
    cast := fun s _ => Ok s;
    index0 := Shape.index0;
    index1 := Shape.index1 }.

(** *** Interpretation over symbolic tensors *)

Inductive term : Type :=
| Input (x : string)
| Param (n : name)
| DenseT (l : Dense) (x : term)
| Conv2DT (l : Conv2D) (x : term)
| LayerNormT (l : LayerNormalization) (x : term)
| DropoutT (l : Dropout) (x : term)
| GeluT (x : term)
| ReshapeT (x : term) (target : Shape.t)
| TransposeT (x : term) (perm : list nat)
| MatMulT (a b : term) (transpose_b : bool)
| MulT (x : term) (c : scalar)
| DivT (x : term) (c : scalar)
| SoftmaxT (x : term)
| BroadcastToT (x : term) (target : Shape.t)
| ConcatT (a b : term) (axis : nat)
| AddT (a b : term)
| CastT (x : term)
| Index0T (x : term) (i : Z)
| Index1T (x : term) (i : Z).

Record sym : Type := mkSym
  { sym_shape : Shape.t; sym_term : term }.

(** The symbolic result of a primitive: the shape the primitive computes,
    with the expression [e]. *)
Definition sym_of (r : result Shape.t) (e : term) : result sym :=
  s <- r ;; Ok (mkSym s e).

#[export] Instance SymTensor : Tensor sym :=
  { shape := sym_shape;
    add_weight := fun n s => mkSym s (Param n);
    dense := fun l x =>
      sym_of (Shape.dense l (sym_shape x)) (DenseT l (sym_term x));
    conv2d := fun l x =>
      sym_of (Shape.conv2d l (sym_shape x)) (Conv2DT l (sym_term x));
    layer_norm := fun l x =>
      sym_of (Shape.last_axis_op (sym_shape x)) (LayerNormT l (sym_term x));
    dropout := fun l training x =>
      if training
      then sym_of (Shape.dropout l training (sym_shape x))
                  (DropoutT l (sym_term x))
      else Ok x;
    gelu := fun x => Ok (mkSym (sym_shape x) (GeluT (sym_term x)));
    Reshape := fun target x =>
      sym_of (Shape.Reshape target (sym_shape x))
             (ReshapeT (sym_term x) target);
    reshape := fun x target =>
      sym_of (Shape.reshape (sym_shape x) target)
             (ReshapeT (sym_term x) target);
    transpose := fun x perm =>
      sym_of (Shape.transpose (sym_shape x) perm)
             (TransposeT (sym_term x) perm);
    matmul := fun a b tb =>
      sym_of (Shape.matmul (sym_shape a) (sym_shape b) tb)
             (MatMulT (sym_term a) (sym_term b) tb);
    mul_scalar := fun x c => Ok (mkSym (sym_shape x) (MulT (sym_term x) c));
    div_scalar := fun x c => Ok (mkSym (sym_shape x) (DivT (sym_term x) c));
    softmax := fun x =>
      sym_of (Shape.last_axis_op (sym_shape x)) (SoftmaxT (sym_term x));
    broadcast_to := fun x target =>
      sym_of (Shape.broadcast_to (sym_shape x) target)
             (BroadcastToT (sym_term x) target);
    concat := fun a b axis =>
      sym_of (Shape.concat (sym_shape a) (sym_shape b) axis)
             (ConcatT (sym_term a) (sym_term b) axis);
    add := fun a b =>
      sym_of (Shape.add (sym_shape a) (sym_shape b))
             (AddT (sym_term a) (sym_term b));
    cast := fun x _ => Ok (mkSym (sym_shape x) (CastT (sym_term x)));
    index0 := fun x i =>
      sym_of (Shape.index0 (sym_shape x) i) (Index0T (sym_term x) i);
    index1 := fun x i =>
      sym_of (Shape.index1 (sym_shape x) i) (Index1T (sym_term x) i) }.

(** [self.attr] for an attribute that is assigned only on some paths. *)
Definition getattr {A : Type} (a : option A) : result A :=
  match a with
  | Some x => Ok x
  | None => Err AttributeError
  end.

(** [for x in l: acc = f(acc, x)] with exceptions. *)
Fixpoint foldM {A B : Type} (f : A -> B -> result A) (acc : A) (l : list B)
  : result A :=
  match l with
  | [] => Ok acc
  | b :: l' => acc' <- f acc b ;; foldM f acc' l'
  end.

(** [[f(x) for x in l]] with exceptions. *)
Fixpoint mapM {A B : Type} (f : A -> result B) (l : list A)
  : result (list B) :=
  match l with
  | [] => Ok []
  | a :: l' => b <- f a ;; bs <- mapM f l' ;; Ok (b :: bs)
  end.

(** ** Methods that assign attributes of [self]

    A method that mutates its object maps the object to the outcome and
    the object as the method leaves it; an exception keeps the
    assignments made before it was raised. *)

Definition method (S A : Type) : Type := S -> result A * S.

Definition mbind {S A B : Type} (m : method S A) (k : A -> method S B)
  : method S B :=
  fun s => match m s with
           | (Ok a, s') => k a s'
           | (Err e, s') => (Err e, s')
           end.

Definition lift {S A : Type} (r : result A) : method S A := fun s => (r, s).
Definition get_self {S : Type} : method S S := fun s => (Ok s, s).
Definition set_self {S : Type} (s : S) : method S unit := fun _ => (Ok tt, s).

Notation "x <-- m ;; k" := (mbind m (fun x => k))
  (at level 61, m at next level, right associativity).
Notation "' pat <-- m ;; k" := (mbind m (fun x => match x with pat => k end))
  (at level 61, pat pattern, m at next level, right associativity).

(** ** PVT/pvt.py

    A constructor takes the attribute path [nm] of the object it builds.
    A [call] takes the training flag of the framework's call context,
    which the framework hands to the layers that are called inside it. *)

Module PVT.

Module MLP.

(** [self.act] is a GELU layer, which has no parameters. *)
Record t : Type := mk
  { fc1 : Dense; fc2 : Dense; drop : Dropout }.

Definition init (nm : name) (hidden_features out_features : Z)
           (drop_rate : Q) : result t :=
  fc1 <- layers_Dense (nm ++ [Attr "fc1"]) hidden_features true ;;
  fc2 <- layers_Dense (nm ++ [Attr "fc2"]) out_features true ;;
  drop <- layers_Dropout drop_rate ;;
  Ok {| fc1 := fc1; fc2 := fc2; drop := drop |}.

Definition call {T : Type} `{Tensor T}
           (self : t) (inputs : T) (training : bool) : result T :=
  x <- dense (fc1 self) inputs ;;
  x <- gelu x ;;
  x <- dense (fc2 self) x ;;
  x <- (if training then dropout (drop self) training x else Ok x) ;;
  Ok x.

End MLP.

Module Attention.

Record t : Type := mk
  { dim : Z;
    num_heads : Z;
    head_dim : Z;
    scale : scalar;
    q : Dense;
    kv : Dense;
    attention_drop : Dropout;
    proj : Dense;
    proj_drop : Dropout;
    sr_ratio : Z;
    sr : option Conv2D;                 (* assigned when sr_ratio > 1 *)
    norm : option LayerNormalization }. (* assigned when sr_ratio > 1 *)

Definition init (nm : name) (dim num_heads : Z) (qkv_bias : bool)
           (qk_scale : option Q) (attn_drop proj_drop : Q)
           (sr_ratio : Z) : result t :=
  r <- py_mod dim num_heads ;;
  _ <- py_assert (r =? 0) ;;
  head_dim <- py_floordiv dim num_heads ;;
  scale <- (match qk_scale with    (* qk_scale or head_dim ** -.5 *)
            | Some c => if py_truthy qk_scale then Ok (Given c)
                        else py_pow_neg_half head_dim
            | None => py_pow_neg_half head_dim
            end) ;;
  q <- layers_Dense (nm ++ [Attr "q"]) dim qkv_bias ;;
  kv <- layers_Dense (nm ++ [Attr "kv"]) (2 * dim) qkv_bias ;;
  attention_drop <- layers_Dropout attn_drop ;;
  proj <- layers_Dense (nm ++ [Attr "proj"]) dim true ;;
  proj_drop <- layers_Dropout proj_drop ;;
  sr <- (if sr_ratio >? 1
         then sr <- layers_Conv2D (nm ++ [Attr "sr"]) dim sr_ratio sr_ratio ;;
              Ok (Some sr)
         else Ok None) ;;
  Ok {| dim := dim;
        num_heads := num_heads;
        head_dim := head_dim;
        scale := scale;
        q := q;
        kv := kv;
        attention_drop := attention_drop;
        proj := proj;
        proj_drop := proj_drop;
        sr_ratio := sr_ratio;
        sr := sr;
        norm := if sr_ratio >? 1
                then Some (mkLayerNormalization (nm ++ [Attr "norm"]))
                else None |}.

Definition call {T : Type} `{Tensor T}
           (self : t) (inputs : T) (H W : Z) (training : bool)
  : result T :=
  q <- dense (q self) inputs ;;
  q <- Reshape [-1; num_heads self; head_dim self] q ;;
  q <- transpose q [0; 2; 1; 3]%nat ;;
  kv <- (if sr_ratio self >? 1 then
           x_ <- Reshape [H; W; -1] inputs ;;
           sr <- getattr (sr self) ;;
           x_ <- conv2d sr x_ ;;
           h <- py_floordiv H (sr_ratio self) ;;
           n <- py_floordiv (h * W) (sr_ratio self) ;;
           x_ <- Reshape [n; -1] x_ ;;
           norm <- getattr (norm self) ;;
           x_ <- layer_norm norm x_ ;;
           kv <- dense (kv self) x_ ;;
           kv <- Reshape [-1; 2; num_heads self; head_dim self] kv ;;
           transpose kv [2; 0; 3; 1; 4]%nat
         else
           kv <- dense (kv self) inputs ;;
           kv <- Reshape [-1; 2; num_heads self; head_dim self] kv ;;
           transpose kv [2; 0; 3; 1; 4]%nat) ;;
  k <- index0 kv 0 ;;
  v <- index0 kv 1 ;;
  kT <- transpose k [0; 1; 3; 2]%nat ;;
  attention <- matmul q kT false ;;
  attention <- mul_scalar attention (scale self) ;;
  attention <- softmax attention ;;
  attention <- dropout (attention_drop self) training attention ;;
  x <- matmul attention v false ;;
  x <- transpose x [0; 2; 1; 3]%nat ;;
  x <- Reshape [-1; num_heads self * head_dim self] x ;;
  x <- dense (proj self) x ;;
  dropout (proj_drop self) training x.

End Attention.

Module Block.

Record t : Type := mk
  { norm1 : LayerNormalization;
    attention : Attention.t;
    norm2 : LayerNormalization;
    mlp : MLP.t }.

Definition init (nm : name) (dim num_heads : Z) (mlp_ratio : number)
           (qkv_bias : bool) (qk_scale : option Q)
           (drop attn_drop proj_drop : Q) (sr_ratio : Z) : result t :=
  attention <- Attention.init (nm ++ [Attr "attention"]) dim num_heads
                 qkv_bias qk_scale attn_drop proj_drop sr_ratio ;;
  x <- py_mul dim mlp_ratio ;;
  hidden_features <- py_int x ;;        (* int(dim * mlp_ratio) *)
  mlp <- MLP.init (nm ++ [Attr "mlp"]) hidden_features dim drop ;;
  Ok {| norm1 := mkLayerNormalization (nm ++ [Attr "norm1"]);
        attention := attention;
        norm2 := mkLayerNormalization (nm ++ [Attr "norm2"]);
        mlp := mlp |}.

Definition call {T : Type} `{Tensor T}
           (self : t) (inputs : T) (H W : Z) (training : bool)
  : result T :=
  x <- layer_norm (norm1 self) inputs ;;
  x <- Attention.call (attention self) x H W training ;;
  x <- add inputs x ;;
  y <- layer_norm (norm2 self) x ;;
  y <- MLP.call (mlp self) x training ;;
  add x y.

End Block.

Module PatchEmbedding.

Record t : Type := mk
  { img_size : Z;
    patch_size : Z;
    embedding_dim : Z;
    H : Z;
    W : Z;
    num_patches : Z;
    project : Conv2D;
    norm : LayerNormalization }.

Definition init (nm : name) (img_size patch_size embedding_dim : Z)
  : result t :=
  r <- py_mod img_size patch_size ;;
  _ <- py_assert (r =? 0) ;;
  H <- py_floordiv img_size patch_size ;;
  W <- py_floordiv img_size patch_size ;;
  project <- layers_Conv2D (nm ++ [Attr "project"]) embedding_dim
               patch_size patch_size ;;
  Ok {| img_size := img_size;
        patch_size := patch_size;
        embedding_dim := embedding_dim;
        H := H;
        W := W;
        num_patches := H * W;
        project := project;
        norm := mkLayerNormalization (nm ++ [Attr "norm"]) |}.

Definition call {T : Type} `{Tensor T} (self : t) (inputs : T)
  : result (T * (Z * Z)) :=
  x <- conv2d (project self) inputs ;;
  x <- Reshape [num_patches self; embedding_dim self] x ;;
  x <- layer_norm (norm self) x ;;
  Ok (x, (H self, W self)).

End PatchEmbedding.

Module PyramidVisionTransformer.

(** The attributes that [__init__] assigns.  The weights that the
    framework's own layers create at their first call belong to those
    layers and are not part of this state. *)
Record t (T : Type) : Type := mk
  { num_classes : Z;
    depths : list Z;
    patch_embed1 : PatchEmbedding.t;
    patch_embed2 : PatchEmbedding.t;
    patch_embed3 : PatchEmbedding.t;
    patch_embed4 : PatchEmbedding.t;
    pos_embed1 : T;
    pos_drop1 : Dropout;
    pos_embed2 : T;
    pos_drop2 : Dropout;
    pos_embed3 : T;
    pos_drop3 : Dropout;
    pos_embed4 : T;
    pos_drop4 : Dropout;
    block1 : list Block.t;
    block2 : list Block.t;
    block3 : list Block.t;
    block4 : list Block.t;
    norm : LayerNormalization;
    cls_token : T;
    dense_ : Dense }.      (* [self.dense] *)

Arguments mk {T}.

(** [self.cls_token = c]. *)
Definition set_cls_token {T : Type} (self : t T) (c : T) : t T :=
  {| num_classes := num_classes self;
     depths := depths self;
     patch_embed1 := patch_embed1 self;
     patch_embed2 := patch_embed2 self;
     patch_embed3 := patch_embed3 self;
     patch_embed4 := patch_embed4 self;
     pos_embed1 := pos_embed1 self;
     pos_drop1 := pos_drop1 self;
     pos_embed2 := pos_embed2 self;
     pos_drop2 := pos_drop2 self;
     pos_embed3 := pos_embed3 self;
     pos_drop3 := pos_drop3 self;
     pos_embed4 := pos_embed4 self;
     pos_drop4 := pos_drop4 self;
     block1 := block1 self;
     block2 := block2 self;
     block3 := block3 self;
     block4 := block4 self;
     norm := norm self;
     cls_token := c;
     dense_ := dense_ self |}.

(** The constructor's arguments. *)
Record config : Type := mkConfig
  { cfg_img_size : Z;
    cfg_patch_size : Z;
    cfg_num_classes : Z;
    cfg_embed_dims : list Z;
    cfg_num_heads : list Z;
    cfg_mlp_ratios : list number;
    cfg_qkv_bias : bool;
    cfg_qk_scale : option Q;
    cfg_drop_rate : Q;
    cfg_attn_drop_rate : Q;
    cfg_depths : list Z;
    cfg_sr_ratios : list Z }.

(** The default values of the constructor's arguments. *)
Definition default : config :=
  {| cfg_img_size := 224;
     cfg_patch_size := 4;
     cfg_num_classes := 1000;
     cfg_embed_dims := [64; 128; 256; 512];
     cfg_num_heads := [1; 2; 4; 8];
     cfg_mlp_ratios := [PyInt 4; PyInt 4; PyInt 4; PyInt 4];
     cfg_qkv_bias := false;
     cfg_qk_scale := None;
     cfg_drop_rate := 0%Q;
     cfg_attn_drop_rate := 0%Q;
     cfg_depths := [3; 4; 6; 3];
     cfg_sr_ratios := [8; 4; 2; 1] |}.

(** [[Block(dim=embed_dims[i], ...) for _ in range(depths[i])]]; the
    block's arguments are evaluated once per iteration.  [proj_drop]
    is left at its default. *)
Definition blocks (nm : string) (c : config) (i : nat)
  : result (list Block.t) :=
  n <- py_index (cfg_depths c) i ;;
  mapM (fun j =>
          dim <- py_index (cfg_embed_dims c) i ;;
          num_heads <- py_index (cfg_num_heads c) i ;;
          mlp_ratio <- py_index (cfg_mlp_ratios c) i ;;
          sr_ratio <- py_index (cfg_sr_ratios c) i ;;
          Block.init [Attr nm; Idx j] dim num_heads mlp_ratio
            (cfg_qkv_bias c) (cfg_qk_scale c) (cfg_drop_rate c)
            (cfg_attn_drop_rate c) 0%Q sr_ratio)
       (py_range n).

Definition init {T : Type} `{Tensor T} (c : config) : result (t T) :=
  let img_size := cfg_img_size c in
  let embed_dims := cfg_embed_dims c in
  d <- py_index embed_dims 0 ;;
  patch_embed1 <- PatchEmbedding.init [Attr "patch_embed1"]
                    img_size (cfg_patch_size c) d ;;
  d <- py_index embed_dims 1 ;;
  patch_embed2 <- PatchEmbedding.init [Attr "patch_embed2"]
                    (img_size / 4) 2 d ;;
  d <- py_index embed_dims 2 ;;
  patch_embed3 <- PatchEmbedding.init [Attr "patch_embed3"]
                    (img_size / 8) 2 d ;;
  d <- py_index embed_dims 3 ;;
  patch_embed4 <- PatchEmbedding.init [Attr "patch_embed4"]
                    (img_size / 16) 2 d ;;
  d <- py_index embed_dims 0 ;;
  let pos_embed1 := add_weight [Attr "pos_embed1"]
        [1; PatchEmbedding.num_patches patch_embed1; d] in
  pos_drop1 <- layers_Dropout (cfg_drop_rate c) ;;
  d <- py_index embed_dims 1 ;;
  let pos_embed2 := add_weight [Attr "pos_embed2"]
        [1; PatchEmbedding.num_patches patch_embed2; d] in
  pos_drop2 <- layers_Dropout (cfg_drop_rate c) ;;
  d <- py_index embed_dims 2 ;;
  let pos_embed3 := add_weight [Attr "pos_embed3"]
        [1; PatchEmbedding.num_patches patch_embed3; d] in
  pos_drop3 <- layers_Dropout (cfg_drop_rate c) ;;
  d <- py_index embed_dims 3 ;;
  let pos_embed4 := add_weight [Attr "pos_embed4"]
        [1; PatchEmbedding.num_patches patch_embed4 + 1; d] in
  pos_drop4 <- layers_Dropout (cfg_drop_rate c) ;;
  block1 <- blocks "block1" c 0 ;;
  block2 <- blocks "block2" c 1 ;;
  block3 <- blocks "block3" c 2 ;;
  block4 <- blocks "block4" c 3 ;;
  d <- py_index embed_dims 3 ;;
  dense_ <- layers_Dense [Attr "dense"] (cfg_num_classes c) true ;;
  Ok {| num_classes := cfg_num_classes c;
        depths := cfg_depths c;
        patch_embed1 := patch_embed1;
        patch_embed2 := patch_embed2;
        patch_embed3 := patch_embed3;
        patch_embed4 := patch_embed4;
        pos_embed1 := pos_embed1;
        pos_drop1 := pos_drop1;
        pos_embed2 := pos_embed2;
        pos_drop2 := pos_drop2;
        pos_embed3 := pos_embed3;
        pos_drop3 := pos_drop3;
        pos_embed4 := pos_embed4;
        pos_drop4 := pos_drop4;
        block1 := block1;
        block2 := block2;
        block3 := block3;
        block4 := block4;
        norm := mkLayerNormalization [Attr "norm"];
        cls_token := add_weight [Attr "cls_token"] [1; 1; d];
        dense_ := dense_ |}.

(** [for blk in blocks: x = blk(x, H, W)]. *)
Definition run_blocks {T : Type} `{Tensor T}
           (blocks : list Block.t) (x : T) (H W : Z) (training : bool)
  : result T :=
  foldM (fun x blk => Block.call blk x H W training) x blocks.

Definition call {T : Type} `{Tensor T} (inputs : T) (training : bool)
  : method (t T) T :=
  self <-- get_self ;;
  B <-- lift (py_index (shape inputs) 0) ;;
  (* stage 1 *)
  '(x, (H, W)) <-- lift (PatchEmbedding.call (patch_embed1 self) inputs) ;;
  x <-- lift (add x (pos_embed1 self)) ;;
  x <-- lift (dropout (pos_drop1 self) training x) ;;
  x <-- lift (run_blocks (block1 self) x H W training) ;;
  x <-- lift (Reshape [H; W; -1] x) ;;
  (* stage 2 *)
  '(x, (H, W)) <-- lift (PatchEmbedding.call (patch_embed2 self) x) ;;
  x <-- lift (add x (pos_embed2 self)) ;;
  x <-- lift (dropout (pos_drop2 self) training x) ;;
  x <-- lift (run_blocks (block2 self) x H W training) ;;
  x <-- lift (Reshape [H; W; -1] x) ;;
  (* stage 3 *)
  '(x, (H, W)) <-- lift (PatchEmbedding.call (patch_embed3 self) x) ;;
  x <-- lift (add x (pos_embed3 self)) ;;
  x <-- lift (dropout (pos_drop3 self) training x) ;;
  x <-- lift (run_blocks (block3 self) x H W training) ;;
  x <-- lift (Reshape [H; W; -1] x) ;;
  (* stage 4 *)
  '(x, (H, W)) <-- lift (PatchEmbedding.call (patch_embed4 self) x) ;;
  d <-- lift (py_last (shape (cls_token self))) ;;
  c <-- lift (broadcast_to (cls_token self) [B; 1; d]) ;;
  _ <-- set_self (set_cls_token self c) ;;
  self <-- get_self ;;
  x <-- lift (concat (cls_token self) x 1) ;;
  x <-- lift (add x (pos_embed4 self)) ;;
  x <-- lift (dropout (pos_drop4 self) training x) ;;
  x <-- lift (run_blocks (block4 self) x H W training) ;;
  x <-- lift (layer_norm (norm self) x) ;;
  cls_token <-- lift (index1 x 0) ;;
  predictions <-- lift (dense (dense_ self) cls_token) ;;
  lift (Ok predictions).

End PyramidVisionTransformer.

End PVT.

(** ** model.py *)

Module ViT.

(** [Layer.__call__] of the framework: a layer is built from the shape
    of its first input, then called. *)
Definition layer_call {S T : Type} `{Tensor T}
           (built : S -> bool) (build : Shape.t -> method S unit)
           (call : S -> T -> result T) (inputs : T) : method S T :=
  self <-- get_self ;;
  _ <-- (if built self then lift (Ok tt) else build (shape inputs)) ;;
  self <-- get_self ;;
  lift (call self inputs).

Module ClassToken.

Record t (T : Type) : Type := mk
  { initializer : string;
    num_features : Z;
    cls_w : option T;
    built : bool }.

Arguments mk {T}.

Definition init {T : Type} (initializer : string) : t T :=
  {| initializer := initializer;
     num_features := 0;
     cls_w := None;
     built := false |}.

Definition build {T : Type} `{Tensor T} (input_shape : Shape.t)
  : method (t T) unit :=
  self <-- get_self ;;
  n <-- lift (py_last input_shape) ;;
  set_self {| initializer := initializer self;
              num_features := n;
              cls_w := Some (add_weight [Attr "cls_w"] [1; 1; n]);
              built := true |}.

Definition call {T : Type} `{Tensor T} (self : t T) (inputs : T)
  : result T :=
  batch_size <- py_index (shape inputs) 0 ;;
  cls_w <- getattr (cls_w self) ;;
  cls_broadcast <- broadcast_to cls_w [batch_size; 1; num_features self] ;;
  cls_broadcast <- cast cls_broadcast inputs ;;
  concat cls_broadcast inputs 1.

(** [clsToken(inputs)]. *)
Definition apply {T : Type} `{Tensor T} (inputs : T) : method (t T) T :=
  layer_call (@built T) build call inputs.

End ClassToken.

Module PositionEmbedding.

Record t (T : Type) : Type := mk
  { initializer : string;
    pos_w : option T;
    built : bool }.

Arguments mk {T}.

Definition init {T : Type} (initializer : string) : t T :=
  {| initializer := initializer; pos_w := None; built := false |}.

Definition build {T : Type} `{Tensor T} (input_shape : Shape.t)
  : method (t T) unit :=
  self <-- get_self ;;
  _ <-- lift (py_assert (List.length input_shape =? 3)%nat) ;;
  d1 <-- lift (py_index input_shape 1) ;;
  d2 <-- lift (py_index input_shape 2) ;;
  set_self {| initializer := initializer self;
              pos_w := Some (add_weight [Attr "pos_w"] [1; d1; d2]);
              built := true |}.

Definition call {T : Type} `{Tensor T} (self : t T) (inputs : T)
  : result T :=
  pos_w <- getattr (pos_w self) ;;
  pos_w <- cast pos_w inputs ;;
  add inputs pos_w.

(** [posEmbedding(inputs)]. *)
Definition apply {T : Type} `{Tensor T} (inputs : T) : method (t T) T :=
  layer_call (@built T) build call inputs.

End PositionEmbedding.

Module Attention.

Record t : Type := mk
  { num_features : Z;
    num_heads : Z;
    project_dim : Z }.

Definition init (num_features num_heads : Z) : result t :=
  project_dim <- py_floordiv num_features num_heads ;;
  Ok {| num_features := num_features;
        num_heads := num_heads;
        project_dim := project_dim |}.

Definition call {T : Type} `{Tensor T} (self : t) (inputs : T)
  : result T :=
  batch_size <- py_index (shape inputs) 0 ;;
  inputs <- reshape inputs
              [batch_size; -1; 3; num_heads self; project_dim self] ;;
  inputs <- transpose inputs [2; 0; 3; 1; 4]%nat ;;
  query <- index0 inputs 0 ;;
  key <- index0 inputs 1 ;;
  value <- index0 inputs 2 ;;
  score <- matmul query key true ;;
  scaled_score <- div_scalar score (Sqrt (project_dim self)) ;;
  weights <- softmax scaled_score ;;
  weighted_value <- matmul weights value false ;;
  outputs <- transpose weighted_value [0; 2; 1; 3]%nat ;;
  reshape outputs [batch_size; -1; num_features self].

End Attention.

End ViT.

(** ** The specification's wording of two layers

    These two definitions follow the words of the specification, not the
    sources; they are what the sources are compared with. *)

Module Spec.

Section Layers.
Context {T : Type} `{Tensor T}.

(** Splits the feature axis of a projected sequence into heads. *)
Definition split_heads (target : Shape.t) (perm : list nat) (x : T)
  : result T :=
  x <- Reshape target x ;;
  transpose x perm.

(** [softmax(Q K^T * scale) V], with dropout on the weights. *)
Definition scaled_dot_product_attention
           (q k v : T) (scale : scalar) (drop : Dropout)
           (training : bool) : result T :=
  kT <- transpose k [0; 1; 3; 2]%nat ;;
  score <- matmul q kT false ;;
  score <- mul_scalar score scale ;;
  weights <- softmax score ;;
  weights <- dropout drop training weights ;;
  matmul weights v false.

(** Standard full attention with the projections of a PVT attention
    layer: queries, keys and values are all projected from the input
    sequence itself. *)
Definition full_attention (self : PVT.Attention.t) (inputs : T)
           (training : bool) : result T :=
  let heads := PVT.Attention.num_heads self in
  let head_dim := PVT.Attention.head_dim self in
  q <- dense (PVT.Attention.q self) inputs ;;
  q <- split_heads [-1; heads; head_dim] [0; 2; 1; 3]%nat q ;;
  kv <- dense (PVT.Attention.kv self) inputs ;;
  kv <- split_heads [-1; 2; heads; head_dim] [2; 0; 3; 1; 4]%nat kv ;;
  k <- index0 kv 0 ;;
  v <- index0 kv 1 ;;
  x <- scaled_dot_product_attention q k v (PVT.Attention.scale self)
         (PVT.Attention.attention_drop self) training ;;
  x <- transpose x [0; 2; 1; 3]%nat ;;
  x <- Reshape [-1; heads * head_dim] x ;;
  x <- dense (PVT.Attention.proj self) x ;;
  dropout (PVT.Attention.proj_drop self) training x.

(** The transformer block of the specification:
    [x = x + Attention(Norm(x)); y = x + MLP(Norm(x))]. *)
Definition prenorm_block (self : PVT.Block.t) (inputs : T) (H W : Z)
           (training : bool) : result T :=
  x <- layer_norm (PVT.Block.norm1 self) inputs ;;
  a <- PVT.Attention.call (PVT.Block.attention self) x H W training ;;
  x <- add inputs a ;;
  y <- layer_norm (PVT.Block.norm2 self) x ;;
  y <- PVT.MLP.call (PVT.Block.mlp self) y training ;;
  add x y.

End Layers.

End Spec.

(** * Auxiliary definitions of the verification *)

(** A reshape target whose sizes are all given. *)
Definition sizes (s : Shape.t) : Prop := Forall (fun d => 0 <= d) s.

(** A rate that a dropout layer accepts when it is constructed. *)
Definition is_rate (r : Q) : Prop := (0 <= r /\ r <= 1)%Q.

(** A dropout layer that can be called with this training flag: outside
    training, or with a rate from 0 up to, and not including, 1. *)
Definition drops (training : bool) (l : Dropout) : Prop :=
  training = false \/ (0 <= rate l /\ rate l < 1)%Q.

(** The dropout layers of an attention layer and of a block can be
    called. *)
Definition Attention_drops (training : bool) (a : PVT.Attention.t) : Prop :=
  drops training (PVT.Attention.attention_drop a)
  /\ drops training (PVT.Attention.proj_drop a).

Definition Block_drops (training : bool) (blk : PVT.Block.t) : Prop :=
  Attention_drops training (PVT.Block.attention blk)
  /\ drops training (PVT.MLP.drop (PVT.Block.mlp blk)).

(** [int(dim * mlp_ratio)], the hidden width that a block gives to its
    MLP. *)
Definition hidden_features (dim : Z) (mlp_ratio : number) : result Z :=
  x <- py_mul dim mlp_ratio ;; py_int x.

(** The hidden width [int(dim * mlp_ratio)] is defined and is not
    negative. *)
Definition hidden_ok (dim : Z) (mlp_ratio : number) : Prop :=
  exists h, hidden_features dim mlp_ratio = Ok h /\ 0 <= h.

(** What the constructor establishes for a PVT attention layer with
    positive sizes. *)
Record Attention_wf (a : PVT.Attention.t) : Prop :=
  { wf_heads : 0 < PVT.Attention.num_heads a;
    wf_head_dim : 0 < PVT.Attention.head_dim a;
    wf_dim : PVT.Attention.num_heads a * PVT.Attention.head_dim a
             = PVT.Attention.dim a;
    wf_q : units (PVT.Attention.q a) = PVT.Attention.dim a;
    wf_kv : units (PVT.Attention.kv a) = 2 * PVT.Attention.dim a;
    wf_proj : units (PVT.Attention.proj a) = PVT.Attention.dim a;
    wf_sr : 1 < PVT.Attention.sr_ratio a ->
            exists nm nm',
              PVT.Attention.sr a
              = Some (mkConv2D nm (PVT.Attention.dim a)
                        (PVT.Attention.sr_ratio a) (PVT.Attention.sr_ratio a))
              /\ PVT.Attention.norm a = Some (mkLayerNormalization nm') }.

(** A key/value source that the spatial reduction of layer [a] accepts: a
    sequence of [H * W] positions whose sides are multiples of the
    reduction ratio.  Without spatial reduction every sequence fits. *)
Definition sr_fits (a : PVT.Attention.t) (n H W : Z) : Prop :=
  PVT.Attention.sr_ratio a <= 1
  \/ (n = H * W /\ 0 < H /\ 0 < W
      /\ (PVT.Attention.sr_ratio a | H) /\ (PVT.Attention.sr_ratio a | W)).

(** What the constructor establishes for a block of positive sizes. *)
Record Block_wf (blk : PVT.Block.t) : Prop :=
  { wf_attention : Attention_wf (PVT.Block.attention blk);
    wf_mlp : units (PVT.MLP.fc2 (PVT.Block.mlp blk))
             = PVT.Attention.dim (PVT.Block.attention blk) }.

(** The reduction ratio [s] of a stage fits feature maps of side [side]. *)
Definition stage_sr (s side : Z) : Prop := s <= 1 \/ (s | side).

(** The blocks of a stage: well-formed, of width [dim] and reduction
    ratio [s]. *)
Definition stage_blocks (bl : list PVT.Block.t) (dim s : Z) : Prop :=
  Forall (fun blk =>
            Block_wf blk
            /\ PVT.Attention.dim (PVT.Block.attention blk) = dim
            /\ PVT.Attention.sr_ratio (PVT.Block.attention blk) = s) bl.

(** The patch embedding that the constructor builds for an image size
    that is a multiple of the patch size. *)
Definition patch_embedding (nm : string) (size p e : Z)
  : PVT.PatchEmbedding.t :=
  PVT.PatchEmbedding.mk size p e (size / p) (size / p)
    (size / p * (size / p))
    (mkConv2D [Attr nm; Attr "project"] e p p)
    (mkLayerNormalization [Attr nm; Attr "norm"]).

(** The model that the constructor builds over shapes from patch size 4
    and four stages of widths [d0 .. d3], given its blocks. *)
Definition staged_model (img num_classes d0 d1 d2 d3 : Z) (depths : list Z)
           (drop_rate : Q) (bl1 bl2 bl3 bl4 : list PVT.Block.t)
  : PVT.PyramidVisionTransformer.t Shape.t :=
  PVT.PyramidVisionTransformer.mk num_classes depths
    (patch_embedding "patch_embed1" img 4 d0)
    (patch_embedding "patch_embed2" (img / 4) 2 d1)
    (patch_embedding "patch_embed3" (img / 8) 2 d2)
    (patch_embedding "patch_embed4" (img / 16) 2 d3)
    [1; img / 4 * (img / 4); d0] (mkDropout drop_rate)
    [1; img / 4 / 2 * (img / 4 / 2); d1] (mkDropout drop_rate)
    [1; img / 8 / 2 * (img / 8 / 2); d2] (mkDropout drop_rate)
    [1; img / 16 / 2 * (img / 16 / 2) + 1; d3] (mkDropout drop_rate)
    bl1 bl2 bl3 bl4
    (mkLayerNormalization [Attr "norm"])
    [1; 1; d3]
    (mkDense [Attr "dense"] num_classes true).

(** The model that the constructor builds from the default arguments. *)
Definition default_model : PVT.PyramidVisionTransformer.t Shape.t :=
  Eval vm_compute in
    match PVT.PyramidVisionTransformer.init (T := Shape.t)
            PVT.PyramidVisionTransformer.default as r
          return match r with
                 | Ok _ => PVT.PyramidVisionTransformer.t Shape.t
                 | Err _ => unit
                 end
    with
    | Ok m => m
    | Err _ => tt
    end.

(** The constructor's arguments with another patch size. *)
Definition with_patch_size (c : PVT.PyramidVisionTransformer.config)
           (p : Z) : PVT.PyramidVisionTransformer.config :=
  PVT.PyramidVisionTransformer.mkConfig
    (PVT.PyramidVisionTransformer.cfg_img_size c) p
    (PVT.PyramidVisionTransformer.cfg_num_classes c)
    (PVT.PyramidVisionTransformer.cfg_embed_dims c)
    (PVT.PyramidVisionTransformer.cfg_num_heads c)
    (PVT.PyramidVisionTransformer.cfg_mlp_ratios c)
    (PVT.PyramidVisionTransformer.cfg_qkv_bias c)
    (PVT.PyramidVisionTransformer.cfg_qk_scale c)
    (PVT.PyramidVisionTransformer.cfg_drop_rate c)
    (PVT.PyramidVisionTransformer.cfg_attn_drop_rate c)
    (PVT.PyramidVisionTransformer.cfg_depths c)
    (PVT.PyramidVisionTransformer.cfg_sr_ratios c).

(** The attributes of a model other than those of its first stage's patch
    and position embeddings. *)
Definition later_stages {T : Type} (m : PVT.PyramidVisionTransformer.t T) :=
  (PVT.PyramidVisionTransformer.patch_embed2 m,
   PVT.PyramidVisionTransformer.patch_embed3 m,
   PVT.PyramidVisionTransformer.patch_embed4 m,
   (PVT.PyramidVisionTransformer.pos_embed2 m,
    PVT.PyramidVisionTransformer.pos_embed3 m,
    PVT.PyramidVisionTransformer.pos_embed4 m),
   (PVT.PyramidVisionTransformer.block1 m,
    PVT.PyramidVisionTransformer.block2 m,
    PVT.PyramidVisionTransformer.block3 m,
    PVT.PyramidVisionTransformer.block4 m),
   (PVT.PyramidVisionTransformer.norm m,
    PVT.PyramidVisionTransformer.cls_token m,
    PVT.PyramidVisionTransformer.dense_ m,
    PVT.PyramidVisionTransformer.num_classes m,
    PVT.PyramidVisionTransformer.depths m)).

(** The default arguments with an image size of 33 and a patch size
    of 3. *)
Definition config_33 : PVT.PyramidVisionTransformer.config :=
  PVT.PyramidVisionTransformer.mkConfig 33 3 1000
    [64; 128; 256; 512] [1; 2; 4; 8] [PyInt 4; PyInt 4; PyInt 4; PyInt 4]
    false None 0 0 [3; 4; 6; 3] [8; 4; 2; 1].

(** The model that the constructor builds from [config_33]. *)
Definition model_33 : PVT.PyramidVisionTransformer.t Shape.t :=
  Eval vm_compute in
    match PVT.PyramidVisionTransformer.init (T := Shape.t) config_33 as r
          return match r with
                 | Ok _ => PVT.PyramidVisionTransformer.t Shape.t
                 | Err _ => unit
                 end
    with
    | Ok m => m
    | Err _ => tt
    end.

(** An attention layer of the default last stage, as the constructor
    builds it: width 512, 8 heads, no spatial reduction. *)
Definition last_stage_attention : PVT.Attention.t :=
  PVT.Attention.mk 512 8 64 (PowNegHalf 64)
    (mkDense [Attr "q"] 512 false) (mkDense [Attr "kv"] 1024 false)
    (mkDropout 0) (mkDense [Attr "proj"] 512 true) (mkDropout 0) 1
    None None.

(** The expression that the MLP computes from its input. *)
Definition MLP_term (m : PVT.MLP.t) (training : bool) (t : term) : term :=
  let y := DenseT (PVT.MLP.fc2 m) (GeluT (DenseT (PVT.MLP.fc1 m) t)) in
  if training then DropoutT (PVT.MLP.drop m) y else y.

(** A block of width 2 with one head, as the constructor builds it. *)
Definition block_2 : PVT.Block.t :=
  Eval vm_compute in
    match PVT.Block.init [Attr "block"] 2 1 (PyFloat 4) false None 0 0 0 1
          as r
          return match r with Ok _ => PVT.Block.t | Err _ => unit end
    with
    | Ok blk => blk
    | Err _ => tt
    end.

(** Whether an expression applies a convolution or a normalisation. *)
Fixpoint reduces (t : term) : bool :=
  match t with
  | Input _ | Param _ => false
  | Conv2DT _ _ | LayerNormT _ _ => true
  | DenseT _ x | DropoutT _ x | GeluT x | ReshapeT x _ | TransposeT x _
  | MulT x _ | DivT x _ | SoftmaxT x | BroadcastToT x _ | CastT x
  | Index0T x _ | Index1T x _ => reduces x
  | MatMulT a b _ | ConcatT a b _ | AddT a b => reduces a || reduces b
  end.

(** ** The forward pass of the PVT model in parts, and the stages of the
    constructor *)

(** The statements of [PyramidVisionTransformer.call] before the
    assignment of [self.cls_token]: they give the batch size and the
    result of the fourth patch embedding. *)
Definition stages123 {T : Type} {TF : Tensor T}
           (self : PVT.PyramidVisionTransformer.t T) (inputs : T)
           (training : bool) : result (Z * (T * (Z * Z))) :=
  B <- py_index (shape inputs) 0 ;;
  ' (x, (H, W)) <- PVT.PatchEmbedding.call
                     (PVT.PyramidVisionTransformer.patch_embed1 self) inputs ;;
  x <- add x (PVT.PyramidVisionTransformer.pos_embed1 self) ;;
  x <- dropout (PVT.PyramidVisionTransformer.pos_drop1 self) training x ;;
  x <- PVT.PyramidVisionTransformer.run_blocks
         (PVT.PyramidVisionTransformer.block1 self) x H W training ;;
  x <- Reshape [H; W; -1] x ;;
  ' (x, (H, W)) <- PVT.PatchEmbedding.call
                     (PVT.PyramidVisionTransformer.patch_embed2 self) x ;;
  x <- add x (PVT.PyramidVisionTransformer.pos_embed2 self) ;;
  x <- dropout (PVT.PyramidVisionTransformer.pos_drop2 self) training x ;;
  x <- PVT.PyramidVisionTransformer.run_blocks
         (PVT.PyramidVisionTransformer.block2 self) x H W training ;;
  x <- Reshape [H; W; -1] x ;;
  ' (x, (H, W)) <- PVT.PatchEmbedding.call
                     (PVT.PyramidVisionTransformer.patch_embed3 self) x ;;
  x <- add x (PVT.PyramidVisionTransformer.pos_embed3 self) ;;
  x <- dropout (PVT.PyramidVisionTransformer.pos_drop3 self) training x ;;
  x <- PVT.PyramidVisionTransformer.run_blocks
         (PVT.PyramidVisionTransformer.block3 self) x H W training ;;
  x <- Reshape [H; W; -1] x ;;
  r <- PVT.PatchEmbedding.call
         (PVT.PyramidVisionTransformer.patch_embed4 self) x ;;
  Ok (B, r).

(** The broadcast that [call] assigns to [self.cls_token]. *)
Definition broadcast_cls_token {T : Type} {TF : Tensor T}
           (self : PVT.PyramidVisionTransformer.t T) (B : Z) : result T :=
  d <- py_last (shape (PVT.PyramidVisionTransformer.cls_token self)) ;;
  broadcast_to (PVT.PyramidVisionTransformer.cls_token self) [B; 1; d].

(** The statements of [PyramidVisionTransformer.call] after the
    assignment of [self.cls_token]. *)
Definition stage4 {T : Type} {TF : Tensor T}
           (self : PVT.PyramidVisionTransformer.t T) (x : T) (H W : Z)
           (training : bool) : result T :=
  x <- concat (PVT.PyramidVisionTransformer.cls_token self) x 1 ;;
  x <- add x (PVT.PyramidVisionTransformer.pos_embed4 self) ;;
  x <- dropout (PVT.PyramidVisionTransformer.pos_drop4 self) training x ;;
  x <- PVT.PyramidVisionTransformer.run_blocks
         (PVT.PyramidVisionTransformer.block4 self) x H W training ;;
  x <- layer_norm (PVT.PyramidVisionTransformer.norm self) x ;;
  cls_token <- index1 x 0 ;;
  dense (PVT.PyramidVisionTransformer.dense_ self) cls_token.

(** The forward pass, split at its assignment. *)
Definition call_in_parts {T : Type} {TF : Tensor T}
           (inputs : T) (training : bool)
           (self : PVT.PyramidVisionTransformer.t T)
  : result T * PVT.PyramidVisionTransformer.t T :=
  match stages123 self inputs training with
  | Err e => (Err e, self)
  | Ok (B, (x, (H, W))) =>
      match broadcast_cls_token self B with
      | Err e => (Err e, self)
      | Ok c =>
          let self' := PVT.PyramidVisionTransformer.set_cls_token self c in
          (stage4 self' x H W training, self')
      end
  end.


(** A block as the constructor of the model builds it for a stage of
    width [dim], [heads] heads, reduction ratio [sr] and hidden ratio
    [mlp_ratio]. *)
Definition stage_block (dim heads sr : Z) (mlp_ratio : number)
           (blk : PVT.Block.t) : Prop :=
  let a := PVT.Block.attention blk in
  PVT.Attention.dim a = dim
  /\ PVT.Attention.num_heads a = heads
  /\ PVT.Attention.head_dim a = dim / heads
  /\ PVT.Attention.sr_ratio a = sr
  /\ hidden_features dim mlp_ratio
     = Ok (units (PVT.MLP.fc1 (PVT.Block.mlp blk)))
  /\ units (PVT.MLP.fc2 (PVT.Block.mlp blk)) = dim
  /\ (PVT.Attention.sr a <> None <-> 1 < sr).

(** * Verification *)

(** ** The result monad *)

Lemma bind_Ok {A B : Type} (m : result A) (k : A -> result B) (b : B) :
  bind m k = Ok b -> exists a, m = Ok a /\ k a = Ok b.
Proof.
  destruct m as [a|e]; simpl; intros Hk.
  - exists a. split; [reflexivity | exact Hk].
  - discriminate Hk.
Qed.

Lemma bind_assoc {A B C : Type} (m : result A) (f : A -> result B)
      (g : B -> result C) :
  bind (bind m f) g = bind m (fun a => bind (f a) g).
Proof. destruct m; reflexivity. Qed.

Lemma bind_ret {A : Type} (m : result A) : bind m (fun a => Ok a) = m.
Proof. destruct m; reflexivity. Qed.

(** The symbolic result of a primitive that returned. *)
Lemma sym_of_Ok (r : result Shape.t) (e : term) (y : sym) :
  sym_of r e = Ok y -> sym_term y = e /\ r = Ok (sym_shape y).
Proof.
  unfold sym_of. destruct r as [s|]; cbn [bind]; [|discriminate].
  intros [= <-]. split; reflexivity.
Qed.

(** Inverts a hypothesis [x <- m ;; k = Ok b]. *)
Ltac bind_inv H :=
  let a := fresh "a" in
  let Hm := fresh "Hm" in
  apply bind_Ok in H; destruct H as (a & Hm & H).

(** List comprehensions. *)


Lemma mapM_length {A B : Type} (f : A -> result B) (l : list A)
      (bs : list B) :
  mapM f l = Ok bs -> List.length bs = List.length l.
Proof.
  revert bs. induction l as [|a l IH]; cbn [mapM]; intros bs Hb.
  - injection Hb as <-. reflexivity.
  - bind_inv Hb. bind_inv Hb. injection Hb as <-.
    cbn [List.length]. f_equal. apply IH. assumption.
Qed.

Lemma mapM_Forall {A B : Type} (f : A -> result B) (P : B -> Prop)
      (l : list A) (bs : list B) :
  (forall a b, f a = Ok b -> P b) ->
  mapM f l = Ok bs -> Forall P bs.
Proof.
  intros HP. revert bs. induction l as [|a l IH]; cbn [mapM]; intros bs Hb.
  - injection Hb as <-. constructor.
  - bind_inv Hb. bind_inv Hb. injection Hb as <-.
    constructor; [eapply HP; eassumption | apply IH; assumption].
Qed.

(** ** Shapes *)

Lemma prod_app (a b : Shape.t) :
  Shape.prod (a ++ b) = Shape.prod a * Shape.prod b.
Proof.
  induction a as [|x a IH]; simpl.
  - destruct (Shape.prod b); reflexivity.
  - change (fold_right Z.mul 1 (a ++ b)) with (Shape.prod (a ++ b)).
    rewrite IH. change (fold_right Z.mul 1 a) with (Shape.prod a). ring.
Qed.

Lemma eqb_refl (s : Shape.t) : Shape.eqb s s = true.
Proof.
  induction s as [|x s IH]; simpl; [reflexivity|].
  now rewrite Z.eqb_refl, IH.
Qed.


Lemma sizes_forallb (s : Shape.t) :
  sizes s -> forallb (fun d => -1 <=? d) s = true.
Proof.
  induction 1 as [|x s Hx _ IH]; simpl; [reflexivity|].
  rewrite IH, andb_true_r. apply Z.leb_le. lia.
Qed.

Lemma sizes_unknowns (s : Shape.t) : sizes s -> Shape.unknowns s = O.
Proof.
  unfold Shape.unknowns.
  induction 1 as [|x s Hx _ IH]; simpl; [reflexivity|].
  destruct (Z.eqb_spec x (-1)); [lia | exact IH].
Qed.

(** Sizes with a product other than 0 are positive. *)
Lemma sizes_positive (s : Shape.t) :
  sizes s -> Shape.prod s <> 0 -> Forall (fun d => 0 < d) s.
Proof.
  induction 1 as [|x s Hx _ IH]; [constructor|].
  change (Shape.prod (x :: s)) with (x * Shape.prod s). intros Hp.
  constructor.
  - assert (x <> 0) by (intros ->; apply Hp; reflexivity). lia.
  - apply IH. intros E. apply Hp. rewrite E. apply Z.mul_0_r.
Qed.

Lemma positive_given (s : Shape.t) :
  Forall (fun d => 0 < d) s -> Shape.given s = Shape.prod s.
Proof.
  unfold Shape.given.
  induction 1 as [|x s Hx _ IH]; simpl; [reflexivity|].
  destruct (Z.ltb_spec 0 x); [|lia]. simpl. f_equal. exact IH.
Qed.

Lemma positive_no_zero (s : Shape.t) :
  Forall (fun d => 0 < d) s -> existsb (Z.eqb 0) s = false.
Proof.
  induction 1 as [|x s Hx _ IH]; cbn [existsb]; [reflexivity|].
  destruct (Z.eqb_spec 0 x); [lia | exact IH].
Qed.

(** Every axis counts when the target has no axis of size 0. *)
Lemma counted_all (s : Shape.t) :
  filter (Shape.counted false) s = s
  /\ forallb (Shape.counted false) s = true.
Proof.
  assert (E : forall d, Shape.counted false d = true)
    by (intros d; apply orb_true_r).
  induction s as [|x s [IH1 IH2]]; cbn [filter forallb];
    [split; reflexivity|].
  rewrite E, IH1, IH2. split; reflexivity.
Qed.

Lemma sizes_map_id (s : Shape.t) (v : Z) :
  sizes s -> map (fun d => if d =? -1 then v else d) s = s.
Proof.
  induction 1 as [|x s Hx _ IH]; simpl; [reflexivity|].
  destruct (Z.eqb_spec x (-1)); [lia|]. now rewrite IH.
Qed.

(** [tf.reshape] to a target without [-1]: the element counts agree. *)
Lemma reshape_exact (s target : Shape.t) :
  sizes target ->
  Shape.reshape s target =
  if Shape.prod s =? Shape.prod target then Ok target
  else Err TensorShapeError.
Proof.
  intros Ht. unfold Shape.reshape.
  rewrite (sizes_forallb Ht), (sizes_unknowns Ht).
  reflexivity.
Qed.

(** [tf.reshape] to a target with one [-1] and no size 0: the missing
    size is the quotient of the element count by the product of the given
    sizes. *)
Lemma reshape_infer (s pre post : Shape.t) :
  sizes pre -> sizes post ->
  let k := Shape.prod pre * Shape.prod post in
  k <> 0 ->
  Shape.reshape s (pre ++ -1 :: post) =
  if Shape.prod s mod k =? 0 then Ok (pre ++ Shape.prod s / k :: post)
  else Err TensorShapeError.
Proof.
  intros Hpre Hpost k Hk. unfold Shape.reshape.
  assert (Ppre : Forall (fun d => 0 < d) pre)
    by (apply sizes_positive; [assumption | unfold k in Hk; nia]).
  assert (Ppost : Forall (fun d => 0 < d) post)
    by (apply sizes_positive; [assumption | unfold k in Hk; nia]).
  assert (Hall : forallb (fun d => -1 <=? d) (pre ++ -1 :: post) = true).
  { rewrite forallb_app. simpl.
    now rewrite (sizes_forallb Hpre), (sizes_forallb Hpost). }
  assert (Hun : Shape.unknowns (pre ++ -1 :: post) = 1%nat).
  { unfold Shape.unknowns. rewrite filter_app, length_app. simpl.
    fold (Shape.unknowns pre). fold (Shape.unknowns post).
    now rewrite (sizes_unknowns Hpre), (sizes_unknowns Hpost). }
  assert (Hz : existsb (Z.eqb 0) (pre ++ -1 :: post) = false).
  { rewrite existsb_app. cbn [existsb].
    rewrite (positive_no_zero Ppre), (positive_no_zero Ppost).
    reflexivity. }
  assert (Hg : Shape.given (pre ++ -1 :: post) = k).
  { unfold Shape.given. rewrite filter_app, prod_app. simpl.
    fold (Shape.given pre). fold (Shape.given post).
    now rewrite (positive_given Ppre), (positive_given Ppost). }
  rewrite Hall, Hun, Hz, Hg. cbv zeta.
  destruct (counted_all s) as [-> ->]. cbn [negb andb].
  rewrite map_app. simpl.
  rewrite (sizes_map_id _ Hpre), (sizes_map_id _ Hpost), prod_app.
  change (Shape.prod (Shape.prod s / k :: post))
    with (Shape.prod s / k * Shape.prod post).
  destruct (Z.eqb_spec (Shape.prod s mod k) 0) as [Hm|Hm].
  - assert (E : k * (Shape.prod s / k) = Shape.prod s)
      by (symmetry; apply Z_div_exact_full_2; assumption).
    rewrite E, Z.eqb_refl. cbn [negb].
    replace (Shape.prod pre * (Shape.prod s / k * Shape.prod post))
      with (k * (Shape.prod s / k)) by (unfold k; ring).
    rewrite E, Z.eqb_refl. reflexivity.
  - destruct (Z.eqb_spec (k * (Shape.prod s / k)) (Shape.prod s)) as [E|_];
      [|reflexivity].
    exfalso. apply Hm. rewrite <- E, Z.mul_comm. apply Z.mod_mul.
    assumption.
Qed.

(** [layers.Reshape] on a non-empty batch reshapes every sample: the
    batch size cancels in the divisibility test and in the quotient. *)
Lemma Reshape_infer (b : Z) (s pre post : Shape.t) :
  0 < b -> sizes pre -> sizes post ->
  let k := Shape.prod pre * Shape.prod post in
  k <> 0 ->
  Shape.Reshape (pre ++ -1 :: post) (b :: s) =
  if Shape.prod s mod k =? 0 then Ok (b :: pre ++ Shape.prod s / k :: post)
  else Err TensorShapeError.
Proof.
  intros Hb Hpre Hpost k Hk. unfold Shape.Reshape.
  change (b :: pre ++ -1 :: post) with ((b :: pre) ++ -1 :: post).
  change (Shape.prod (b :: s)) with (b * Shape.prod s).
  rewrite reshape_infer;
    [| constructor; [lia | exact Hpre] | exact Hpost
     | change (Shape.prod (b :: pre)) with (b * Shape.prod pre);
       fold k; unfold k in Hk; nia].
  change (Shape.prod (b :: s)) with (b * Shape.prod s).
  change (Shape.prod (b :: pre)) with (b * Shape.prod pre).
  replace (b * Shape.prod pre * Shape.prod post) with (b * k)
    by (unfold k; ring).
  rewrite Z.mul_mod_distr_l, Z.div_mul_cancel_l by lia.
  destruct (Z.eqb_spec (Shape.prod s mod k) 0) as [Hm|Hm].
  - rewrite Hm, Z.mul_0_r. reflexivity.
  - destruct (Z.eqb_spec (b * (Shape.prod s mod k)) 0); [nia | reflexivity].
Qed.

Lemma Reshape_exact (b : Z) (s target : Shape.t) :
  0 < b -> sizes target ->
  Shape.Reshape target (b :: s) =
  if Shape.prod s =? Shape.prod target then Ok (b :: target)
  else Err TensorShapeError.
Proof.
  intros Hb Ht. unfold Shape.Reshape.
  rewrite reshape_exact by (constructor; [lia | exact Ht]).
  change (Shape.prod (b :: s)) with (b * Shape.prod s).
  change (Shape.prod (b :: target)) with (b * Shape.prod target).
  destruct (Z.eqb_spec (Shape.prod s) (Shape.prod target)) as [E|E].
  - rewrite E, Z.eqb_refl. reflexivity.
  - destruct (Z.eqb_spec (b * Shape.prod s) (b * Shape.prod target));
      [nia | reflexivity].
Qed.

(** On an empty batch the size is inferred from the other axes. *)
Lemma Reshape_empty_batch :
  Shape.Reshape [-1; 2; 4] [0; 5; 8] = Ok [0; 5; 2; 4]
  /\ Shape.Reshape [-1; 2; 4] [3; 5; 7] = Err TensorShapeError.
Proof. repeat split; vm_compute; reflexivity. Qed.

(** The inferred size, when the element count is a multiple [n * k]. *)
Lemma Reshape_infer_Ok (b n : Z) (s pre post : Shape.t) :
  0 < b -> sizes pre -> sizes post ->
  Shape.prod pre * Shape.prod post <> 0 ->
  Shape.prod s = n * (Shape.prod pre * Shape.prod post) ->
  Shape.Reshape (pre ++ -1 :: post) (b :: s) = Ok (b :: pre ++ n :: post).
Proof.
  intros Hb Hpre Hpost Hk Hs. rewrite Reshape_infer by assumption.
  rewrite Hs, Z.mod_mul, Z.div_mul by exact Hk. reflexivity.
Qed.

Lemma matmul4 (b h m k b' h' p n : Z) :
  Shape.matmul [b; h; m; k] [b'; h'; p; n] false =
  if (b =? b') && (h =? h') && (k =? p) then Ok [b; h; m; n]
  else Err TensorShapeError.
Proof.
  unfold Shape.matmul. simpl. rewrite andb_true_r. reflexivity.
Qed.

Lemma matmul4_Ok (b h m k n : Z) :
  Shape.matmul [b; h; m; k] [b; h; k; n] false = Ok [b; h; m; n].
Proof. rewrite matmul4, !Z.eqb_refl. reflexivity. Qed.

Lemma broadcast_rev_refl (s : Shape.t) : Shape.broadcast_rev s s = Ok s.
Proof.
  induction s as [|x s IH]; simpl; [reflexivity|].
  rewrite Z.eqb_refl, IH. reflexivity.
Qed.

(** Adding two tensors of one shape. *)
Lemma add_same (s : Shape.t) : Shape.add s s = Ok s.
Proof.
  unfold Shape.add. rewrite broadcast_rev_refl. simpl.
  now rewrite rev_involutive.
Qed.

(** Adding a parameter of batch size 1 to a batch. *)
Lemma add_batch (b n d : Z) : Shape.add [b; n; d] [1; n; d] = Ok [b; n; d].
Proof.
  unfold Shape.add. simpl. rewrite !Z.eqb_refl. simpl.
  destruct (b =? 1); reflexivity.
Qed.

Lemma broadcast_to_batch (b d : Z) :
  Shape.broadcast_to [1; 1; d] [b; 1; d] = Ok [b; 1; d].
Proof.
  unfold Shape.broadcast_to, Shape.add. cbn -[Z.eqb].
  rewrite !Z.eqb_refl. cbn -[Z.eqb].
  destruct (Z.eqb_spec 1 b) as [<-|_]; cbn -[Z.eqb];
    rewrite ?Z.eqb_refl; reflexivity.
Qed.

Lemma concat_axis1 (b m n d : Z) :
  Shape.concat [b; m; d] [b; n; d] 1 = Ok [b; m + n; d].
Proof. unfold Shape.concat. simpl. now rewrite !Z.eqb_refl. Qed.

(** The axes before the last three are batch axes. *)
Lemma conv2d_batch_axes (l : Conv2D) :
  kernel_size l = 4 -> strides l = 4 ->
  Shape.conv2d l [2; 1; 224; 224; 3] = Ok [2; 1; 56; 56; filters l]
  /\ Shape.conv2d l [224; 224; 3] = Err TensorShapeError.
Proof.
  intros Hk Hs. unfold Shape.conv2d. cbn [Shape.split_image app].
  rewrite Hk, Hs. split; reflexivity.
Qed.

(** A convolution whose stride is its kernel size, on a spatial size that
    is a multiple of it. *)
Lemma conv2d_patches (l : Conv2D) (b h w c : Z) :
  strides l = kernel_size l -> 0 < kernel_size l -> 0 < c ->
  0 < h -> 0 < w -> (kernel_size l | h) -> (kernel_size l | w) ->
  Shape.conv2d l [b; h; w; c] =
  Ok [b; h / kernel_size l; w / kernel_size l; filters l].
Proof.
  intros Hs Hk Hc Hh Hw [qh Eh] [qw Ew]. unfold Shape.conv2d.
  cbn [Shape.split_image app]. rewrite Hs.
  set (k := kernel_size l) in *.
  assert (Hqh : 0 < qh) by nia. assert (Hqw : 0 < qw) by nia.
  replace ((h - k) / k + 1) with qh.
  2:{ subst h. replace (qh * k - k) with ((qh - 1) * k) by ring.
      rewrite Z.div_mul by lia. ring. }
  replace ((w - k) / k + 1) with qw.
  2:{ subst w. replace (qw * k - k) with ((qw - 1) * k) by ring.
      rewrite Z.div_mul by lia. ring. }
  replace (h / k) with qh by (subst h; now rewrite Z.div_mul by lia).
  replace (w / k) with qw by (subst w; now rewrite Z.div_mul by lia).
  destruct (Z.ltb_spec 0 k); [|lia].
  destruct (Z.ltb_spec 0 c); [|lia].
  destruct (Z.ltb_spec 0 qh); [|lia].
  destruct (Z.ltb_spec 0 qw); [|lia].
  reflexivity.
Qed.

(** ** The attention layer of the PVT *)

(** Unfolds the primitives of the interface at the shape instance. *)
Ltac shapes :=
  cbn [shape add_weight dense conv2d layer_norm dropout gelu Reshape reshape
       transpose matmul mul_scalar div_scalar softmax broadcast_to concat
       add cast index0 index1 ShapeTensor bind].

(** *** The constructors of the framework's layers *)

Lemma layers_Dense_inv (nm : name) (u : Z) (b : bool) (l : Dense) :
  layers_Dense nm u b = Ok l -> 0 <= u /\ l = mkDense nm u b.
Proof.
  unfold layers_Dense. destruct (Z.ltb_spec u 0); [discriminate|].
  intros [= <-]. auto.
Qed.

Lemma layers_Dense_Ok (nm : name) (u : Z) (b : bool) :
  0 <= u -> layers_Dense nm u b = Ok (mkDense nm u b).
Proof.
  intros Hu. unfold layers_Dense. destruct (Z.ltb_spec u 0); [lia|].
  reflexivity.
Qed.

Lemma layers_Dropout_inv (r : Q) (l : Dropout) :
  layers_Dropout r = Ok l -> is_rate r /\ l = mkDropout r.
Proof.
  unfold layers_Dropout, is_rate.
  destruct (Qle_bool 0 r) eqn:E0; [|discriminate].
  destruct (Qle_bool r 1) eqn:E1; [|discriminate].
  cbn [andb]. intros [= <-]. apply Qle_bool_iff in E0, E1. auto.
Qed.

Lemma layers_Dropout_Ok (r : Q) :
  is_rate r -> layers_Dropout r = Ok (mkDropout r).
Proof.
  intros [H0 H1]. unfold layers_Dropout.
  apply Qle_bool_iff in H0, H1. rewrite H0, H1. reflexivity.
Qed.

Lemma layers_Conv2D_inv (nm : name) (f k st : Z) (l : Conv2D) :
  layers_Conv2D nm f k st = Ok l ->
  0 < f /\ 0 < k /\ 0 < st /\ l = mkConv2D nm f k st.
Proof.
  unfold layers_Conv2D.
  destruct (Z.leb_spec f 0); [discriminate|].
  destruct (Z.leb_spec k 0); [discriminate|].
  destruct (Z.leb_spec st 0); [discriminate|].
  intros [= <-]. auto.
Qed.

Lemma layers_Conv2D_Ok (nm : name) (f k st : Z) :
  0 < f -> 0 < k -> 0 < st ->
  layers_Conv2D nm f k st = Ok (mkConv2D nm f k st).
Proof.
  intros Hf Hk Hs. unfold layers_Conv2D.
  destruct (Z.leb_spec f 0); [lia|].
  destruct (Z.leb_spec k 0); [lia|].
  destruct (Z.leb_spec st 0); [lia|]. reflexivity.
Qed.

Lemma is_rate_0 : is_rate 0.
Proof. split; discriminate. Qed.

(** The hidden width for a ratio that is a Python int. *)
Lemma hidden_ok_int (dim k : Z) :
  0 <= dim -> 0 <= k -> hidden_ok dim (PyInt k).
Proof.
  intros Hd Hk. exists (dim * k). split; [reflexivity | nia].
Qed.

(** The hidden width for a float ratio is a truncated floating-point
    product, not the truncated exact one. *)
#[warnings="-inexact-float"] Lemma hidden_features_float :
  hidden_features 100 (PyFloat 0.29) = Ok 28
  /\ hidden_features 5 (PyFloat 0.6) = Ok 3
  /\ hidden_features 64 (PyFloat 4) = Ok 256.
Proof. repeat split; vm_compute; reflexivity. Qed.

(** A dropout layer that can be called returns the shape of its input. *)
Lemma dropout_Ok (training : bool) (l : Dropout) (s : Shape.t) :
  drops training l -> Shape.dropout l training s = Ok s.
Proof.
  unfold Shape.dropout. intros [->|[H0 H1]]; [reflexivity|].
  apply Qle_bool_iff in H0. rewrite H0.
  destruct (Qle_bool 1 (rate l)) eqn:E.
  - apply Qle_bool_iff in E. exfalso. exact (Qlt_not_le _ _ H1 E).
  - cbn [andb negb]. rewrite andb_false_r. reflexivity.
Qed.


(** A dropout layer with a rate that was accepted can be called outside
    training, and in training when its rate is below 1. *)
Lemma drops_rate (training : bool) (r : Q) :
  is_rate r -> training = false \/ (r < 1)%Q ->
  drops training (mkDropout r).
Proof.
  intros [H0 _] [->|H1]; [left; reflexivity | right; auto].
Qed.

Lemma Attention_init_spec (nm : name) (dim heads : Z) (bias : bool)
      (qk : option Q) (ad pd : Q) (sr : Z) (a : PVT.Attention.t) :
  PVT.Attention.init nm dim heads bias qk ad pd sr = Ok a ->
  heads <> 0 /\ dim mod heads = 0
  /\ PVT.Attention.dim a = dim
  /\ PVT.Attention.num_heads a = heads
  /\ PVT.Attention.head_dim a = dim / heads
  /\ PVT.Attention.sr_ratio a = sr
  /\ PVT.Attention.q a = mkDense (nm ++ [Attr "q"]) dim bias
  /\ PVT.Attention.kv a = mkDense (nm ++ [Attr "kv"]) (2 * dim) bias
  /\ PVT.Attention.proj a = mkDense (nm ++ [Attr "proj"]) dim true
  /\ PVT.Attention.sr a
     = (if sr >? 1 then Some (mkConv2D (nm ++ [Attr "sr"]) dim sr sr)
        else None)
  /\ PVT.Attention.norm a
     = (if sr >? 1 then Some (mkLayerNormalization (nm ++ [Attr "norm"]))
        else None).
Proof.
  unfold PVT.Attention.init, py_mod, py_floordiv, py_assert.
  destruct (Z.eqb_spec heads 0) as [|Hh]; [discriminate|].
  cbn [bind]. destruct (Z.eqb_spec (dim mod heads) 0) as [Hm|]; [|discriminate].
  cbn [bind]. intros Hi.
  apply bind_Ok in Hi. destruct Hi as (sc & _ & Hi).
  apply bind_Ok in Hi. destruct Hi as (lq & Eq & Hi).
  apply bind_Ok in Hi. destruct Hi as (lkv & Ekv & Hi).
  apply bind_Ok in Hi. destruct Hi as (lad & _ & Hi).
  apply bind_Ok in Hi. destruct Hi as (lp & Ep & Hi).
  apply bind_Ok in Hi. destruct Hi as (lpd & _ & Hi).
  apply bind_Ok in Hi. destruct Hi as (lsr & Esr & Hi).
  apply layers_Dense_inv in Eq, Ekv, Ep.
  destruct Eq as [_ ->], Ekv as [_ ->], Ep as [_ ->].
  injection Hi as <-. cbn.
  repeat split; try assumption.
  destruct (sr >? 1); [|now injection Esr].
  apply bind_Ok in Esr. destruct Esr as (l & El & [= <-]).
  apply layers_Conv2D_inv in El. destruct El as (_ & _ & _ & ->).
  reflexivity.
Qed.

(** What the constructor of the attention layer checks besides
    divisibility, and the dropout layers that it builds. *)
Lemma Attention_init_rates (nm : name) (dim heads : Z) (bias : bool)
      (qk : option Q) (ad pd : Q) (sr : Z) (a : PVT.Attention.t) :
  PVT.Attention.init nm dim heads bias qk ad pd sr = Ok a ->
  0 <= dim /\ is_rate ad /\ is_rate pd
  /\ PVT.Attention.attention_drop a = mkDropout ad
  /\ PVT.Attention.proj_drop a = mkDropout pd
  /\ (1 < sr -> 0 < dim).
Proof.
  unfold PVT.Attention.init. intros Hi.
  apply bind_Ok in Hi. destruct Hi as (r & _ & Hi).
  apply bind_Ok in Hi. destruct Hi as (u & _ & Hi).
  apply bind_Ok in Hi. destruct Hi as (hd & _ & Hi).
  apply bind_Ok in Hi. destruct Hi as (sc & _ & Hi).
  apply bind_Ok in Hi. destruct Hi as (lq & Eq & Hi).
  apply bind_Ok in Hi. destruct Hi as (lkv & _ & Hi).
  apply bind_Ok in Hi. destruct Hi as (lad & Ead & Hi).
  apply bind_Ok in Hi. destruct Hi as (lp & _ & Hi).
  apply bind_Ok in Hi. destruct Hi as (lpd & Epd & Hi).
  apply bind_Ok in Hi. destruct Hi as (lsr & Esr & Hi).
  apply layers_Dense_inv in Eq. destruct Eq as [Hd _].
  apply layers_Dropout_inv in Ead, Epd.
  destruct Ead as [Had ->], Epd as [Hpd ->].
  injection Hi as <-. cbn.
  repeat split; try assumption; try apply Had; try apply Hpd.
  intros Hsr. destruct (Z.gtb_spec sr 1); [|lia].
  apply bind_Ok in Esr. destruct Esr as (l & El & _).
  apply layers_Conv2D_inv in El. tauto.
Qed.

(** A constructed attention layer can be called outside training, and in
    training when its rates are below 1. *)
Lemma Attention_init_drops (nm : name) (dim heads : Z) (bias : bool)
      (qk : option Q) (ad pd : Q) (sr : Z) (a : PVT.Attention.t)
      (training : bool) :
  PVT.Attention.init nm dim heads bias qk ad pd sr = Ok a ->
  training = false \/ (ad < 1 /\ pd < 1)%Q ->
  Attention_drops training a.
Proof.
  intros Hi Ht. apply Attention_init_rates in Hi.
  destruct Hi as (_ & Had & Hpd & Ea & Ep & _).
  unfold Attention_drops. rewrite Ea, Ep.
  split; apply drops_rate; try assumption; tauto.
Qed.

Lemma Attention_init_wf (nm : name) (dim heads : Z) (bias : bool)
      (qk : option Q) (ad pd : Q) (sr : Z) (a : PVT.Attention.t) :
  0 < dim -> 0 < heads ->
  PVT.Attention.init nm dim heads bias qk ad pd sr = Ok a ->
  Attention_wf a.
Proof.
  intros Hd Hh Hi.
  apply Attention_init_spec in Hi.
  destruct Hi as (_ & Hm & Ed & Eh & Ehd & Esr & Eq & Ekv & Ep & Es & En).
  assert (Hdiv : dim = heads * (dim / heads))
    by (apply Z_div_exact_full_2; lia).
  constructor; rewrite ?Ed, ?Eh, ?Ehd, ?Esr, ?Eq, ?Ekv, ?Ep, ?Es, ?En;
    cbn [units]; try reflexivity; try lia.
  intros Hsr. destruct (Z.gtb_spec sr 1); [|lia]. eauto.
Qed.

Ltac sizes_tac :=
  repeat (apply Forall_cons; [lia|]); apply Forall_nil.

Lemma dense3 (l : Dense) (b n c : Z) :
  Shape.dense l [b; n; c] = Ok [b; n; units l].
Proof. reflexivity. Qed.

(** The reshapes of the attention layers. *)
Lemma Reshape_split_heads (b n h d : Z) :
  0 < b -> 0 < h -> 0 < d ->
  Shape.Reshape [-1; h; d] [b; n; h * d] = Ok [b; n; h; d].
Proof.
  intros Hb Hh Hd.
  apply (@Reshape_infer_Ok b n [n; h * d] [] [h; d]);
    try sizes_tac; cbn [Shape.prod fold_right]; nia.
Qed.

Lemma Reshape_split_kv (b n h d : Z) :
  0 < b -> 0 < h -> 0 < d ->
  Shape.Reshape [-1; 2; h; d] [b; n; 2 * (h * d)] = Ok [b; n; 2; h; d].
Proof.
  intros Hb Hh Hd.
  apply (@Reshape_infer_Ok b n [n; 2 * (h * d)] [] [2; h; d]);
    try sizes_tac; cbn [Shape.prod fold_right]; nia.
Qed.

Lemma Reshape_merge_heads (b n h d : Z) :
  0 < b -> 0 < h -> 0 < d ->
  Shape.Reshape [-1; h * d] [b; n; h; d] = Ok [b; n; h * d].
Proof.
  intros Hb Hh Hd.
  apply (@Reshape_infer_Ok b n [n; h; d] [] [h * d]);
    try sizes_tac; cbn [Shape.prod fold_right]; nia.
Qed.

Lemma Reshape_spatial (b H W c : Z) :
  0 < b -> 0 < H -> 0 < W ->
  Shape.Reshape [H; W; -1] [b; H * W; c] = Ok [b; H; W; c].
Proof.
  intros Hb HH HW.
  apply (@Reshape_infer_Ok b c [H * W; c] [H; W] []);
    try sizes_tac; cbn [Shape.prod fold_right]; nia.
Qed.

Lemma Reshape_sequence (b m x y c : Z) :
  0 < b -> 0 < m -> x * y = m ->
  Shape.Reshape [m; -1] [b; x; y; c] = Ok [b; m; c].
Proof.
  intros Hb Hm E.
  apply (@Reshape_infer_Ok b c [x; y; c] [m] []);
    try sizes_tac; cbn [Shape.prod fold_right]; nia.
Qed.

(** Evaluates transpositions and indexing on shapes of known rank. *)
Ltac axes :=
  cbn [bind Shape.transpose Shape.is_perm List.length Nat.eqb forallb existsb
       seq andb orb map nth Shape.index0 Shape.index1 Shape.last_axis_op
       Z.leb Z.ltb Z.compare Pos.compare Pos.compare_cont].

(** The part of the attention call after the keys and values have been
    projected. *)
Ltac attention_tail :=
  axes; rewrite matmul4_Ok; axes;
  rewrite dropout_Ok by assumption; cbn [bind];
  rewrite matmul4_Ok; axes;
  rewrite Reshape_merge_heads by assumption; cbn [bind].

Lemma Attention_call_full (a : PVT.Attention.t) (b n c H W : Z)
      (training : bool) :
  Attention_wf a -> Attention_drops training a ->
  PVT.Attention.sr_ratio a <= 1 -> 0 < b ->
  PVT.Attention.call a [b; n; c] H W training
  = Ok [b; n; PVT.Attention.dim a].
Proof.
  intros [Hh Hhd Hdim Hq Hkv Hp _] [Hda Hdp] Hsr Hb.
  unfold PVT.Attention.call.
  set (h := PVT.Attention.num_heads a) in *.
  set (d := PVT.Attention.head_dim a) in *.
  destruct (Z.gtb_spec (PVT.Attention.sr_ratio a) 1) as [|_]; [lia|].
  shapes. rewrite !dense3, Hq, Hkv, <- Hdim. cbn [bind].
  rewrite Reshape_split_heads by assumption. axes.
  rewrite Reshape_split_kv by assumption.
  attention_tail. rewrite dense3, Hp, <- Hdim. cbn [bind].
  now apply dropout_Ok.
Qed.

Lemma Attention_call_sr (a : PVT.Attention.t) (b c H W : Z)
      (training : bool) :
  Attention_wf a -> Attention_drops training a ->
  1 < PVT.Attention.sr_ratio a ->
  0 < b -> 0 < c -> 0 < H -> 0 < W ->
  (PVT.Attention.sr_ratio a | H) -> (PVT.Attention.sr_ratio a | W) ->
  PVT.Attention.call a [b; H * W; c] H W training
  = Ok [b; H * W; PVT.Attention.dim a].
Proof.
  intros [Hh Hhd Hdim Hq Hkv Hp Hsrc] [Hda Hdp] Hsr Hb Hc HH HW DH DW.
  destruct (Hsrc Hsr) as (nm & nm' & Es & En).
  unfold PVT.Attention.call.
  set (h := PVT.Attention.num_heads a) in *.
  set (d := PVT.Attention.head_dim a) in *.
  set (sr := PVT.Attention.sr_ratio a) in *.
  destruct (Z.gtb_spec sr 1) as [_|]; [|lia].
  rewrite Es, En. unfold py_floordiv.
  destruct (Z.eqb_spec sr 0) as [|_]; [lia|].
  shapes. rewrite !dense3, Hq, <- Hdim. cbn [bind].
  rewrite Reshape_split_heads by assumption. axes.
  rewrite Reshape_spatial by assumption. cbn [bind getattr].
  rewrite conv2d_patches by (cbn [kernel_size strides]; auto with zarith).
  cbn [bind kernel_size filters].
  assert (E : H / sr * W / sr = H / sr * (W / sr))
    by (apply Z.divide_div_mul_exact; [lia | exact DW]).
  assert (0 < H / sr) by (destruct DH as [x ->]; rewrite Z.div_mul; nia).
  assert (0 < W / sr) by (destruct DW as [x ->]; rewrite Z.div_mul; nia).
  rewrite (@Reshape_sequence b (H / sr * W / sr) (H / sr) (W / sr))
    by (try assumption; nia).
  cbn [bind Shape.last_axis_op]. rewrite dense3, Hkv, <- Hdim. cbn [bind].
  rewrite Reshape_split_kv by assumption.
  attention_tail. rewrite dense3, Hp, <- Hdim. cbn [bind].
  now apply dropout_Ok.
Qed.

Lemma Attention_call_shape (a : PVT.Attention.t) (b n c H W : Z)
      (training : bool) :
  Attention_wf a -> Attention_drops training a ->
  sr_fits a n H W -> 0 < b -> 0 < c ->
  PVT.Attention.call a [b; n; c] H W training
  = Ok [b; n; PVT.Attention.dim a].
Proof.
  intros Hwf Hdr Hfit Hb Hc.
  destruct (Z_le_gt_dec (PVT.Attention.sr_ratio a) 1) as [Hle|Hgt].
  - now apply Attention_call_full.
  - destruct Hfit as [|(-> & HH & HW & DH & DW)]; [lia|].
    apply Attention_call_sr; auto; lia.
Qed.

Lemma Block_init_spec (nm : name) (dim heads : Z) (mlp_ratio : number)
      (bias : bool) (qk : option Q) (dr ad pd : Q) (sr : Z)
      (blk : PVT.Block.t) :
  PVT.Block.init nm dim heads mlp_ratio bias qk dr ad pd sr = Ok blk ->
  PVT.Attention.init (nm ++ [Attr "attention"]) dim heads bias qk ad pd sr
  = Ok (PVT.Block.attention blk)
  /\ units (PVT.MLP.fc2 (PVT.Block.mlp blk)) = dim.
Proof.
  unfold PVT.Block.init, PVT.MLP.init. intros Hi.
  apply bind_Ok in Hi. destruct Hi as (a & Ha & Hi).
  apply bind_Ok in Hi. destruct Hi as (x & _ & Hi).
  apply bind_Ok in Hi. destruct Hi as (h & _ & Hi).
  apply bind_Ok in Hi. destruct Hi as (m & Em & Hi).
  apply bind_Ok in Em. destruct Em as (l1 & _ & Em).
  apply bind_Ok in Em. destruct Em as (l2 & E2 & Em).
  apply bind_Ok in Em. destruct Em as (l3 & _ & Em).
  apply layers_Dense_inv in E2. destruct E2 as [_ ->].
  injection Em as <-. injection Hi as <-.
  split; [exact Ha | reflexivity].
Qed.

(** The MLP that the constructor of a block builds: its hidden width is
    [int(dim * mlp_ratio)], which is defined and not negative. *)
Lemma Block_init_mlp (nm : name) (dim heads : Z) (mlp_ratio : number)
      (bias : bool) (qk : option Q) (dr ad pd : Q) (sr : Z)
      (blk : PVT.Block.t) :
  PVT.Block.init nm dim heads mlp_ratio bias qk dr ad pd sr = Ok blk ->
  exists h,
    hidden_features dim mlp_ratio = Ok h /\ 0 <= h /\ is_rate dr
    /\ PVT.Block.mlp blk
       = PVT.MLP.mk (mkDense (nm ++ [Attr "mlp"] ++ [Attr "fc1"]) h true)
           (mkDense (nm ++ [Attr "mlp"] ++ [Attr "fc2"]) dim true)
           (mkDropout dr).
Proof.
  unfold PVT.Block.init, PVT.MLP.init, hidden_features. intros Hi.
  apply bind_Ok in Hi. destruct Hi as (a & _ & Hi).
  apply bind_Ok in Hi. destruct Hi as (x & Ex & Hi).
  apply bind_Ok in Hi. destruct Hi as (h & Eh & Hi).
  apply bind_Ok in Hi. destruct Hi as (m & Em & Hi).
  apply bind_Ok in Em. destruct Em as (l1 & E1 & Em).
  apply bind_Ok in Em. destruct Em as (l2 & E2 & Em).
  apply bind_Ok in Em. destruct Em as (l3 & E3 & Em).
  apply layers_Dense_inv in E1, E2. apply layers_Dropout_inv in E3.
  destruct E1 as [Hh ->], E2 as [_ ->], E3 as [Hr ->].
  injection Em as <-. injection Hi as <-.
  exists h. rewrite Ex. cbn [bind PVT.Block.mlp].
  rewrite <- !app_assoc. auto.
Qed.

Lemma Block_init_wf (nm : name) (dim heads : Z) (mlp_ratio : number)
      (bias : bool) (qk : option Q) (dr ad pd : Q) (sr : Z)
      (blk : PVT.Block.t) :
  0 < dim -> 0 < heads ->
  PVT.Block.init nm dim heads mlp_ratio bias qk dr ad pd sr = Ok blk ->
  Block_wf blk
  /\ PVT.Attention.dim (PVT.Block.attention blk) = dim
  /\ PVT.Attention.sr_ratio (PVT.Block.attention blk) = sr.
Proof.
  intros Hd Hh Hi. apply Block_init_spec in Hi. destruct Hi as [Ha Hm].
  assert (Hwf : Attention_wf (PVT.Block.attention blk))
    by (eapply Attention_init_wf; [| | exact Ha]; assumption).
  apply Attention_init_spec in Ha.
  destruct Ha as (_ & _ & Ed & _ & _ & Esr & _).
  split; [constructor; [exact Hwf | now rewrite Ed] | split; assumption].
Qed.

(** A constructed block can be called outside training, and in training
    when its rates are below 1. *)
Lemma Block_init_drops (nm : name) (dim heads : Z) (mlp_ratio : number)
      (bias : bool) (qk : option Q) (dr ad pd : Q) (sr : Z)
      (blk : PVT.Block.t) (training : bool) :
  PVT.Block.init nm dim heads mlp_ratio bias qk dr ad pd sr = Ok blk ->
  training = false \/ (dr < 1 /\ ad < 1 /\ pd < 1)%Q ->
  Block_drops training blk.
Proof.
  intros Hi Ht. pose proof Hi as Hm. apply Block_init_mlp in Hm.
  destruct Hm as (h & _ & _ & Hr & Em).
  apply Block_init_spec in Hi. destruct Hi as [Ha _].
  split.
  - eapply Attention_init_drops; [exact Ha | tauto].
  - rewrite Em. cbn [PVT.MLP.drop]. apply drops_rate; [exact Hr | tauto].
Qed.

Lemma MLP_call_shape (m : PVT.MLP.t) (b n c : Z) (training : bool) :
  drops training (PVT.MLP.drop m) ->
  PVT.MLP.call m [b; n; c] training = Ok [b; n; units (PVT.MLP.fc2 m)].
Proof.
  intros Hd. unfold PVT.MLP.call. shapes. rewrite dense3. cbn [bind].
  rewrite dense3. cbn [bind].
  destruct training; [|reflexivity].
  rewrite dropout_Ok by assumption. reflexivity.
Qed.

(** A block returns the shape of its input. *)
Lemma Block_call_shape (blk : PVT.Block.t) (b n H W : Z) (training : bool) :
  Block_wf blk -> Block_drops training blk ->
  sr_fits (PVT.Block.attention blk) n H W -> 0 < b ->
  let dim := PVT.Attention.dim (PVT.Block.attention blk) in
  PVT.Block.call blk [b; n; dim] H W training = Ok [b; n; dim].
Proof.
  intros [Hwf Hmlp] [Hda Hdm] Hfit Hb dim. unfold PVT.Block.call.
  assert (Hdim : 0 < dim).
  { unfold dim. destruct Hwf as [? ? <- _ _ _ _]. nia. }
  shapes. cbn [Shape.last_axis_op bind].
  rewrite Attention_call_shape by assumption. fold dim. cbn [bind].
  rewrite add_same. cbn [bind].
  rewrite MLP_call_shape, Hmlp by assumption. fold dim. cbn [bind].
  apply add_same.
Qed.

(** A stack of blocks of one width returns the shape of its input. *)
Lemma run_blocks_shape (blocks : list PVT.Block.t) (b n dim H W : Z)
      (training : bool) :
  Forall (fun blk => Block_wf blk
                     /\ PVT.Attention.dim (PVT.Block.attention blk) = dim
                     /\ sr_fits (PVT.Block.attention blk) n H W
                     /\ Block_drops training blk) blocks ->
  0 < b ->
  PVT.PyramidVisionTransformer.run_blocks blocks [b; n; dim] H W training
  = Ok [b; n; dim].
Proof.
  intros Hall Hb. unfold PVT.PyramidVisionTransformer.run_blocks.
  induction Hall as [|blk blocks (Hwf & Hdim & Hfit & Hdr) _ IH];
    [reflexivity|].
  cbn [foldM]. subst dim.
  rewrite Block_call_shape by assumption. exact IH.
Qed.

Lemma PatchEmbedding_init_spec (nm : name) (img p e : Z)
      (pe : PVT.PatchEmbedding.t) :
  PVT.PatchEmbedding.init nm img p e = Ok pe ->
  p <> 0 /\ img mod p = 0
  /\ pe = PVT.PatchEmbedding.mk img p e (img / p) (img / p)
            (img / p * (img / p))
            (mkConv2D (nm ++ [Attr "project"]) e p p)
            (mkLayerNormalization (nm ++ [Attr "norm"])).
Proof.
  unfold PVT.PatchEmbedding.init, py_mod, py_floordiv, py_assert.
  destruct (Z.eqb_spec p 0) as [Hp|Hp]; cbn [bind]; [discriminate|].
  destruct (Z.eqb_spec (img mod p) 0) as [Hm|Hm]; cbn [bind];
    [|discriminate].
  intros Hi. apply bind_Ok in Hi. destruct Hi as (l & El & Hi).
  apply layers_Conv2D_inv in El. destruct El as (_ & _ & _ & ->).
  injection Hi as <-. auto.
Qed.


Lemma Attention_init_Ok_heads (nm : name) (dim heads : Z) (bias : bool)
      (qk : option Q) (ad pd : Q) (sr : Z) :
  0 < dim -> heads <> 0 -> dim mod heads = 0 -> is_rate ad -> is_rate pd ->
  exists a, PVT.Attention.init nm dim heads bias qk ad pd sr = Ok a.
Proof.
  intros Hd Hh Hm Had Hpd.
  unfold PVT.Attention.init, py_mod, py_floordiv, py_assert, py_pow_neg_half.
  destruct (Z.eqb_spec heads 0) as [|_]; [lia|]. cbn [bind].
  rewrite Hm. cbn [Z.eqb bind].
  assert (Hhd : dim / heads <> 0).
  { assert (dim = heads * (dim / heads)) by (apply Z_div_exact_full_2; lia).
    nia. }
  destruct (Z.eqb_spec (dim / heads) 0) as [|_]; [contradiction|].
  rewrite !layers_Dense_Ok, !layers_Dropout_Ok by (assumption || lia).
  assert (Es : exists l,
             (if sr >? 1
              then s <- layers_Conv2D (nm ++ [Attr "sr"]) dim sr sr ;;
                   Ok (Some s)
              else Ok None) = Ok l).
  { destruct (Z.gtb_spec sr 1); [|eauto].
    rewrite layers_Conv2D_Ok by lia. cbn [bind]. eauto. }
  destruct Es as [l ->].
  destruct qk as [q|]; [destruct (py_truthy (Some q))|];
    cbn [bind]; eauto.
Qed.

Lemma Attention_init_Ok (nm : name) (dim heads : Z) (bias : bool)
      (qk : option Q) (ad pd : Q) (sr : Z) :
  0 < dim -> 0 < heads -> dim mod heads = 0 -> is_rate ad -> is_rate pd ->
  exists a, PVT.Attention.init nm dim heads bias qk ad pd sr = Ok a.
Proof.
  intros Hd Hh Hm Had Hpd. apply Attention_init_Ok_heads; assumption || lia.
Qed.

Lemma Block_init_Ok (nm : name) (dim heads : Z) (mlp_ratio : number)
      (bias : bool) (qk : option Q) (dr ad pd : Q) (sr : Z) :
  0 < dim -> 0 < heads -> dim mod heads = 0 ->
  is_rate dr -> is_rate ad -> is_rate pd -> hidden_ok dim mlp_ratio ->
  exists blk,
    PVT.Block.init nm dim heads mlp_ratio bias qk dr ad pd sr = Ok blk.
Proof.
  intros Hd Hh Hm Hdr Had Hpd (h & Eh & Hh0).
  unfold PVT.Block.init, PVT.MLP.init.
  destruct (@Attention_init_Ok (nm ++ [Attr "attention"]) dim heads bias qk
              ad pd sr Hd Hh Hm Had Hpd) as [a ->].
  cbn [bind]. unfold hidden_features in Eh.
  apply bind_Ok in Eh. destruct Eh as (x & Ex & Eh).
  rewrite Ex. cbn [bind]. rewrite Eh. cbn [bind].
  rewrite !layers_Dense_Ok, layers_Dropout_Ok by (assumption || lia).
  cbn [bind]. eauto.
Qed.

(** The blocks of a stage: as many as [depths[i]], each a well-formed
    block of the stage's width and reduction ratio. *)
Lemma blocks_Ok (nm : string) (c : PVT.PyramidVisionTransformer.config)
      (i : nat) (n dim heads sr : Z) (mlp_ratio : number) :
  py_index (PVT.PyramidVisionTransformer.cfg_depths c) i = Ok n ->
  py_index (PVT.PyramidVisionTransformer.cfg_embed_dims c) i = Ok dim ->
  py_index (PVT.PyramidVisionTransformer.cfg_num_heads c) i = Ok heads ->
  py_index (PVT.PyramidVisionTransformer.cfg_mlp_ratios c) i = Ok mlp_ratio ->
  py_index (PVT.PyramidVisionTransformer.cfg_sr_ratios c) i = Ok sr ->
  0 < dim -> 0 < heads -> dim mod heads = 0 ->
  is_rate (PVT.PyramidVisionTransformer.cfg_drop_rate c) ->
  is_rate (PVT.PyramidVisionTransformer.cfg_attn_drop_rate c) ->
  hidden_ok dim mlp_ratio ->
  exists bl,
    PVT.PyramidVisionTransformer.blocks nm c i = Ok bl
    /\ List.length bl = Z.to_nat n
    /\ Forall (fun blk =>
                 Block_wf blk
                 /\ PVT.Attention.dim (PVT.Block.attention blk) = dim
                 /\ PVT.Attention.sr_ratio (PVT.Block.attention blk) = sr)
              bl.
Proof.
  intros En Ed Eh Er Es Hd Hh Hm Hdr Had Hhid.
  unfold PVT.PyramidVisionTransformer.blocks, py_range.
  rewrite En, Ed, Eh, Er, Es. cbn [bind].
  generalize 0%nat. induction (Z.to_nat n) as [|k IH]; intros j.
  - exists []. repeat split. constructor.
  - cbn [seq mapM].
    destruct (@Block_init_Ok [Attr nm; Idx j] dim heads mlp_ratio
                (PVT.PyramidVisionTransformer.cfg_qkv_bias c)
                (PVT.PyramidVisionTransformer.cfg_qk_scale c)
                (PVT.PyramidVisionTransformer.cfg_drop_rate c)
                (PVT.PyramidVisionTransformer.cfg_attn_drop_rate c)
                0%Q sr Hd Hh Hm Hdr Had is_rate_0 Hhid) as [blk Hblk].
    rewrite Hblk. cbn [bind].
    destruct (IH (S j)) as (bl & -> & Hlen & Hall). cbn [bind].
    exists (blk :: bl). split; [reflexivity|]. split; [simpl; lia|].
    constructor; [|exact Hall].
    eapply Block_init_wf; [| | exact Hblk]; assumption.
Qed.

(** The blocks of a stage can be called outside training, and in training
    when the rates of the configuration are below 1. *)
Lemma blocks_drops (nm : string) (c : PVT.PyramidVisionTransformer.config)
      (i : nat) (bl : list PVT.Block.t) (training : bool) :
  PVT.PyramidVisionTransformer.blocks nm c i = Ok bl ->
  training = false
  \/ (PVT.PyramidVisionTransformer.cfg_drop_rate c < 1
      /\ PVT.PyramidVisionTransformer.cfg_attn_drop_rate c < 1)%Q ->
  Forall (Block_drops training) bl.
Proof.
  unfold PVT.PyramidVisionTransformer.blocks. intros Hb Ht.
  apply bind_Ok in Hb. destruct Hb as (n & _ & Hb).
  revert Hb. apply mapM_Forall. intros j blk Hblk.
  apply bind_Ok in Hblk. destruct Hblk as (d & _ & Hblk).
  apply bind_Ok in Hblk. destruct Hblk as (h & _ & Hblk).
  apply bind_Ok in Hblk. destruct Hblk as (r & _ & Hblk).
  apply bind_Ok in Hblk. destruct Hblk as (s & _ & Hblk).
  eapply Block_init_drops; [exact Hblk|].
  destruct Ht as [|[? ?]]; [left; assumption | right].
  repeat split; assumption || reflexivity.
Qed.

Ltac zdiv := Z.div_mod_to_equations; lia.

Lemma PatchEmbedding_init_Ok (nm : name) (img p e : Z) :
  0 < p -> 0 < e -> img mod p = 0 ->
  PVT.PatchEmbedding.init nm img p e
  = Ok (PVT.PatchEmbedding.mk img p e (img / p) (img / p)
          (img / p * (img / p))
          (mkConv2D (nm ++ [Attr "project"]) e p p)
          (mkLayerNormalization (nm ++ [Attr "norm"]))).
Proof.
  intros Hp He Hm.
  unfold PVT.PatchEmbedding.init, py_mod, py_floordiv, py_assert.
  destruct (Z.eqb_spec p 0) as [|_]; [lia|]. cbn [bind].
  rewrite Hm. cbn [Z.eqb bind].
  rewrite layers_Conv2D_Ok by assumption. reflexivity.
Qed.

Lemma PatchEmbedding_call_mk (cn : name) (ln : LayerNormalization)
      (img p e b c : Z) :
  0 < p -> 0 < img -> img mod p = 0 -> 0 <= e -> 0 < b -> 0 < c ->
  PVT.PatchEmbedding.call
    (PVT.PatchEmbedding.mk img p e (img / p) (img / p) (img / p * (img / p))
       (mkConv2D cn e p p) ln) [b; img; img; c]
  = Ok ([b; img / p * (img / p); e], (img / p, img / p)).
Proof.
  intros Hp Himg Hm He Hb Hc.
  assert (Hdiv : (p | img)) by (apply Z.mod_divide; lia).
  unfold PVT.PatchEmbedding.call. shapes.
  cbn [PVT.PatchEmbedding.project PVT.PatchEmbedding.num_patches
       PVT.PatchEmbedding.embedding_dim PVT.PatchEmbedding.H
       PVT.PatchEmbedding.W].
  rewrite conv2d_patches by (cbn [kernel_size strides]; auto).
  cbn [bind kernel_size filters].
  assert (0 < img / p) by (destruct Hdiv as [x ->]; rewrite Z.div_mul; nia).
  rewrite Reshape_exact by (try sizes_tac; nia).
  cbn [Shape.prod fold_right].
  destruct (Z.eqb_spec (img / p * (img / p * (e * 1)))
                       (img / p * (img / p) * (e * 1))) as [_|Hne];
    [reflexivity | exfalso; apply Hne; ring].
Qed.

Lemma stage_blocks_fit (bl : list PVT.Block.t) (dim s side : Z)
      (training : bool) :
  0 < side -> stage_sr s side -> Forall (Block_drops training) bl ->
  stage_blocks bl dim s ->
  Forall (fun blk =>
            Block_wf blk
            /\ PVT.Attention.dim (PVT.Block.attention blk) = dim
            /\ sr_fits (PVT.Block.attention blk) (side * side) side side
            /\ Block_drops training blk) bl.
Proof.
  intros Hside Hs Hdr Hbl. unfold stage_blocks in Hbl.
  induction Hbl as [|blk bl [Hwf [Hd Hsr]] _ IH];
    [constructor|].
  apply Forall_cons_iff in Hdr. destruct Hdr as [Hd1 Hd2].
  constructor; [|exact (IH Hd2)].
  split; [exact Hwf | split; [exact Hd | split; [|exact Hd1]]].
  unfold sr_fits. rewrite Hsr.
  destruct Hs as [|Hdiv]; [left; assumption | right; auto].
Qed.

(** The blocks of a stage without spatial reduction accept a sequence of
    any length. *)
Lemma stage_blocks_full (bl : list PVT.Block.t) (dim s n H W : Z)
      (training : bool) :
  s <= 1 -> Forall (Block_drops training) bl ->
  stage_blocks bl dim s ->
  Forall (fun blk =>
            Block_wf blk
            /\ PVT.Attention.dim (PVT.Block.attention blk) = dim
            /\ sr_fits (PVT.Block.attention blk) n H W
            /\ Block_drops training blk) bl.
Proof.
  intros Hs Hdr Hbl. unfold stage_blocks in Hbl.
  induction Hbl as [|blk bl [Hwf [Hd Hsr]] _ IH];
    [constructor|].
  apply Forall_cons_iff in Hdr. destruct Hdr as [Hd1 Hd2].
  constructor; [|exact (IH Hd2)].
  split; [exact Hwf | split; [exact Hd | split; [|exact Hd1]]].
  left. lia.
Qed.

Section Forward.

Import PVT.PyramidVisionTransformer.

Variables (img num_classes d0 d1 d2 d3 h0 h1 h2 h3 : Z).
Variables (n0 n1 n2 n3 s0 s1 s2 s3 : Z) (r0 r1 r2 r3 : number).
Variables (qkv_bias : bool) (qk_scale : option Q).
Variables (drop_rate attn_drop_rate : Q).

(** A configuration with the default patch size. *)
Local Abbreviation c :=
  (mkConfig img 4 num_classes [d0; d1; d2; d3] [h0; h1; h2; h3]
            [r0; r1; r2; r3] qkv_bias qk_scale drop_rate attn_drop_rate
            [n0; n1; n2; n3] [s0; s1; s2; s3]).

Local Abbreviation model :=
  (staged_model img num_classes d0 d1 d2 d3 [n0; n1; n2; n3] drop_rate).

Hypothesis Himg : 0 < img.
Hypothesis Hdiv : (32 | img).
Hypothesis Hd0 : 0 < d0.
Hypothesis Hd1 : 0 < d1.
Hypothesis Hd2 : 0 < d2.
Hypothesis Hd3 : 0 < d3.
Hypothesis Hh0 : 0 < h0.
Hypothesis Hh1 : 0 < h1.
Hypothesis Hh2 : 0 < h2.
Hypothesis Hh3 : 0 < h3.
Hypothesis Hm0 : d0 mod h0 = 0.
Hypothesis Hm1 : d1 mod h1 = 0.
Hypothesis Hm2 : d2 mod h2 = 0.
Hypothesis Hm3 : d3 mod h3 = 0.
Hypothesis Hs0 : stage_sr s0 (img / 4).
Hypothesis Hs1 : stage_sr s1 (img / 8).
Hypothesis Hs2 : stage_sr s2 (img / 16).
Hypothesis Hs3 : s3 <= 1.
Hypothesis Hnc : 0 <= num_classes.
Hypothesis Hdr : is_rate drop_rate.
Hypothesis Had : is_rate attn_drop_rate.
Hypothesis Hr0 : hidden_ok d0 r0.
Hypothesis Hr1 : hidden_ok d1 r1.
Hypothesis Hr2 : hidden_ok d2 r2.
Hypothesis Hr3 : hidden_ok d3 r3.

Lemma init_Ok :
  exists bl1 bl2 bl3 bl4,
    init (T := Shape.t) c = Ok (model bl1 bl2 bl3 bl4)
    /\ (blocks "block1" c 0 = Ok bl1 /\ blocks "block2" c 1 = Ok bl2
        /\ blocks "block3" c 2 = Ok bl3 /\ blocks "block4" c 3 = Ok bl4)
    /\ stage_blocks bl1 d0 s0 /\ stage_blocks bl2 d1 s1
    /\ stage_blocks bl3 d2 s2 /\ stage_blocks bl4 d3 s3.
Proof.
  destruct (@blocks_Ok "block1"%string c 0 n0 d0 h0 s0 r0)
    as (bl1 & E1 & _ & F1);
    try reflexivity; try assumption.
  destruct (@blocks_Ok "block2"%string c 1 n1 d1 h1 s1 r1)
    as (bl2 & E2 & _ & F2);
    try reflexivity; try assumption.
  destruct (@blocks_Ok "block3"%string c 2 n2 d2 h2 s2 r2)
    as (bl3 & E3 & _ & F3);
    try reflexivity; try assumption.
  destruct (@blocks_Ok "block4"%string c 3 n3 d3 h3 s3 r3)
    as (bl4 & E4 & _ & F4);
    try reflexivity; try assumption.
  exists bl1, bl2, bl3, bl4. split; [|auto].
  unfold init. rewrite E1, E2, E3, E4.
  cbn [cfg_img_size cfg_patch_size cfg_embed_dims cfg_drop_rate
       cfg_num_classes py_index nth_error bind].
  destruct Hdiv as [q Eq].
  rewrite !PatchEmbedding_init_Ok by (assumption || zdiv).
  cbn [bind].
  rewrite !layers_Dropout_Ok, layers_Dense_Ok by assumption.
  reflexivity.
Qed.

Variables (B ch : Z) (training : bool).
Hypothesis HB : 0 < B.
Hypothesis Hch : 0 < ch.
Hypothesis Htr : training = false
                 \/ (drop_rate < 1 /\ attn_drop_rate < 1)%Q.

(** Runs a method up to its next primitive. *)
Ltac run :=
  cbn [mbind lift get_self set_self bind fst snd
       patch_embed1 patch_embed2 patch_embed3 patch_embed4
       pos_embed1 pos_embed2 pos_embed3 pos_embed4
       pos_drop1 pos_drop2 pos_drop3 pos_drop4
       block1 block2 block3 block4 norm cls_token dense_ set_cls_token
       shape add_weight dense conv2d layer_norm dropout gelu Reshape
       reshape transpose matmul mul_scalar div_scalar softmax broadcast_to
       concat add cast index0 index1 ShapeTensor].

Lemma call_shape (bl1 bl2 bl3 bl4 : list PVT.Block.t) :
  stage_blocks bl1 d0 s0 -> stage_blocks bl2 d1 s1 ->
  stage_blocks bl3 d2 s2 -> stage_blocks bl4 d3 s3 ->
  Forall (Block_drops training) bl1 -> Forall (Block_drops training) bl2 ->
  Forall (Block_drops training) bl3 -> Forall (Block_drops training) bl4 ->
  call [B; img; img; ch] training (model bl1 bl2 bl3 bl4)
  = (Ok [B; num_classes],
     set_cls_token (model bl1 bl2 bl3 bl4) [B; 1; d3]).
Proof.
  intros F1 F2 F3 F4 D1 D2 D3 D4.
  assert (Hpd : drops training (mkDropout drop_rate)).
  { apply drops_rate; [exact Hdr | tauto]. }
  assert (A4 : img mod 4 = 0 /\ 0 < img / 4)
    by (destruct Hdiv as [q Eq]; zdiv).
  assert (A8 : (img / 4) mod 2 = 0 /\ img / 4 / 2 = img / 8 /\ 0 < img / 8)
    by (destruct Hdiv as [q Eq]; zdiv).
  assert (A16 : (img / 8) mod 2 = 0 /\ img / 8 / 2 = img / 16
                /\ 0 < img / 16)
    by (destruct Hdiv as [q Eq]; zdiv).
  assert (A32 : (img / 16) mod 2 = 0 /\ img / 16 / 2 = img / 32
                /\ 0 < img / 32)
    by (destruct Hdiv as [q Eq]; zdiv).
  destruct A4 as [M4 P4]. destruct A8 as (M8 & E8 & P8).
  destruct A16 as (M16 & E16 & P16). destruct A32 as (M32 & E32 & P32).
  apply (stage_blocks_fit P4 Hs0 D1) in F1.
  apply (stage_blocks_fit P8 Hs1 D2) in F2.
  apply (stage_blocks_fit P16 Hs2 D3) in F3.
  unfold call, staged_model, patch_embedding. run.
  cbn [py_index nth_error]. run.
  (* stage 1 *)
  rewrite PatchEmbedding_call_mk by (assumption || lia). run.
  rewrite add_batch. run.
  rewrite dropout_Ok by assumption. run.
  rewrite run_blocks_shape by assumption. run.
  rewrite Reshape_spatial by assumption. run.
  (* stage 2 *)
  rewrite PatchEmbedding_call_mk by (assumption || lia). run.
  rewrite add_batch. run. rewrite !E8.
  rewrite dropout_Ok by assumption. run.
  rewrite run_blocks_shape by assumption. run.
  rewrite Reshape_spatial by assumption. run.
  (* stage 3 *)
  rewrite PatchEmbedding_call_mk by (assumption || lia). run.
  rewrite add_batch. run. rewrite !E16.
  rewrite dropout_Ok by assumption. run.
  rewrite run_blocks_shape by assumption. run.
  rewrite Reshape_spatial by assumption. run.
  (* stage 4 *)
  rewrite PatchEmbedding_call_mk by (assumption || lia). run.
  cbn [py_last rev app]. run.
  rewrite broadcast_to_batch. run.
  rewrite concat_axis1. run.
  rewrite (Z.add_comm 1), add_batch. run.
  rewrite dropout_Ok by assumption. run.
  rewrite run_blocks_shape;
    [| exact (stage_blocks_full _ _ _ Hs3 D4 F4) | assumption].
  run. cbn [Shape.last_axis_op]. run.
  unfold Shape.index1.
  destruct (Z.ltb_spec 0 (img / 16 / 2 * (img / 16 / 2) + 1)); [|nia].
  cbn [Z.leb Z.compare andb]. run.
  reflexivity.
Qed.

(** The forward pass of a freshly constructed model returns one row of
    [num_classes] logits per image, and leaves the broadcast class token
    in [self.cls_token]. *)
Lemma forward_shape :
  exists m,
    init (T := Shape.t) c = Ok m
    /\ call [B; img; img; ch] training m
       = (Ok [B; num_classes], set_cls_token m [B; 1; d3])
    /\ cls_token m = [1; 1; d3].
Proof.
  destruct init_Ok
    as (bl1 & bl2 & bl3 & bl4 & Ei & (E1 & E2 & E3 & E4)
        & F1 & F2 & F3 & F4).
  exists (model bl1 bl2 bl3 bl4).
  split; [exact Ei|]. split; [|reflexivity].
  apply call_shape; try assumption;
    eapply blocks_drops; try eassumption; exact Htr.
Qed.

End Forward.

(** ** Methods *)

Lemma mbind_Ok {S A B : Type} (m : method S A) (k : A -> method S B)
      (s s' : S) (b : B) :
  mbind m k s = (Ok b, s') ->
  exists a s1, m s = (Ok a, s1) /\ k a s1 = (Ok b, s').
Proof.
  unfold mbind. destruct (m s) as [[a|e] s1]; intros Hk.
  - exists a, s1. split; [reflexivity | exact Hk].
  - discriminate Hk.
Qed.

(** Inverts the first statement of a method that returned normally. *)
Ltac mbind_inv H :=
  let a := fresh "a" in
  let s := fresh "self" in
  let Hm := fresh "Hm" in
  apply mbind_Ok in H; destruct H as (a & s & Hm & H);
  unfold lift, get_self, set_self in Hm;
  injection Hm as Hm ?; subst;
  repeat match type of H with
         | context [match ?p with (_, _) => _ end] => is_var p; destruct p
         end.

Lemma dense_last (l : Dense) (s out : Shape.t) :
  Shape.dense l s = Ok out -> py_last out = Ok (units l).
Proof.
  destruct s as [|x [|y s]]; try discriminate.
  change (Shape.dense l (x :: y :: s))
    with (Ok (removelast (x :: y :: s) ++ [units l])).
  generalize (removelast (x :: y :: s)). intros r [= <-].
  unfold py_last. now rewrite rev_app_distr.
Qed.

(** The model that the constructor returns, in terms of what its
    statements returned. *)
Lemma init_inv (c : PVT.PyramidVisionTransformer.config)
      (m : PVT.PyramidVisionTransformer.t Shape.t) :
  PVT.PyramidVisionTransformer.init c = Ok m ->
  exists d0 d1 d2 d3 pe1 pe2 pe3 pe4 bl1 bl2 bl3 bl4,
    py_index (PVT.PyramidVisionTransformer.cfg_embed_dims c) 0 = Ok d0
    /\ py_index (PVT.PyramidVisionTransformer.cfg_embed_dims c) 1 = Ok d1
    /\ py_index (PVT.PyramidVisionTransformer.cfg_embed_dims c) 2 = Ok d2
    /\ py_index (PVT.PyramidVisionTransformer.cfg_embed_dims c) 3 = Ok d3
    /\ PVT.PatchEmbedding.init [Attr "patch_embed1"]
         (PVT.PyramidVisionTransformer.cfg_img_size c)
         (PVT.PyramidVisionTransformer.cfg_patch_size c) d0 = Ok pe1
    /\ PVT.PatchEmbedding.init [Attr "patch_embed2"]
         (PVT.PyramidVisionTransformer.cfg_img_size c / 4) 2 d1 = Ok pe2
    /\ PVT.PatchEmbedding.init [Attr "patch_embed3"]
         (PVT.PyramidVisionTransformer.cfg_img_size c / 8) 2 d2 = Ok pe3
    /\ PVT.PatchEmbedding.init [Attr "patch_embed4"]
         (PVT.PyramidVisionTransformer.cfg_img_size c / 16) 2 d3 = Ok pe4
    /\ PVT.PyramidVisionTransformer.blocks "block1" c 0 = Ok bl1
    /\ PVT.PyramidVisionTransformer.blocks "block2" c 1 = Ok bl2
    /\ PVT.PyramidVisionTransformer.blocks "block3" c 2 = Ok bl3
    /\ PVT.PyramidVisionTransformer.blocks "block4" c 3 = Ok bl4
    /\ m = PVT.PyramidVisionTransformer.mk
             (PVT.PyramidVisionTransformer.cfg_num_classes c)
             (PVT.PyramidVisionTransformer.cfg_depths c)
             pe1 pe2 pe3 pe4
             [1; PVT.PatchEmbedding.num_patches pe1; d0]
             (mkDropout (PVT.PyramidVisionTransformer.cfg_drop_rate c))
             [1; PVT.PatchEmbedding.num_patches pe2; d1]
             (mkDropout (PVT.PyramidVisionTransformer.cfg_drop_rate c))
             [1; PVT.PatchEmbedding.num_patches pe3; d2]
             (mkDropout (PVT.PyramidVisionTransformer.cfg_drop_rate c))
             [1; PVT.PatchEmbedding.num_patches pe4 + 1; d3]
             (mkDropout (PVT.PyramidVisionTransformer.cfg_drop_rate c))
             bl1 bl2 bl3 bl4
             (mkLayerNormalization [Attr "norm"])
             [1; 1; d3]
             (mkDense [Attr "dense"]
                (PVT.PyramidVisionTransformer.cfg_num_classes c) true)
    /\ is_rate (PVT.PyramidVisionTransformer.cfg_drop_rate c)
    /\ 0 <= PVT.PyramidVisionTransformer.cfg_num_classes c.
Proof.
  unfold PVT.PyramidVisionTransformer.init. intros Hi.
  destruct (py_index (PVT.PyramidVisionTransformer.cfg_embed_dims c) 0)
    as [d0|]; [|discriminate].
  cbn [bind] in Hi. apply bind_Ok in Hi. destruct Hi as (pe1 & E1 & Hi).
  destruct (py_index (PVT.PyramidVisionTransformer.cfg_embed_dims c) 1)
    as [d1|]; [|discriminate].
  cbn [bind] in Hi. apply bind_Ok in Hi. destruct Hi as (pe2 & E2 & Hi).
  destruct (py_index (PVT.PyramidVisionTransformer.cfg_embed_dims c) 2)
    as [d2|]; [|discriminate].
  cbn [bind] in Hi. apply bind_Ok in Hi. destruct Hi as (pe3 & E3 & Hi).
  destruct (py_index (PVT.PyramidVisionTransformer.cfg_embed_dims c) 3)
    as [d3|]; [|discriminate].
  cbn [bind] in Hi. apply bind_Ok in Hi. destruct Hi as (pe4 & E4 & Hi).
  apply bind_Ok in Hi. destruct Hi as (dr1 & Edr & Hi).
  apply layers_Dropout_inv in Edr. destruct Edr as [Hdr ->].
  rewrite (layers_Dropout_Ok Hdr) in Hi. cbn [bind] in Hi.
  apply bind_Ok in Hi. destruct Hi as (bl1 & F1 & Hi).
  apply bind_Ok in Hi. destruct Hi as (bl2 & F2 & Hi).
  apply bind_Ok in Hi. destruct Hi as (bl3 & F3 & Hi).
  apply bind_Ok in Hi. destruct Hi as (bl4 & F4 & Hi).
  apply bind_Ok in Hi. destruct Hi as (l & El & Hi).
  apply layers_Dense_inv in El. destruct El as [Hnc ->].
  injection Hi as <-.
  exists d0, d1, d2, d3, pe1, pe2, pe3, pe4, bl1, bl2, bl3, bl4.
  repeat split; (reflexivity || assumption || apply Hdr).
Qed.

Lemma init_dense (c : PVT.PyramidVisionTransformer.config)
      (m : PVT.PyramidVisionTransformer.t Shape.t) :
  PVT.PyramidVisionTransformer.init c = Ok m ->
  PVT.PyramidVisionTransformer.dense_ m
  = mkDense [Attr "dense"] (PVT.PyramidVisionTransformer.cfg_num_classes c)
            true.
Proof.
  intros Hi. apply init_inv in Hi.
  destruct Hi as (d0 & d1 & d2 & d3 & pe1 & pe2 & pe3 & pe4
                  & bl1 & bl2 & bl3 & bl4 & _ & _ & _ & _ & _ & _ & _ & _
                  & _ & _ & _ & _ & -> & _).
  reflexivity.
Qed.

(** Whatever the configuration and the input, predictions that the
    forward pass returns have [num_classes] as their last axis. *)
Lemma call_last_axis (c : PVT.PyramidVisionTransformer.config)
      (m m' : PVT.PyramidVisionTransformer.t Shape.t)
      (inputs out : Shape.t) (training : bool) :
  PVT.PyramidVisionTransformer.init c = Ok m ->
  PVT.PyramidVisionTransformer.call inputs training m = (Ok out, m') ->
  py_last out = Ok (PVT.PyramidVisionTransformer.cfg_num_classes c).
Proof.
  intros Hi Hc. apply init_dense in Hi.
  unfold PVT.PyramidVisionTransformer.call in Hc.
  repeat mbind_inv Hc. injection Hc as <- <-.
  match goal with
  | H : Shape.dense _ _ = Ok _ |- _ =>
      apply dense_last in H; rewrite Hi in H; exact H
  end.
Qed.

Lemma broadcast_to_Ok (s target r : Shape.t) :
  Shape.broadcast_to s target = Ok r -> r = target.
Proof.
  unfold Shape.broadcast_to. intros Hb. bind_inv Hb.
  destruct (Shape.eqb a target); [now injection Hb | discriminate].
Qed.

(** A forward pass that returns leaves in [self.cls_token] a tensor with
    the batch size of the input as its first axis. *)
Lemma call_rebinds_cls_token
      (m m' : PVT.PyramidVisionTransformer.t Shape.t)
      (B : Z) (inputs out : Shape.t) (training : bool) :
  PVT.PyramidVisionTransformer.call (B :: inputs) training m = (Ok out, m') ->
  exists d, PVT.PyramidVisionTransformer.cls_token m' = [B; 1; d].
Proof.
  intros Hc. unfold PVT.PyramidVisionTransformer.call in Hc.
  repeat mbind_inv Hc. injection Hc as _ <-.
  match goal with
  | H : Shape.broadcast_to _ _ = Ok _ |- _ => apply broadcast_to_Ok in H
  end.
  subst. cbn. eauto.
Qed.

(** The default model, as the constructor builds it over shapes. *)
Lemma default_forward (B : Z) (training : bool) :
  0 < B ->
  exists m,
    PVT.PyramidVisionTransformer.init (T := Shape.t)
      PVT.PyramidVisionTransformer.default = Ok m
    /\ PVT.PyramidVisionTransformer.call [B; 224; 224; 3] training m
       = (Ok [B; 1000],
          PVT.PyramidVisionTransformer.set_cls_token m [B; 1; 512])
    /\ PVT.PyramidVisionTransformer.cls_token m = [1; 1; 512].
Proof.
  intros HB.
  apply (@forward_shape 224 1000 64 128 256 512 1 2 4 8 3 4 6 3 8 4 2 1
           (PyInt 4) (PyInt 4) (PyInt 4) (PyInt 4) false None 0 0);
    try lia; try reflexivity; try apply is_rate_0;
    try (apply hidden_ok_int; lia);
    try (right; (exists 7 || exists 14); reflexivity);
    try (right; split; reflexivity).
  exists 7. reflexivity.
Qed.

(** C7. A batch of 4 images of 224x224x3 through the default model gives
    predictions of shape (4, 1000); for every batch size B the default
    model gives (B, 1000); and for every configuration and input, the
    last axis of the predictions that a forward pass returns is the
    configured [num_classes]. *)
Theorem pvt_predictions_shape :
  (exists m,
      PVT.PyramidVisionTransformer.init (T := Shape.t)
        PVT.PyramidVisionTransformer.default = Ok m
      /\ fst (PVT.PyramidVisionTransformer.call [4; 224; 224; 3] false m)
         = Ok [4; 1000])
  /\ (forall (B : Z) (training : bool),
         0 < B ->
         exists m,
           PVT.PyramidVisionTransformer.init (T := Shape.t)
             PVT.PyramidVisionTransformer.default = Ok m
           /\ fst (PVT.PyramidVisionTransformer.call [B; 224; 224; 3]
                     training m)
              = Ok [B; 1000])
  /\ (forall (c : PVT.PyramidVisionTransformer.config)
             (m m' : PVT.PyramidVisionTransformer.t Shape.t)
             (inputs out : Shape.t) (training : bool),
         PVT.PyramidVisionTransformer.init c = Ok m ->
         PVT.PyramidVisionTransformer.call inputs training m = (Ok out, m') ->
         py_last out
         = Ok (PVT.PyramidVisionTransformer.cfg_num_classes c)).
Proof.
  assert (Hall : forall (B : Z) (training : bool),
             0 < B ->
             exists m,
               PVT.PyramidVisionTransformer.init (T := Shape.t)
                 PVT.PyramidVisionTransformer.default = Ok m
               /\ fst (PVT.PyramidVisionTransformer.call [B; 224; 224; 3]
                         training m)
                  = Ok [B; 1000]).
  { intros B training HB.
    destruct (default_forward training HB) as (m & Hi & Hc & _).
    exists m. split; [exact Hi | now rewrite Hc]. }
  split; [apply Hall; lia|]. split; [exact Hall|].
  intros c m m' inputs out training. apply call_last_axis.
Qed.

(** The default model on a batch of 4 images. *)
Lemma pvt_predictions_shape_witness :
  PVT.PyramidVisionTransformer.init PVT.PyramidVisionTransformer.default
  = Ok default_model
  /\ PVT.PyramidVisionTransformer.call [4; 224; 224; 3] false default_model
     = (Ok [4; 1000],
        PVT.PyramidVisionTransformer.set_cls_token default_model [4; 1; 512])
  /\ py_last [4; 1000] = Ok 1000.
Proof.
  split; [vm_compute; reflexivity|]. split; [vm_compute; reflexivity|].
  apply (proj2 (proj2 pvt_predictions_shape)
           PVT.PyramidVisionTransformer.default default_model
           (PVT.PyramidVisionTransformer.set_cls_token default_model
              [4; 1; 512])
           [4; 224; 224; 3] [4; 1000] false);
    vm_compute; reflexivity.
Defined.

(** C2. The forward pass assigns [self.cls_token]: after a pass over 4
    images the default model holds a class token of shape (4, 1, 512) in
    place of its parameter of shape (1, 1, 512), and a later pass over 2
    images fails on it. *)
Theorem forward_pass_reassigns_cls_token :
  let r := PVT.PyramidVisionTransformer.call [4; 224; 224; 3] false
             default_model in
  PVT.PyramidVisionTransformer.init PVT.PyramidVisionTransformer.default
  = Ok default_model
  /\ fst r = Ok [4; 1000]
  /\ PVT.PyramidVisionTransformer.cls_token default_model = [1; 1; 512]
  /\ PVT.PyramidVisionTransformer.cls_token (snd r) = [4; 1; 512]
  /\ snd r <> default_model
  /\ fst (PVT.PyramidVisionTransformer.call [2; 224; 224; 3] false (snd r))
     = Err TensorShapeError.
Proof.
  cbv zeta. repeat split; try (vm_compute; reflexivity).
  intros E.
  apply (f_equal (@PVT.PyramidVisionTransformer.cls_token Shape.t)) in E.
  vm_compute in E. discriminate E.
Qed.

(** ** Attention keeps the shape of its input sequence *)





Lemma reshape_infer_Ok (n : Z) (s pre post : Shape.t) :
  sizes pre -> sizes post ->
  Shape.prod pre * Shape.prod post <> 0 ->
  Shape.prod s = n * (Shape.prod pre * Shape.prod post) ->
  Shape.reshape s (pre ++ -1 :: post) = Ok (pre ++ n :: post).
Proof.
  intros Hpre Hpost Hk Hs. rewrite reshape_infer by assumption.
  rewrite Hs, Z.mod_mul, Z.div_mul by exact Hk. reflexivity.
Qed.

Lemma matmul4_transpose_b (b h m k n : Z) :
  Shape.matmul [b; h; m; k] [b; h; n; k] true = Ok [b; h; m; n].
Proof. unfold Shape.matmul. simpl. now rewrite !Z.eqb_refl. Qed.

Lemma ViT_Attention_call_shape (num_features heads : Z)
      (v : ViT.Attention.t) (b n : Z) :
  0 < num_features -> 0 < heads -> num_features mod heads = 0 -> 0 < b ->
  ViT.Attention.init num_features heads = Ok v ->
  ViT.Attention.call v [b; n; 3 * num_features] = Ok [b; n; num_features].
Proof.
  intros HF Hh Hm Hb. unfold ViT.Attention.init, py_floordiv.
  destruct (Z.eqb_spec heads 0) as [|_]; [lia|]. cbn [bind]. intros [= <-].
  set (d := num_features / heads).
  assert (E : num_features = heads * d)
    by (apply Z_div_exact_full_2; lia).
  assert (Hd : 0 < d) by nia.
  unfold ViT.Attention.call. shapes.
  cbn [ViT.Attention.num_heads ViT.Attention.project_dim
       ViT.Attention.num_features py_index nth_error bind].
  fold d.
  assert (R : Shape.reshape [b; n; 3 * num_features] [b; -1; 3; heads; d]
              = Ok [b; n; 3; heads; d]).
  { apply (@reshape_infer_Ok n [b; n; 3 * num_features] [b] [3; heads; d]);
      try sizes_tac; cbn [Shape.prod fold_right]; nia. }
  rewrite R.
  cbn [app]. axes.
  rewrite matmul4_transpose_b. axes. rewrite matmul4_Ok. axes.
  apply (@reshape_infer_Ok n [b; n; heads; d] [b] [num_features]);
    try sizes_tac; cbn [Shape.prod fold_right]; nia.
Qed.



(** ** Spatial reduction and the class token *)

(** The reshape of the spatial-reduction path rejects a sequence whose
    element count per sample is not a multiple of [H * W]. *)
Lemma Attention_call_sr_rejects (a : PVT.Attention.t) (b n c H W : Z)
      (training : bool) :
  Attention_wf a -> 1 < PVT.Attention.sr_ratio a ->
  0 < b -> 0 < H -> 0 < W -> (n * c) mod (H * W) <> 0 ->
  PVT.Attention.call a [b; n; c] H W training = Err TensorShapeError.
Proof.
  intros [Hh Hhd Hdim Hq Hkv Hp _] Hsr Hb HH HW Hmod.
  unfold PVT.Attention.call.
  set (h := PVT.Attention.num_heads a) in *.
  set (d := PVT.Attention.head_dim a) in *.
  destruct (Z.gtb_spec (PVT.Attention.sr_ratio a) 1) as [_|]; [|lia].
  shapes. rewrite !dense3, Hq, <- Hdim. cbn [bind].
  rewrite Reshape_split_heads by assumption. axes.
  assert (R : Shape.Reshape [H; W; -1] [b; n; c] = Err TensorShapeError).
  { change [H; W; -1] with ([H; W] ++ -1 :: []).
    rewrite Reshape_infer
      by (try sizes_tac; try assumption; cbn [Shape.prod fold_right]; nia).
    cbn [Shape.prod fold_right].
    replace (H * (W * 1) * 1) with (H * W) by ring.
    replace (n * (c * 1)) with (n * c) by ring.
    destruct (Z.eqb_spec ((n * c) mod (H * W)) 0);
      [contradiction | reflexivity]. }
  rewrite R. reflexivity.
Qed.

(** A spatial-reduction layer (ratio 2, H = W = 2) that accepts a
    sequence of H * W + 1 = 5 positions: the element count 5 * 4 of a
    sample is a multiple of H * W = 4. *)
Lemma sr_attention_accepts_extended_sequence :
  (a <- PVT.Attention.init [Attr "attention"] 4 1 false None 0 0 2 ;;
   if (PVT.Attention.sr_ratio a >? 1) && (5 =? 2 * 2 + 1)
   then PVT.Attention.call a [1; 5; 4] 2 2 false
   else Err AssertionError)
  = Ok [1; 5; 4].
Proof. vm_compute. reflexivity. Qed.

(** C10, amended. With spatial reduction the call reshapes its input to
    (H, W, -1), which requires the element count n * C of a sample to be a
    multiple of H * W; a sequence of H * W + 1 positions is rejected
    whenever H * W does not divide its width C; without spatial reduction
    a sequence of any length is accepted, outside training or with
    dropout rates below 1. *)
Theorem sr_attention_reshape_requirement
        (nm : name) (dim heads : Z) (bias : bool) (qk : option Q)
        (ad pd : Q) (sr : Z) (a : PVT.Attention.t)
        (b n c H W : Z) (training : bool) :
  0 < dim -> 0 < heads -> 0 < b -> 0 < c -> 0 < H -> 0 < W ->
  PVT.Attention.init nm dim heads bias qk ad pd sr = Ok a ->
  (1 < sr -> (n * c) mod (H * W) <> 0 ->
   PVT.Attention.call a [b; n; c] H W training = Err TensorShapeError)
  /\ (1 < sr -> c mod (H * W) <> 0 ->
      PVT.Attention.call a [b; H * W + 1; c] H W training
      = Err TensorShapeError)
  /\ (sr <= 1 -> training = false \/ (ad < 1 /\ pd < 1)%Q ->
      PVT.Attention.call a [b; n; c] H W training = Ok [b; n; dim]).
Proof.
  intros Hd Hh Hb Hc HH HW Ha.
  assert (Hwf : Attention_wf a)
    by (eapply Attention_init_wf; [| | exact Ha]; assumption).
  pose proof (fun t => @Attention_init_drops nm dim heads bias qk ad pd sr
                         a t Ha) as Hdrops.
  apply Attention_init_spec in Ha.
  destruct Ha as (_ & _ & Ed & _ & _ & Esr & _).
  split; [|split].
  - intros Hsr Hmod. apply Attention_call_sr_rejects; try assumption; lia.
  - intros Hsr Hmod. apply Attention_call_sr_rejects; try assumption;
      try lia.
    replace ((H * W + 1) * c) with (c + c * (H * W)) by ring.
    rewrite Z.mod_add by nia. exact Hmod.
  - intros Hsr Htr. rewrite <- Ed.
    apply Attention_call_full; try assumption; [now apply Hdrops | lia].
Qed.

(** The class-token-extended sequence of the default last stage (7 x 7
    positions and the token, width 512) on a layer with reduction ratio 2. *)
Lemma sr_attention_reshape_requirement_witness :
  exists a,
    PVT.Attention.init [Attr "attention"] 512 8 false None 0 0 2 = Ok a
    /\ PVT.Attention.call a [4; 7 * 7 + 1; 512] 7 7 false
       = Err TensorShapeError.
Proof.
  eexists. split; [vm_compute; reflexivity|].
  refine (proj1 (proj2 (@sr_attention_reshape_requirement
                          [Attr "attention"] 512 8 false None 0 0 2 _
                          4 50 512 7 7 false _ _ _ _ _ _ _)) _ _);
    first [lia | reflexivity | (vm_compute; discriminate)].
Defined.

(** ** Patch embedding *)

(** C6. For an image size that is a multiple of the patch size, the patch
    embedding has (img_size / patch_size)^2 patches, and its call returns
    the sequence (batch, num_patches, embedding_dim) together with the
    spatial shape (img_size / patch_size, img_size / patch_size). *)
Theorem patch_embedding_patches
        (nm : name) (img_size patch_size embedding_dim b c : Z) :
  0 < img_size -> 0 < patch_size -> img_size mod patch_size = 0 ->
  0 < embedding_dim -> 0 < b -> 0 < c ->
  exists pe,
    PVT.PatchEmbedding.init nm img_size patch_size embedding_dim = Ok pe
    /\ PVT.PatchEmbedding.num_patches pe = (img_size / patch_size) ^ 2
    /\ PVT.PatchEmbedding.call pe [b; img_size; img_size; c]
       = Ok ([b; (img_size / patch_size) ^ 2; embedding_dim],
             (img_size / patch_size, img_size / patch_size)).
Proof.
  intros Hi Hp Hm He Hb Hc.
  eexists. split; [apply PatchEmbedding_init_Ok; assumption|].
  rewrite Z.pow_2_r. split; [reflexivity|].
  apply PatchEmbedding_call_mk; assumption || lia.
Qed.

(** The first patch embedding of the default model on 4 images. *)
Lemma patch_embedding_patches_witness :
  exists pe,
    PVT.PatchEmbedding.init [Attr "patch_embed1"] 224 4 64 = Ok pe
    /\ PVT.PatchEmbedding.num_patches pe = 3136
    /\ PVT.PatchEmbedding.call pe [4; 224; 224; 3]
       = Ok ([4; 3136; 64], (56, 56)).
Proof.
  apply (@patch_embedding_patches [Attr "patch_embed1"] 224 4 64 4 3);
    first [lia | reflexivity].
Defined.

(** ** The patch embeddings of the four stages *)

(** What a successful construction establishes for the four patch
    embeddings. *)
Lemma init_patch_embeddings (c : PVT.PyramidVisionTransformer.config)
      (m : PVT.PyramidVisionTransformer.t Shape.t) :
  PVT.PyramidVisionTransformer.init c = Ok m ->
  exists d0 d1 d2 d3,
    PVT.PatchEmbedding.init [Attr "patch_embed1"]
      (PVT.PyramidVisionTransformer.cfg_img_size c)
      (PVT.PyramidVisionTransformer.cfg_patch_size c) d0
    = Ok (PVT.PyramidVisionTransformer.patch_embed1 m)
    /\ PVT.PatchEmbedding.init [Attr "patch_embed2"]
         (PVT.PyramidVisionTransformer.cfg_img_size c / 4) 2 d1
       = Ok (PVT.PyramidVisionTransformer.patch_embed2 m)
    /\ PVT.PatchEmbedding.init [Attr "patch_embed3"]
         (PVT.PyramidVisionTransformer.cfg_img_size c / 8) 2 d2
       = Ok (PVT.PyramidVisionTransformer.patch_embed3 m)
    /\ PVT.PatchEmbedding.init [Attr "patch_embed4"]
         (PVT.PyramidVisionTransformer.cfg_img_size c / 16) 2 d3
       = Ok (PVT.PyramidVisionTransformer.patch_embed4 m).
Proof.
  unfold PVT.PyramidVisionTransformer.init. intros Hi.
  repeat bind_inv Hi. injection Hi as <-.
  cbn [PVT.PyramidVisionTransformer.patch_embed1
       PVT.PyramidVisionTransformer.patch_embed2
       PVT.PyramidVisionTransformer.patch_embed3
       PVT.PyramidVisionTransformer.patch_embed4].
  eauto 10.
Qed.

Lemma init_later_stages (c : PVT.PyramidVisionTransformer.config) (p : Z)
      (m m' : PVT.PyramidVisionTransformer.t Shape.t) :
  PVT.PyramidVisionTransformer.init c = Ok m ->
  PVT.PyramidVisionTransformer.init (with_patch_size c p) = Ok m' ->
  later_stages m' = later_stages m.
Proof.
  unfold PVT.PyramidVisionTransformer.init. intros Hi Hi'.
  change (PVT.PyramidVisionTransformer.blocks "block1" (with_patch_size c p))
    with (PVT.PyramidVisionTransformer.blocks "block1" c) in Hi'.
  change (PVT.PyramidVisionTransformer.blocks "block2" (with_patch_size c p))
    with (PVT.PyramidVisionTransformer.blocks "block2" c) in Hi'.
  change (PVT.PyramidVisionTransformer.blocks "block3" (with_patch_size c p))
    with (PVT.PyramidVisionTransformer.blocks "block3" c) in Hi'.
  change (PVT.PyramidVisionTransformer.blocks "block4" (with_patch_size c p))
    with (PVT.PyramidVisionTransformer.blocks "block4" c) in Hi'.
  cbn [with_patch_size PVT.PyramidVisionTransformer.cfg_img_size
       PVT.PyramidVisionTransformer.cfg_patch_size
       PVT.PyramidVisionTransformer.cfg_num_classes
       PVT.PyramidVisionTransformer.cfg_embed_dims
       PVT.PyramidVisionTransformer.cfg_drop_rate
       PVT.PyramidVisionTransformer.cfg_depths] in Hi'.
  repeat bind_inv Hi. injection Hi as <-.
  repeat bind_inv Hi'. injection Hi' as <-.
  unfold later_stages.
  cbn [PVT.PyramidVisionTransformer.patch_embed2
       PVT.PyramidVisionTransformer.patch_embed3
       PVT.PyramidVisionTransformer.patch_embed4
       PVT.PyramidVisionTransformer.pos_embed2
       PVT.PyramidVisionTransformer.pos_embed3
       PVT.PyramidVisionTransformer.pos_embed4
       PVT.PyramidVisionTransformer.block1
       PVT.PyramidVisionTransformer.block2
       PVT.PyramidVisionTransformer.block3
       PVT.PyramidVisionTransformer.block4
       PVT.PyramidVisionTransformer.norm
       PVT.PyramidVisionTransformer.cls_token
       PVT.PyramidVisionTransformer.dense_
       PVT.PyramidVisionTransformer.num_classes
       PVT.PyramidVisionTransformer.depths].
  repeat match goal with
         | H1 : ?x = Ok ?a, H2 : ?x = Ok ?b |- _ =>
             assert (b = a) by congruence; subst b; clear H2
         end.
  reflexivity.
Qed.

(** A model is constructed for an image size of 33, which is not a
    multiple of 8. *)
Lemma construction_of_indivisible_size :
  is_ok (PVT.PyramidVisionTransformer.init (T := Shape.t)
           (PVT.PyramidVisionTransformer.mkConfig 33 1 1000
              [64; 128; 256; 512] [1; 2; 4; 8]
              [PyInt 4; PyInt 4; PyInt 4; PyInt 4] false None
              0 0 [3; 4; 6; 3] [8; 4; 2; 1])) = true
  /\ ~ (8 | 33).
Proof.
  split; [vm_compute; reflexivity|].
  intros [q Hq]. lia.
Qed.

(** C9, amended. Stages 2, 3 and 4 use patch size 2 over input sizes
    img_size // 4, img_size // 8 and img_size // 16 whatever the patch size
    given to the constructor, which reaches the first stage only;
    construction requires img_size % patch_size == 0 and img_size // 4,
    img_size // 8 and img_size // 16 to be even. *)
Theorem later_stages_patch_size
        (c : PVT.PyramidVisionTransformer.config)
        (m : PVT.PyramidVisionTransformer.t Shape.t) :
  PVT.PyramidVisionTransformer.init c = Ok m ->
  let img := PVT.PyramidVisionTransformer.cfg_img_size c in
  let p := PVT.PyramidVisionTransformer.cfg_patch_size c in
  let size_and_patch pe :=
    (PVT.PatchEmbedding.img_size pe, PVT.PatchEmbedding.patch_size pe) in
  size_and_patch (PVT.PyramidVisionTransformer.patch_embed1 m) = (img, p)
  /\ size_and_patch (PVT.PyramidVisionTransformer.patch_embed2 m)
     = (img / 4, 2)
  /\ size_and_patch (PVT.PyramidVisionTransformer.patch_embed3 m)
     = (img / 8, 2)
  /\ size_and_patch (PVT.PyramidVisionTransformer.patch_embed4 m)
     = (img / 16, 2)
  /\ (forall p' m',
         PVT.PyramidVisionTransformer.init (with_patch_size c p') = Ok m' ->
         later_stages m' = later_stages m)
  /\ p <> 0 /\ img mod p = 0
  /\ (img / 4) mod 2 = 0 /\ (img / 8) mod 2 = 0 /\ (img / 16) mod 2 = 0.
Proof.
  intros Hi img p size_and_patch.
  pose proof Hi as Hpe. apply init_patch_embeddings in Hpe.
  destruct Hpe as (d0 & d1 & d2 & d3 & H1 & H2 & H3 & H4).
  apply PatchEmbedding_init_spec in H1, H2, H3, H4.
  destruct H1 as (Hp & M1 & E1). destruct H2 as (_ & M2 & E2).
  destruct H3 as (_ & M3 & E3). destruct H4 as (_ & M4 & E4).
  unfold size_and_patch. rewrite E1, E2, E3, E4.
  cbn [PVT.PatchEmbedding.img_size PVT.PatchEmbedding.patch_size].
  repeat split; try assumption.
  intros p' m' Hi'. eapply init_later_stages; eassumption.
Qed.

Lemma later_stages_patch_size_witness :
  PVT.PatchEmbedding.patch_size
    (PVT.PyramidVisionTransformer.patch_embed1 model_33) = 3
  /\ PVT.PatchEmbedding.patch_size
       (PVT.PyramidVisionTransformer.patch_embed2 model_33) = 2
  /\ PVT.PatchEmbedding.img_size
       (PVT.PyramidVisionTransformer.patch_embed2 model_33) = 33 / 4
  /\ 33 mod 3 = 0 /\ (33 / 4) mod 2 = 0.
Proof.
  destruct (@later_stages_patch_size config_33 model_33)
    as (E1 & E2 & _ & _ & _ & _ & M1 & M2 & _).
  - vm_compute. reflexivity.
  - repeat split;
      first [ exact (f_equal snd E1) | exact (f_equal snd E2)
            | exact (f_equal fst E2) | assumption ].
Defined.

(** ** Class token and position embedding *)

(** The class token on a sequence of any size. *)
Lemma ClassToken_apply_shape (b n f : Z) (initializer : string) :
  fst (ViT.ClassToken.apply [b; n; f] (ViT.ClassToken.init initializer))
  = Ok [b; 1 + n; f].
Proof.
  unfold ViT.ClassToken.apply, ViT.layer_call, ViT.ClassToken.build,
    ViT.ClassToken.call, ViT.ClassToken.init.
  cbn [mbind get_self set_self lift ViT.ClassToken.built ViT.ClassToken.cls_w
       ViT.ClassToken.num_features ViT.ClassToken.initializer
       shape add_weight broadcast_to cast concat ShapeTensor
       py_last py_index nth_error rev app bind getattr fst].
  rewrite broadcast_to_batch. cbn [bind]. rewrite concat_axis1. reflexivity.
Qed.

(** The position embedding on a sequence of any size. *)
Lemma PositionEmbedding_apply_shape (b n f : Z) (initializer : string) :
  fst (ViT.PositionEmbedding.apply [b; n; f]
         (ViT.PositionEmbedding.init initializer))
  = Ok [b; n; f].
Proof.
  unfold ViT.PositionEmbedding.apply, ViT.layer_call,
    ViT.PositionEmbedding.build, ViT.PositionEmbedding.call,
    ViT.PositionEmbedding.init.
  cbn [mbind get_self set_self lift ViT.PositionEmbedding.built
       ViT.PositionEmbedding.pos_w ViT.PositionEmbedding.initializer
       shape add_weight cast add ShapeTensor List.length Nat.eqb py_assert
       py_index nth_error bind getattr fst].
  rewrite add_batch. reflexivity.
Qed.

(** C8. On feature maps of shape (4, 196, 768) the class token layer
    returns shape (4, 197, 768): its learned token, broadcast over the
    batch, concatenated in front of the sequence; the position embedding
    then returns a tensor of the shape of its input. *)
Theorem class_token_and_position_embedding :
  let feature_maps := mkSym [4; 196; 768] (Input "feature_maps") in
  let r := ViT.ClassToken.apply feature_maps (ViT.ClassToken.init "zeros") in
  exists inputs,
    fst r = Ok inputs
    /\ sym_shape inputs = [4; 197; 768]
    /\ sym_term inputs
       = ConcatT (CastT (BroadcastToT (Param [Attr "cls_w"]) [4; 1; 768]))
                 (Input "feature_maps") 1
    /\ ViT.ClassToken.cls_w (snd r)
       = Some (mkSym [1; 1; 768] (Param [Attr "cls_w"]))
    /\ exists out,
         fst (ViT.PositionEmbedding.apply inputs
                (ViT.PositionEmbedding.init "zero")) = Ok out
         /\ sym_shape out = sym_shape inputs.
Proof.
  cbv zeta. eexists. split; [vm_compute; reflexivity|].
  repeat split. eexists. split; vm_compute; reflexivity.
Qed.

(** ** Divisibility checks of the constructors *)

(** The PVT attention layer checks divisibility when it is constructed. *)
Lemma PVT_Attention_init_checks (nm : name) (dim heads : Z) (bias : bool)
      (qk : option Q) (ad pd : Q) (sr : Z) :
  dim mod heads <> 0 ->
  exists e, PVT.Attention.init nm dim heads bias qk ad pd sr = Err e.
Proof.
  intros Hm. unfold PVT.Attention.init, py_mod, py_assert.
  destruct (Z.eqb_spec heads 0); cbn [bind]; [eauto|].
  destruct (Z.eqb_spec (dim mod heads) 0); [contradiction|].
  cbn [bind]. eauto.
Qed.

(** The patch embedding checks divisibility when it is constructed. *)
Lemma PatchEmbedding_init_checks (nm : name) (img p e : Z) :
  img mod p <> 0 ->
  exists err, PVT.PatchEmbedding.init nm img p e = Err err.
Proof.
  intros Hm. unfold PVT.PatchEmbedding.init, py_mod, py_assert.
  destruct (Z.eqb_spec p 0); cbn [bind]; [eauto|].
  destruct (Z.eqb_spec (img mod p) 0); [contradiction|].
  cbn [bind]. eauto.
Qed.

(** The ViT attention layer is constructed for any non-zero number of
    heads. *)
Lemma ViT_Attention_init_unchecked (num_features heads : Z) :
  heads <> 0 ->
  ViT.Attention.init num_features heads
  = Ok (ViT.Attention.mk num_features heads (num_features / heads)).
Proof.
  intros Hh. unfold ViT.Attention.init, py_floordiv.
  destruct (Z.eqb_spec heads 0); [contradiction | reflexivity].
Qed.

(** C3. The ViT attention layer is constructed with 10 features and 3
    heads, where the PVT attention layer fails its assertion; the ViT
    layer then fails only when called on a sequence of 10 positions, and
    on a sequence of 9 positions returns a result. *)
Theorem vit_attention_constructed_without_check :
  10 mod 3 <> 0
  /\ PVT.Attention.init [Attr "attention"] 10 3 false None 0 0 1
     = Err AssertionError
  /\ ViT.Attention.init 10 3 = Ok (ViT.Attention.mk 10 3 3)
  /\ ViT.Attention.call (ViT.Attention.mk 10 3 3) [1; 10; 30]
     = Err TensorShapeError
  /\ ViT.Attention.call (ViT.Attention.mk 10 3 3) [1; 9; 30]
     = Ok [1; 9; 10].
Proof. repeat split; try (vm_compute; reflexivity). discriminate. Qed.

(** ** Attention without spatial reduction *)

(** Runs the next primitive of two programs that start alike. *)
Ltac same_step :=
  match goal with
  | |- context [bind ?m _] =>
      lazymatch m with
      | bind _ _ => fail
      | Ok _ => fail
      | _ => destruct m; cbn [bind]; try reflexivity
      end
  end.

(** Without spatial reduction, the attention layer adds no convolution
    and no normalisation to the expression of its input. *)
Lemma Attention_call_no_reduction (a : PVT.Attention.t) (x out : sym)
      (H W : Z) (training : bool) :
  PVT.Attention.sr_ratio a <= 1 ->
  PVT.Attention.call a x H W training = Ok out ->
  reduces (sym_term out) = reduces (sym_term x).
Proof.
  intros Hsr. unfold PVT.Attention.call.
  destruct (Z.gtb_spec (PVT.Attention.sr_ratio a) 1) as [|_]; [lia|].
  destruct training;
    cbn [dense Reshape transpose index0 matmul mul_scalar softmax dropout
         SymTensor];
    intros Hc;
    repeat match goal with
           | E : bind _ _ = Ok _ |- _ => bind_inv E
           | E : sym_of _ _ = Ok _ |- _ =>
               apply sym_of_Ok in E; destruct E as [E _]
           | E : Ok _ = Ok _ |- _ => injection E as <-
           end;
    repeat (cbn [reduces sym_term];
            match goal with
            | E : sym_term ?v = _ |- context [sym_term ?v] => rewrite E
            end);
    cbn [reduces sym_term]; destruct (reduces (sym_term x)); reflexivity.
Qed.

(** C4. With [sr_ratio = 1] and the same projections, the PVT attention
    layer computes standard full attention on its input: keys and values
    are projected from the input sequence itself, with no convolution and
    no normalisation before the projection. *)
Theorem sr_ratio_one_is_full_attention
        {T : Type} {TF : Tensor T} (a : PVT.Attention.t) (inputs : T)
        (H W : Z) (training : bool) :
  PVT.Attention.sr_ratio a = 1 ->
  PVT.Attention.call a inputs H W training
  = Spec.full_attention a inputs training.
Proof.
  intros Hsr.
  unfold PVT.Attention.call, Spec.full_attention, Spec.split_heads,
    Spec.scaled_dot_product_attention.
  rewrite Hsr. cbn [Z.gtb Z.compare Pos.compare Pos.compare_cont].
  repeat same_step.
Qed.

Lemma sr_ratio_one_is_full_attention_witness :
  PVT.Attention.init [] 512 8 false None 0 0 1 = Ok last_stage_attention
  /\ PVT.Attention.call last_stage_attention
       (mkSym [4; 50; 512] (Input "x")) 7 7 false
     = Spec.full_attention last_stage_attention
         (mkSym [4; 50; 512] (Input "x")) false
  /\ is_ok (Spec.full_attention last_stage_attention
              (mkSym [4; 50; 512] (Input "x")) false) = true.
Proof.
  split; [vm_compute; reflexivity|].
  split; [|vm_compute; reflexivity].
  apply (@sr_ratio_one_is_full_attention sym _ last_stage_attention
           (mkSym [4; 50; 512] (Input "x")) 7 7 false).
  reflexivity.
Defined.

(** ** The transformer block *)

Lemma LayerNormT_neq (l : LayerNormalization) (t : term) :
  LayerNormT l t <> t.
Proof.
  revert l. induction t; intros l' E; try discriminate E.
  injection E as _ E. exact (IHt _ E).
Qed.

Lemma MLP_call_sym (m : PVT.MLP.t) (x y : sym) (training : bool) :
  PVT.MLP.call m x training = Ok y ->
  sym_term y = MLP_term m training (sym_term x).
Proof.
  unfold PVT.MLP.call, MLP_term. intros Hc.
  bind_inv Hc. apply sym_of_Ok in Hm. destruct Hm as [E1 _].
  cbn [gelu SymTensor bind] in Hc.
  bind_inv Hc. apply sym_of_Ok in Hm. destruct Hm as [E2 _].
  cbn [sym_term] in E2. rewrite E1 in E2.
  destruct training; cbn [dropout SymTensor bind] in Hc.
  - apply bind_Ok in Hc. destruct Hc as (z & Ez & Hc).
    apply sym_of_Ok in Ez. destruct Ez as [E3 _].
    injection Hc as <-. rewrite E3, E2. reflexivity.
  - injection Hc as <-. cbn [sym_term]. now rewrite E2.
Qed.

Lemma MLP_term_inj (m : PVT.MLP.t) (training : bool) (t t' : term) :
  MLP_term m training t = MLP_term m training t' -> t = t'.
Proof.
  unfold MLP_term. destruct training; intros E; now injection E.
Qed.

(** The block of the sources applies its MLP to the residual sum [xs]
    itself; the second normalisation is computed and dropped. *)
Lemma Block_call_sym (blk : PVT.Block.t) (x out : sym) (H W : Z)
      (training : bool) :
  PVT.Block.call blk x H W training = Ok out ->
  exists xs,
    (n <- layer_norm (PVT.Block.norm1 blk) x ;;
     a <- PVT.Attention.call (PVT.Block.attention blk) n H W training ;;
     add x a) = Ok xs
    /\ sym_term out
       = AddT (sym_term xs)
              (MLP_term (PVT.Block.mlp blk) training (sym_term xs)).
Proof.
  unfold PVT.Block.call. intros Hc.
  bind_inv Hc. rewrite Hm. cbn [bind].
  bind_inv Hc. rewrite Hm0. cbn [bind].
  bind_inv Hc. rewrite Hm1. exists a1. split; [reflexivity|].
  bind_inv Hc. bind_inv Hc. apply MLP_call_sym in Hm3.
  apply sym_of_Ok in Hc. destruct Hc as [-> _]. now rewrite Hm3.
Qed.

(** The block of the specification applies its MLP to the normalised
    residual sum. *)
Lemma prenorm_block_sym (blk : PVT.Block.t) (x out : sym) (H W : Z)
      (training : bool) :
  Spec.prenorm_block blk x H W training = Ok out ->
  exists xs,
    (n <- layer_norm (PVT.Block.norm1 blk) x ;;
     a <- PVT.Attention.call (PVT.Block.attention blk) n H W training ;;
     add x a) = Ok xs
    /\ sym_term out
       = AddT (sym_term xs)
              (MLP_term (PVT.Block.mlp blk) training
                 (LayerNormT (PVT.Block.norm2 blk) (sym_term xs))).
Proof.
  unfold Spec.prenorm_block. intros Hc.
  bind_inv Hc. rewrite Hm. cbn [bind].
  bind_inv Hc. rewrite Hm0. cbn [bind].
  bind_inv Hc. rewrite Hm1. exists a1. split; [reflexivity|].
  bind_inv Hc. apply sym_of_Ok in Hm2. destruct Hm2 as [E _].
  bind_inv Hc. apply MLP_call_sym in Hm2.
  apply sym_of_Ok in Hc. destruct Hc as [-> _]. now rewrite Hm2, E.
Qed.

(** On every input on which both return, the block of the sources and the
    block of the specification compute different expressions. *)
Lemma Block_call_is_not_prenorm (blk : PVT.Block.t) (x out out' : sym)
      (H W : Z) (training : bool) :
  PVT.Block.call blk x H W training = Ok out ->
  Spec.prenorm_block blk x H W training = Ok out' ->
  sym_term out <> sym_term out'.
Proof.
  intros Hc Hs E.
  apply Block_call_sym in Hc. destruct Hc as (xs & Hxs & Ec).
  apply prenorm_block_sym in Hs. destruct Hs as (xs' & Hxs' & Es).
  rewrite Hxs in Hxs'. injection Hxs' as <-.
  rewrite Ec, Es in E. injection E as E.
  apply MLP_term_inj in E. symmetry in E.
  exact (LayerNormT_neq E).
Qed.

(** C1. On a symbolic input [x] of shape (1, 1, 2), the block computes
    [xs = x + Attention(Norm1(x))] and returns [xs + MLP(xs)]: the MLP
    reads the residual sum and not [Norm2(xs)], which the block of the
    specification passes to it. *)
Theorem block_mlp_reads_unnormalised_sum :
  let x := mkSym [1; 1; 2] (Input "x") in
  exists xs out out',
    PVT.Block.init [Attr "block"] 2 1 (PyFloat 4) false None 0 0 0 1
    = Ok block_2
    /\ (n <- layer_norm (PVT.Block.norm1 block_2) x ;;
        a <- PVT.Attention.call (PVT.Block.attention block_2) n 1 1 false ;;
        add x a) = Ok xs
    /\ PVT.Block.call block_2 x 1 1 false = Ok out
    /\ sym_term out
       = AddT (sym_term xs)
           (MLP_term (PVT.Block.mlp block_2) false (sym_term xs))
    /\ Spec.prenorm_block block_2 x 1 1 false = Ok out'
    /\ sym_term out'
       = AddT (sym_term xs)
           (MLP_term (PVT.Block.mlp block_2) false
              (LayerNormT (PVT.Block.norm2 block_2) (sym_term xs)))
    /\ out <> out'.
Proof.
  cbv zeta.
  destruct (PVT.Block.call block_2 (mkSym [1; 1; 2] (Input "x")) 1 1 false)
    as [out|] eqn:Hc; [|vm_compute in Hc; discriminate Hc].
  destruct (Spec.prenorm_block block_2 (mkSym [1; 1; 2] (Input "x"))
              1 1 false)
    as [out'|] eqn:Hs; [|vm_compute in Hs; discriminate Hs].
  pose proof (Block_call_is_not_prenorm _ _ _ _ _ Hc Hs) as Hne.
  pose proof Hc as Hc'. apply Block_call_sym in Hc'.
  destruct Hc' as (xs & Hxs & Ec).
  pose proof Hs as Hs'. apply prenorm_block_sym in Hs'.
  destruct Hs' as (xs' & Hxs' & Es).
  rewrite Hxs in Hxs'. injection Hxs' as <-.
  exists xs, out, out'.
  repeat split; try assumption; try reflexivity.
  intros E. apply Hne. now rewrite E.
Qed.

(** * Further properties of the sources *)

(** ** The forward pass of the PVT model in parts *)

(** Runs the next statement of the forward pass and of its parts. *)
Ltac split_step :=
  cbn [mbind lift get_self set_self bind];
  match goal with
  | |- (match ?r with Ok _ => _ | Err _ => _ end) = _ => destruct r
  | |- context [match ?p with (_, _) => _ end] => is_var p; destruct p
  end.

Lemma call_split {T : Type} {TF : Tensor T} (inputs : T) (training : bool)
      (self : PVT.PyramidVisionTransformer.t T) :
  PVT.PyramidVisionTransformer.call inputs training self
  = call_in_parts inputs training self.
Proof.
  unfold PVT.PyramidVisionTransformer.call, call_in_parts, stages123,
    broadcast_cls_token, stage4.
  repeat split_step; cbn [mbind lift get_self set_self bind];
    try reflexivity.
Qed.

(** ** Patch embedding on images of other sizes *)

(** A convolution whose stride is its kernel size drops the rows and
    columns that do not fill a window. *)
Lemma conv2d_floor (l : Conv2D) (b h w c : Z) :
  strides l = kernel_size l -> 0 < kernel_size l -> 0 < c ->
  Shape.conv2d l [b; h; w; c] =
  if (0 <? h / kernel_size l) && (0 <? w / kernel_size l)
  then Ok [b; h / kernel_size l; w / kernel_size l; filters l]
  else Err TensorShapeError.
Proof.
  intros Hs Hk Hc. unfold Shape.conv2d. cbn [Shape.split_image app].
  rewrite Hs.
  set (k := kernel_size l) in *.
  assert (E : forall x, (x - k) / k + 1 = x / k).
  { intros x. replace (x - k) with (x + (-1) * k) by ring.
    rewrite Z.div_add by lia. ring. }
  rewrite !E.
  destruct (Z.ltb_spec 0 k); [|lia]. destruct (Z.ltb_spec 0 c); [|lia].
  reflexivity.
Qed.

(** The patch embedding on an image of any size: it is accepted exactly
    when it has as many patches as the size the layer was built for. *)
Lemma PatchEmbedding_call_any (nm : name) (img p e b h w c : Z)
      (pe : PVT.PatchEmbedding.t) :
  PVT.PatchEmbedding.init nm img p e = Ok pe ->
  0 < p -> 0 < e -> 0 < b -> 0 < c ->
  PVT.PatchEmbedding.call pe [b; h; w; c] =
  if (0 <? h / p) && (0 <? w / p)
     && (h / p * (w / p) =? img / p * (img / p))
  then Ok ([b; img / p * (img / p); e], (img / p, img / p))
  else Err TensorShapeError.
Proof.
  intros Hi Hp He Hb Hc.
  apply PatchEmbedding_init_spec in Hi. destruct Hi as (_ & _ & ->).
  unfold PVT.PatchEmbedding.call. shapes.
  cbn [PVT.PatchEmbedding.project PVT.PatchEmbedding.num_patches
       PVT.PatchEmbedding.embedding_dim PVT.PatchEmbedding.H
       PVT.PatchEmbedding.W].
  rewrite conv2d_floor by (cbn [kernel_size strides]; auto).
  cbn [kernel_size filters].
  destruct ((0 <? h / p) && (0 <? w / p)); cbn [bind andb]; [|reflexivity].
  rewrite Reshape_exact
    by (assumption || (repeat (apply Forall_cons; [nia|]); apply Forall_nil)).
  cbn [Shape.prod fold_right].
  destruct (Z.eqb_spec (h / p * (w / p)) (img / p * (img / p))) as [E|E].
  - destruct (Z.eqb_spec (h / p * (w / p * (e * 1)))
                         (img / p * (img / p) * (e * 1))) as [_|Hne];
      [reflexivity | exfalso; apply Hne; rewrite <- E; ring].
  - destruct (Z.eqb_spec (h / p * (w / p * (e * 1)))
                         (img / p * (img / p) * (e * 1))) as [E'|_];
      [exfalso; apply E; nia | reflexivity].
Qed.

(** X1. A patch embedding does not check the height and width of its
    input: it accepts every image that has as many full patches as the
    size it was built for, and then reports the spatial shape of that
    size, not of the input; every other image is rejected by the reshape. *)
Theorem patch_embedding_checks_patch_count_only
        (nm : name) (img p e b h w c : Z) (pe : PVT.PatchEmbedding.t) :
  PVT.PatchEmbedding.init nm img p e = Ok pe ->
  0 < p -> 0 < e -> 0 < b -> 0 < c -> p <= h -> p <= w ->
  (h / p * (w / p) = img / p * (img / p) ->
   PVT.PatchEmbedding.call pe [b; h; w; c]
   = Ok ([b; img / p * (img / p); e], (img / p, img / p)))
  /\ (h / p * (w / p) <> img / p * (img / p) ->
      PVT.PatchEmbedding.call pe [b; h; w; c] = Err TensorShapeError).
Proof.
  intros Hi Hp He Hb Hc Hh Hw.
  rewrite (@PatchEmbedding_call_any nm img p e b h w c pe) by assumption.
  assert (0 < h / p) by (apply Z.div_str_pos; lia).
  assert (0 < w / p) by (apply Z.div_str_pos; lia).
  destruct (Z.ltb_spec 0 (h / p)); [|lia].
  destruct (Z.ltb_spec 0 (w / p)); [|lia].
  cbn [andb].
  destruct (Z.eqb_spec (h / p * (w / p)) (img / p * (img / p)));
    split; intros; (reflexivity || contradiction).
Qed.

(** The first patch embedding of the default model on images of
    112 x 448 and of 256 x 256 pixels. *)
Lemma patch_embedding_checks_patch_count_only_witness :
  exists pe,
    PVT.PatchEmbedding.init [Attr "patch_embed1"] 224 4 64 = Ok pe
    /\ PVT.PatchEmbedding.call pe [4; 112; 448; 3]
       = Ok ([4; 3136; 64], (56, 56))
    /\ PVT.PatchEmbedding.call pe [4; 256; 256; 3] = Err TensorShapeError.
Proof.
  eexists. split; [vm_compute; reflexivity|]. split.
  - refine (proj1 (@patch_embedding_checks_patch_count_only
                     [Attr "patch_embed1"] 224 4 64 4 112 448 3 _
                     _ _ _ _ _ _ _) _);
      first [lia | reflexivity].
  - refine (proj2 (@patch_embedding_checks_patch_count_only
                     [Attr "patch_embed1"] 224 4 64 4 256 256 3 _
                     _ _ _ _ _ _ _) _);
      first [lia | reflexivity | (vm_compute; discriminate)].
Defined.

(** ** Blocks and the width of their input *)

Lemma add_width_mismatch (b n c d : Z) :
  c <> d -> c <> 1 -> d <> 1 ->
  Shape.add [b; n; c] [b; n; d] = Err TensorShapeError.
Proof.
  intros Hcd Hc Hd. unfold Shape.add. cbn -[Z.eqb].
  destruct (Z.eqb_spec c d); [contradiction|].
  destruct (Z.eqb_spec c 1); [contradiction|].
  destruct (Z.eqb_spec d 1); [contradiction|]. reflexivity.
Qed.

Lemma add_width_one (b n d : Z) :
  Shape.add [b; n; 1] [b; n; d] = Ok [b; n; d].
Proof.
  unfold Shape.add. cbn -[Z.eqb]. rewrite !Z.eqb_refl.
  destruct (Z.eqb_spec 1 d) as [<-|_]; reflexivity.
Qed.

(** X2. A stack of blocks of one width, of any depth and with any MLP
    ratio, returns a sequence of the shape of its input, outside training
    or when the dropout rates of its blocks are below 1. *)
Theorem block_stack_preserves_shape
        (blocks : list PVT.Block.t) (dim heads sr b n H W : Z)
        (training : bool) :
  0 < dim -> 0 < heads -> 0 < b ->
  sr <= 1 \/ (n = H * W /\ 0 < H /\ 0 < W /\ (sr | H) /\ (sr | W)) ->
  Forall (fun blk =>
            exists nm mlp_ratio bias qk dr ad pd,
              PVT.Block.init nm dim heads mlp_ratio bias qk dr ad pd sr
              = Ok blk
              /\ (training = false \/ (dr < 1 /\ ad < 1 /\ pd < 1)%Q))
         blocks ->
  PVT.PyramidVisionTransformer.run_blocks blocks [b; n; dim] H W training
  = Ok [b; n; dim].
Proof.
  intros Hd Hh Hb Hfit Hall. apply run_blocks_shape; [|exact Hb].
  revert Hall. apply Forall_impl.
  intros blk (nm & r & bias & qk & dr & ad & pd & Hi & Htr).
  assert (Hdrops : Block_drops training blk)
    by (eapply Block_init_drops; eassumption).
  apply Block_init_wf in Hi; [|assumption..].
  destruct Hi as (Hwf & Ed & Es).
  split; [exact Hwf | split; [exact Ed | split; [|exact Hdrops]]].
  unfold sr_fits. now rewrite Es.
Qed.

(** The three blocks of the first stage of the default model. *)
Lemma block_stack_preserves_shape_witness :
  PVT.PyramidVisionTransformer.run_blocks
    (PVT.PyramidVisionTransformer.block1 default_model)
    [4; 3136; 64] 56 56 false
  = Ok [4; 3136; 64].
Proof.
  apply (@block_stack_preserves_shape
           (PVT.PyramidVisionTransformer.block1 default_model)
           64 1 8 4 3136 56 56 false); try lia.
  - right. repeat split; try lia; exists 7; reflexivity.
  - let l := eval vm_compute in
             (PVT.PyramidVisionTransformer.block1 default_model) in
    change (PVT.PyramidVisionTransformer.block1 default_model) with l.
    apply Forall_cons;
      [exists [Attr "block1"; Idx 0], (PyInt 4), false, None, 0%Q, 0%Q, 0%Q;
       split; [vm_compute; reflexivity | left; reflexivity]|].
    apply Forall_cons;
      [exists [Attr "block1"; Idx 1], (PyInt 4), false, None, 0%Q, 0%Q, 0%Q;
       split; [vm_compute; reflexivity | left; reflexivity]|].
    apply Forall_cons;
      [exists [Attr "block1"; Idx 2], (PyInt 4), false, None, 0%Q, 0%Q, 0%Q;
       split; [vm_compute; reflexivity | left; reflexivity]|].
    apply Forall_nil.
Defined.

(** X3. A block rejects a sequence whose width differs from its own,
    unless one of the two widths is 1: a sequence of width 1 is broadcast
    by the residual addition, and the block returns its own width
    (outside training, or with dropout rates below 1). *)
Theorem block_input_width
        (nm : name) (dim heads : Z) (mlp_ratio : number) (bias : bool)
        (qk : option Q) (dr ad pd : Q) (sr : Z) (blk : PVT.Block.t)
        (b n c H W : Z) (training : bool) :
  0 < dim -> 0 < heads -> 0 < b -> 0 < c ->
  sr <= 1 \/ (n = H * W /\ 0 < H /\ 0 < W /\ (sr | H) /\ (sr | W)) ->
  training = false \/ (dr < 1 /\ ad < 1 /\ pd < 1)%Q ->
  PVT.Block.init nm dim heads mlp_ratio bias qk dr ad pd sr = Ok blk ->
  (c <> dim -> c <> 1 -> dim <> 1 ->
   PVT.Block.call blk [b; n; c] H W training = Err TensorShapeError)
  /\ (c = 1 -> PVT.Block.call blk [b; n; c] H W training = Ok [b; n; dim]).
Proof.
  intros Hd Hh Hb Hc Hfit Htr Hi.
  assert (Hdrops : Block_drops training blk)
    by (eapply Block_init_drops; eassumption).
  apply Block_init_wf in Hi; [|assumption..].
  destruct Hi as ([Hwf Hmlp] & Ed & Es).
  destruct Hdrops as [Hda Hdm].
  assert (Hfits : sr_fits (PVT.Block.attention blk) n H W)
    by (unfold sr_fits; now rewrite Es).
  assert (Hatt : PVT.Attention.call (PVT.Block.attention blk) [b; n; c]
                   H W training = Ok [b; n; dim])
    by (rewrite <- Ed; now apply Attention_call_shape).
  split.
  - intros Hcd Hc1 Hd1. unfold PVT.Block.call. shapes.
    cbn [Shape.last_axis_op bind]. rewrite Hatt. cbn [bind].
    now rewrite add_width_mismatch.
  - intros ->. unfold PVT.Block.call. shapes.
    cbn [Shape.last_axis_op bind]. rewrite Hatt. cbn [bind].
    rewrite add_width_one. cbn [bind].
    rewrite MLP_call_shape, Hmlp, Ed by assumption. cbn [bind].
    apply add_same.
Qed.

(** A block of width 64 on sequences of widths 32 and 1. *)
Lemma block_input_width_witness :
  exists blk,
    PVT.Block.init [Attr "block"] 64 1 (PyFloat 4) false None 0 0 0 1
    = Ok blk
    /\ PVT.Block.call blk [4; 50; 32] 7 7 false = Err TensorShapeError
    /\ PVT.Block.call blk [4; 50; 1] 7 7 false = Ok [4; 50; 64].
Proof.
  eexists. split; [vm_compute; reflexivity|]. split.
  - refine (proj1 (@block_input_width [Attr "block"] 64 1 (PyFloat 4) false
                     None 0 0 0 1 _ 4 50 32 7 7 false _ _ _ _ _ _ _) _ _ _);
      first [lia | reflexivity | (left; lia) | (left; reflexivity)].
  - refine (proj2 (@block_input_width [Attr "block"] 64 1 (PyFloat 4) false
                     None 0 0 0 1 _ 4 50 1 7 7 false _ _ _ _ _ _ _) _);
      first [lia | reflexivity | (left; lia) | (left; reflexivity)].
Defined.

(** ** The constructor of the PVT attention layer *)



(** X5. A [qk_scale] of zero is ignored: the constructor builds the layer
    it builds without [qk_scale], scaled by [head_dim ** -.5]; a non-zero
    [qk_scale] becomes the layer's scale. *)
Theorem zero_qk_scale_is_ignored
        (nm : name) (dim heads : Z) (bias : bool) (q : Q)
        (ad pd : Q) (sr : Z) :
  ((q == 0)%Q ->
   PVT.Attention.init nm dim heads bias (Some q) ad pd sr
   = PVT.Attention.init nm dim heads bias None ad pd sr)
  /\ (~ (q == 0)%Q ->
      forall a,
        PVT.Attention.init nm dim heads bias (Some q) ad pd sr = Ok a ->
        PVT.Attention.scale a = Given q).
Proof.
  unfold PVT.Attention.init, py_truthy. split.
  - intros Hq. apply Qeq_bool_iff in Hq. rewrite Hq. reflexivity.
  - intros Hq a. destruct (Qeq_bool q 0) eqn:E.
    + apply Qeq_bool_iff in E. contradiction.
    + cbn [negb]. intros Hi. repeat bind_inv Hi. injection Hm2 as <-.
      injection Hi as <-. reflexivity.
Qed.

(** A layer of width 512 with 8 heads, with [qk_scale] 0 and 1/8. *)
Lemma zero_qk_scale_is_ignored_witness :
  PVT.Attention.init [] 512 8 false (Some 0%Q) 0 0 1
  = PVT.Attention.init [] 512 8 false None 0 0 1
  /\ forall a,
       PVT.Attention.init [] 512 8 false (Some (1 # 8)%Q) 0 0 1 = Ok a ->
       PVT.Attention.scale a = Given (1 # 8)%Q.
Proof.
  split.
  - apply (proj1 (@zero_qk_scale_is_ignored [] 512 8 false 0%Q 0 0 1)).
    reflexivity.
  - apply (proj2 (@zero_qk_scale_is_ignored [] 512 8 false (1 # 8)%Q 0 0 1)).
    intros E. discriminate E.
Defined.

(** ** The layers of the ViT model *)

Ltac layer_steps :=
  cbn [mbind get_self set_self lift bind getattr fst snd
       ViT.ClassToken.built ViT.ClassToken.cls_w
       ViT.ClassToken.num_features ViT.ClassToken.initializer
       ViT.PositionEmbedding.built ViT.PositionEmbedding.pos_w
       ViT.PositionEmbedding.initializer
       shape add_weight broadcast_to cast concat add ShapeTensor
       py_last py_index py_assert nth_error rev app List.length Nat.eqb].

(** A class token layer that is built, on a sequence. *)
Lemma ClassToken_apply_built (ini : string) (f b n w : Z) :
  let layer := ViT.ClassToken.mk ini f (Some [1; 1; f]) true in
  ViT.ClassToken.apply [b; n; w] layer
  = (if w =? f then Ok [b; 1 + n; f] else Err TensorShapeError, layer).
Proof.
  intros layer. subst layer.
  unfold ViT.ClassToken.apply, ViT.layer_call, ViT.ClassToken.call.
  layer_steps. rewrite broadcast_to_batch. cbn [bind].
  unfold Shape.concat.
  cbn [nth_error Shape.set_axis Shape.eqb].
  rewrite !Z.eqb_refl, andb_true_r. cbn [andb]. rewrite (Z.eqb_sym f w).
  destruct (w =? f); reflexivity.
Qed.

(** X6. The class token layer creates its token on the first call, from
    the feature width of that call; from then on it accepts a batch of any
    size and length of that width, rejects any other width, and is left
    as the first call left it. *)
Theorem class_token_is_built_once (ini : string) (b n f : Z) :
  let r := ViT.ClassToken.apply [b; n; f] (ViT.ClassToken.init ini) in
  fst r = Ok [b; 1 + n; f]
  /\ snd r = ViT.ClassToken.mk ini f (Some [1; 1; f]) true
  /\ forall b' n' w : Z,
       ViT.ClassToken.apply [b'; n'; w] (snd r)
       = (if w =? f then Ok [b'; 1 + n'; f] else Err TensorShapeError,
          snd r).
Proof.
  cbv zeta.
  assert (E : ViT.ClassToken.apply [b; n; f] (ViT.ClassToken.init ini)
              = (Ok [b; 1 + n; f],
                 ViT.ClassToken.mk ini f (Some [1; 1; f]) true)).
  { unfold ViT.ClassToken.apply, ViT.layer_call, ViT.ClassToken.build,
      ViT.ClassToken.call, ViT.ClassToken.init.
    layer_steps. rewrite broadcast_to_batch. cbn [bind].
    rewrite concat_axis1. reflexivity. }
  rewrite E. cbn [fst snd]. repeat split.
  intros b' n' w. apply ClassToken_apply_built.
Qed.

(** X7. The class token layer returns on inputs of rank 3 only. *)
Theorem class_token_needs_rank_3 (ini : string) (s : Shape.t) :
  List.length s <> 3%nat ->
  exists e, fst (ViT.ClassToken.apply s (ViT.ClassToken.init ini)) = Err e.
Proof.
  intros Hl.
  unfold ViT.ClassToken.apply, ViT.layer_call, ViT.ClassToken.build,
    ViT.ClassToken.call, ViT.ClassToken.init.
  destruct s as [|a [|b [|c [|d s]]]]; try (exfalso; apply Hl; reflexivity).
  - layer_steps. eauto.
  - layer_steps. rewrite broadcast_to_batch. cbn [bind].
    unfold Shape.concat. cbn [nth_error]. eauto.
  - layer_steps. rewrite broadcast_to_batch. cbn [bind].
    unfold Shape.concat. cbn [nth_error Shape.set_axis Shape.eqb].
    rewrite !andb_false_r. eauto.
  - cbn [mbind get_self set_self lift bind getattr fst snd
         ViT.ClassToken.built ViT.ClassToken.cls_w
         ViT.ClassToken.num_features ViT.ClassToken.initializer
         shape add_weight broadcast_to cast concat ShapeTensor py_index
         nth_error].
    unfold py_last.
    destruct (rev (a :: b :: c :: d :: s)) as [|z l];
      cbn [mbind get_self set_self lift bind getattr fst snd
           ViT.ClassToken.built ViT.ClassToken.cls_w
           ViT.ClassToken.num_features ViT.ClassToken.initializer]; [eauto|].
    rewrite broadcast_to_batch. cbn [bind].
    unfold Shape.concat. cbn [nth_error Shape.set_axis Shape.eqb].
    rewrite !andb_false_r. eauto.
Qed.

(** A batch of flat feature vectors, of rank 2. *)
Lemma class_token_needs_rank_3_witness :
  exists e,
    fst (ViT.ClassToken.apply [4; 768] (ViT.ClassToken.init "zeros"))
    = Err e.
Proof.
  apply (@class_token_needs_rank_3 "zeros" [4; 768]). simpl. lia.
Defined.

(** Adding a position embedding of another length or width. *)
Lemma add_position_mismatch (b n f n' f' : Z) :
  (n' <> n /\ n <> 1 /\ n' <> 1) \/ (f' <> f /\ f <> 1 /\ f' <> 1) ->
  Shape.add [b; n'; f'] [1; n; f] = Err TensorShapeError.
Proof.
  intros Hor. unfold Shape.add. cbn -[Z.eqb].
  destruct (Z.eqb_spec f' f) as [->|Hf].
  - destruct Hor as [(Hn & Hn1 & Hn'1)|(Hf & _)]; [|contradiction].
    cbn -[Z.eqb].
    destruct (Z.eqb_spec n' n); [contradiction|].
    destruct (Z.eqb_spec n' 1); [contradiction|].
    destruct (Z.eqb_spec n 1); [contradiction|]. reflexivity.
  - destruct (Z.eqb_spec f' 1) as [->|Hf'1];
      [|destruct (Z.eqb_spec f 1) as [->|Hf1]].
    + destruct Hor as [(Hn & Hn1 & Hn'1)|(_ & _ & F)]; [|contradiction].
      cbn -[Z.eqb].
      destruct (Z.eqb_spec n' n); [contradiction|].
      destruct (Z.eqb_spec n' 1); [contradiction|].
      destruct (Z.eqb_spec n 1); [contradiction|]. reflexivity.
    + destruct Hor as [(Hn & Hn1 & Hn'1)|(_ & F & _)]; [|contradiction].
      cbn -[Z.eqb].
      destruct (Z.eqb_spec n' n); [contradiction|].
      destruct (Z.eqb_spec n' 1); [contradiction|].
      destruct (Z.eqb_spec n 1); [contradiction|]. reflexivity.
    + reflexivity.
Qed.

(** X8. The position embedding layer creates its weight on the first call,
    of the length and width of that call; from then on it accepts a batch
    of any size of that length and width, rejects another length or width
    (other than 1, which broadcasts), and is left as the first call left
    it. *)
Theorem position_embedding_is_built_once (ini : string) (b n f : Z) :
  let r := ViT.PositionEmbedding.apply [b; n; f]
             (ViT.PositionEmbedding.init ini) in
  fst r = Ok [b; n; f]
  /\ snd r = ViT.PositionEmbedding.mk ini (Some [1; n; f]) true
  /\ (forall b' : Z,
         ViT.PositionEmbedding.apply [b'; n; f] (snd r)
         = (Ok [b'; n; f], snd r))
  /\ (forall b' n' f' : Z,
         (n' <> n /\ n <> 1 /\ n' <> 1) \/ (f' <> f /\ f <> 1 /\ f' <> 1) ->
         ViT.PositionEmbedding.apply [b'; n'; f'] (snd r)
         = (Err TensorShapeError, snd r)).
Proof.
  cbv zeta.
  assert (E : ViT.PositionEmbedding.apply [b; n; f]
                (ViT.PositionEmbedding.init ini)
              = (Ok [b; n; f],
                 ViT.PositionEmbedding.mk ini (Some [1; n; f]) true)).
  { unfold ViT.PositionEmbedding.apply, ViT.layer_call,
      ViT.PositionEmbedding.build, ViT.PositionEmbedding.call,
      ViT.PositionEmbedding.init.
    layer_steps. rewrite add_batch. reflexivity. }
  rewrite E. cbn [fst snd]. repeat split.
  - intros b'.
    unfold ViT.PositionEmbedding.apply, ViT.layer_call,
      ViT.PositionEmbedding.call.
    layer_steps. rewrite add_batch. reflexivity.
  - intros b' n' f' Hor.
    unfold ViT.PositionEmbedding.apply, ViT.layer_call,
      ViT.PositionEmbedding.call.
    layer_steps. rewrite add_position_mismatch by exact Hor. reflexivity.
Qed.

(** A layer built on 197 positions, called on 50. *)
Lemma position_embedding_is_built_once_witness :
  let r := ViT.PositionEmbedding.apply [4; 197; 768]
             (ViT.PositionEmbedding.init "zero") in
  ViT.PositionEmbedding.apply [8; 197; 768] (snd r)
  = (Ok [8; 197; 768], snd r)
  /\ ViT.PositionEmbedding.apply [4; 50; 768] (snd r)
     = (Err TensorShapeError, snd r).
Proof.
  split.
  - apply (proj1 (proj2 (proj2
             (@position_embedding_is_built_once "zero" 4 197 768)))).
  - apply (proj2 (proj2 (proj2
             (@position_embedding_is_built_once "zero" 4 197 768)))).
    left. lia.
Defined.

(** X9. The position embedding layer asserts a rank of 3 when it is built:
    on an input of another rank the first call raises AssertionError and
    the layer is left without a weight. *)
Theorem position_embedding_asserts_rank_3 (ini : string) (s : Shape.t) :
  List.length s <> 3%nat ->
  ViT.PositionEmbedding.apply s (ViT.PositionEmbedding.init ini)
  = (Err AssertionError, ViT.PositionEmbedding.init ini).
Proof.
  intros Hl.
  unfold ViT.PositionEmbedding.apply, ViT.layer_call,
    ViT.PositionEmbedding.build, ViT.PositionEmbedding.init.
  cbn [mbind get_self set_self lift bind fst snd shape ShapeTensor
       ViT.PositionEmbedding.built].
  destruct (Nat.eqb_spec (List.length s) 3) as [|_]; [contradiction|].
  reflexivity.
Qed.

(** A feature map of rank 4. *)
Lemma position_embedding_asserts_rank_3_witness :
  ViT.PositionEmbedding.apply [4; 14; 14; 768]
    (ViT.PositionEmbedding.init "zero")
  = (Err AssertionError, ViT.PositionEmbedding.init "zero").
Proof.
  apply (@position_embedding_asserts_rank_3 "zero" [4; 14; 14; 768]).
  simpl. lia.
Defined.

(** X10. The ViT attention layer never looks at the width of its input:
    it regroups the [n * w] numbers of a sample into rows of
    [3 * num_features], returns one position per row, and fails only when
    the rows do not come out even. *)
Theorem vit_attention_regroups_rows
        (num_features heads : Z) (v : ViT.Attention.t) (b n w : Z) :
  0 < num_features -> 0 < heads -> num_features mod heads = 0 -> 0 < b ->
  ViT.Attention.init num_features heads = Ok v ->
  ViT.Attention.call v [b; n; w]
  = if (n * w) mod (3 * num_features) =? 0
    then Ok [b; n * w / (3 * num_features); num_features]
    else Err TensorShapeError.
Proof.
  intros HF Hh Hm Hb. unfold ViT.Attention.init, py_floordiv.
  destruct (Z.eqb_spec heads 0) as [|_]; [lia|]. cbn [bind]. intros [= <-].
  set (d := num_features / heads).
  assert (E : num_features = heads * d)
    by (apply Z_div_exact_full_2; lia).
  assert (Hd : 0 < d) by nia.
  unfold ViT.Attention.call. shapes.
  cbn [ViT.Attention.num_heads ViT.Attention.project_dim
       ViT.Attention.num_features py_index nth_error bind].
  fold d.
  change [b; -1; 3; heads; d] with ([b] ++ -1 :: [3; heads; d]).
  rewrite reshape_infer
    by (try sizes_tac; cbn [Shape.prod fold_right]; nia).
  cbn [Shape.prod fold_right].
  replace (b * 1 * (3 * (heads * (d * 1)))) with (b * (3 * num_features))
    by (rewrite E; ring).
  replace (b * (n * (w * 1))) with (b * (n * w)) by ring.
  rewrite Z.mul_mod_distr_l, Z.div_mul_cancel_l by lia.
  set (n' := n * w / (3 * num_features)).
  destruct (Z.eqb_spec ((n * w) mod (3 * num_features)) 0) as [Hz|Hz].
  - rewrite Hz, Z.mul_0_r. cbn [Z.eqb bind app]. axes.
    rewrite matmul4_transpose_b. axes. rewrite matmul4_Ok. axes.
    apply (@reshape_infer_Ok n' [b; n'; heads; d] [b] [num_features]);
      try sizes_tac; cbn [Shape.prod fold_right]; nia.
  - destruct (Z.eqb_spec (b * ((n * w) mod (3 * num_features))) 0) as [F|_];
      [nia | reflexivity].
Qed.

(** 12 heads of width 64: an input that was not tripled, of 3 * 197
    positions, is taken as 197 positions; one of 197 positions is
    rejected. *)
Lemma vit_attention_regroups_rows_witness :
  exists v,
    ViT.Attention.init 768 12 = Ok v
    /\ ViT.Attention.call v [4; 591; 768] = Ok [4; 197; 768]
    /\ ViT.Attention.call v [4; 197; 768] = Err TensorShapeError.
Proof.
  eexists. split; [reflexivity|]. split.
  - apply (@vit_attention_regroups_rows 768 12 _ 4 591 768);
      [lia | lia | reflexivity | lia | reflexivity].
  - apply (@vit_attention_regroups_rows 768 12 _ 4 197 768);
      [lia | lia | reflexivity | lia | reflexivity].
Defined.

Lemma concat_axis2 (b n f g : Z) :
  Shape.concat [b; n; f] [b; n; g] 2 = Ok [b; n; f + g].
Proof. unfold Shape.concat. simpl. now rewrite !Z.eqb_refl. Qed.

(** X11. The three layers compose as the script of the module chains
    them: the class token, then the position embedding, then the result
    concatenated three times along the last axis, then attention of any
    number of heads that divides the width, return one more position than
    the feature maps have, of their width. *)
Theorem vit_layers_compose (b n f heads : Z) (v : ViT.Attention.t) :
  0 < f -> 0 < heads -> f mod heads = 0 -> 0 < b ->
  ViT.Attention.init f heads = Ok v ->
  exists inputs inputs_posEmbedding attention_inputs : Shape.t,
    fst (ViT.ClassToken.apply [b; n; f] (ViT.ClassToken.init "zeros"))
    = Ok inputs
    /\ fst (ViT.PositionEmbedding.apply inputs
              (ViT.PositionEmbedding.init "zero"))
       = Ok inputs_posEmbedding
    /\ (x <- Shape.concat inputs_posEmbedding inputs_posEmbedding 2 ;;
        Shape.concat x inputs_posEmbedding 2) = Ok attention_inputs
    /\ ViT.Attention.call v attention_inputs = Ok [b; 1 + n; f].
Proof.
  intros Hf Hh Hm Hb Hv.
  exists [b; 1 + n; f], [b; 1 + n; f], [b; 1 + n; 3 * f].
  split; [apply ClassToken_apply_shape|].
  split; [apply PositionEmbedding_apply_shape|].
  split.
  - rewrite concat_axis2. cbn [bind]. rewrite concat_axis2.
    replace (f + f + f) with (3 * f) by ring. reflexivity.
  - eapply ViT_Attention_call_shape; [| | | |exact Hv]; assumption.
Qed.

(** The script's feature maps and attention layer. *)
Lemma vit_layers_compose_witness :
  exists (v : ViT.Attention.t)
         (inputs inputs_posEmbedding attention_inputs : Shape.t),
    ViT.Attention.init 768 12 = Ok v
    /\ fst (ViT.ClassToken.apply [4; 196; 768] (ViT.ClassToken.init "zeros"))
       = Ok inputs
    /\ fst (ViT.PositionEmbedding.apply inputs
              (ViT.PositionEmbedding.init "zero"))
       = Ok inputs_posEmbedding
    /\ (x <- Shape.concat inputs_posEmbedding inputs_posEmbedding 2 ;;
        Shape.concat x inputs_posEmbedding 2) = Ok attention_inputs
    /\ ViT.Attention.call v attention_inputs = Ok [4; 1 + 196; 768].
Proof.
  eexists.
  destruct (@vit_layers_compose 4 196 768 12 _
              ltac:(lia) ltac:(lia) ltac:(reflexivity) ltac:(lia)
              ltac:(reflexivity))
    as (x & y & z & H1 & H2 & H3 & H4).
  exists x, y, z. split; [reflexivity|]. repeat split; assumption.
Defined.

(** ** The forward pass of the PVT model and the state of the model *)

Lemma stages123_batch (self : PVT.PyramidVisionTransformer.t Shape.t)
      (B B0 : Z) (s : Shape.t) (training : bool)
      (r : Shape.t * (Z * Z)) :
  stages123 self (B :: s) training = Ok (B0, r) -> B0 = B.
Proof.
  unfold stages123. cbn [shape ShapeTensor py_index nth_error bind].
  intros Hs. repeat bind_inv Hs.
  repeat match type of Hs with
         | context [match ?p with (_, _) => _ end] => is_var p; destruct p
         end.
  repeat (bind_inv Hs;
          repeat match type of Hs with
                 | context [match ?p with (_, _) => _ end] =>
                     is_var p; destruct p
                 end).
  injection Hs as <- _. reflexivity.
Qed.

(** The statements before the assignment do not read [self.cls_token]. *)
Lemma stages123_set_cls_token {T : Type} {TF : Tensor T}
      (self : PVT.PyramidVisionTransformer.t T) (c inputs : T)
      (training : bool) :
  stages123 (PVT.PyramidVisionTransformer.set_cls_token self c) inputs
    training
  = stages123 self inputs training.
Proof. reflexivity. Qed.

Lemma broadcast_to_refl (s : Shape.t) : Shape.broadcast_to s s = Ok s.
Proof.
  unfold Shape.broadcast_to. rewrite add_same. cbn [bind].
  now rewrite eqb_refl.
Qed.

(** A class token that was broadcast to one batch size does not
    broadcast to another. *)
Lemma broadcast_to_other_batch (B B' d : Z) :
  B' <> B -> B <> 1 ->
  Shape.broadcast_to [B; 1; d] [B'; 1; d] = Err TensorShapeError.
Proof.
  intros Hne H1. unfold Shape.broadcast_to, Shape.add. cbn -[Z.eqb].
  rewrite !Z.eqb_refl. cbn -[Z.eqb].
  destruct (Z.eqb_spec B B'); [congruence|].
  destruct (Z.eqb_spec B 1); [contradiction|].
  destruct (Z.eqb_spec B' 1) as [->|]; cbn -[Z.eqb]; [|reflexivity].
  destruct (Z.eqb_spec B 1); [contradiction|]. reflexivity.
Qed.

(** X13. A forward pass that returns fixes the batch size of the model,
    unless it is 1: over shapes, the same pass again returns predictions
    of the same shape and leaves the stored class token as it is, and a
    pass over a batch of any other size raises and leaves the stored
    class token as it is. *)
Theorem first_pass_fixes_batch_size
        (m m' : PVT.PyramidVisionTransformer.t Shape.t)
        (B : Z) (s out : Shape.t) (training : bool) :
  PVT.PyramidVisionTransformer.call (B :: s) training m = (Ok out, m') ->
  PVT.PyramidVisionTransformer.call (B :: s) training m' = (Ok out, m')
  /\ forall (B' : Z) (s' : Shape.t) (training' : bool),
       B' <> B -> B <> 1 ->
       exists e,
         PVT.PyramidVisionTransformer.call (B' :: s') training' m'
         = (Err e, m').
Proof.
  rewrite call_split. unfold call_in_parts.
  match goal with
  | |- match ?r with Ok _ => _ | Err _ => _ end = _ -> _ =>
      destruct r as [[B0 [x [H W]]]|e] eqn:Es; [|intros [=]]
  end.
  apply stages123_batch in Es as EB. subst B0.
  match goal with
  | |- match ?r with Ok _ => _ | Err _ => _ end = _ -> _ =>
      destruct r as [c|e] eqn:Eb; [|intros [=]]
  end.
  cbv zeta. intros [= E4 <-].
  unfold broadcast_cls_token in Eb. bind_inv Eb. rename a into d.
  apply broadcast_to_Ok in Eb. subst c.
  match goal with
  | |- context [@PVT.PyramidVisionTransformer.set_cls_token ?T m ?c] =>
      set (m' := @PVT.PyramidVisionTransformer.set_cls_token T m c) in *
  end.
  assert (Ec : broadcast_cls_token m' B = Ok [B; 1; d]).
  { unfold broadcast_cls_token, m'.
    cbn [PVT.PyramidVisionTransformer.cls_token
         PVT.PyramidVisionTransformer.set_cls_token
         shape broadcast_to ShapeTensor py_last rev app bind].
    apply broadcast_to_refl. }
  split.
  - rewrite call_split. unfold call_in_parts.
    unfold m' at 1. rewrite stages123_set_cls_token, Es, Ec. cbv zeta.
    change (PVT.PyramidVisionTransformer.set_cls_token m' [B; 1; d]) with m'.
    rewrite E4. reflexivity.
  - intros B' s' training' Hne H1.
    rewrite call_split. unfold call_in_parts.
    match goal with
    | |- exists _, match ?r with Ok _ => _ | Err _ => _ end = _ =>
        destruct r as [[B0 [x' [H' W']]]|e] eqn:Es'; [|eauto]
    end.
    apply stages123_batch in Es' as EB. subst B0.
    assert (Ec' : broadcast_cls_token m' B' = Err TensorShapeError).
    { unfold broadcast_cls_token, m'.
      cbn [PVT.PyramidVisionTransformer.cls_token
           PVT.PyramidVisionTransformer.set_cls_token
           shape broadcast_to ShapeTensor py_last rev app bind].
      apply broadcast_to_other_batch; assumption. }
    rewrite Ec'. eauto.
Qed.

(** The default model after a pass over 4 images. *)
Lemma first_pass_fixes_batch_size_witness :
  let m' := PVT.PyramidVisionTransformer.set_cls_token default_model
              [4; 1; 512] in
  PVT.PyramidVisionTransformer.call [4; 224; 224; 3] false m'
  = (Ok [4; 1000], m')
  /\ forall (B' : Z) (s' : Shape.t) (training' : bool),
       B' <> 4 -> 4 <> 1 ->
       exists e,
         PVT.PyramidVisionTransformer.call (B' :: s') training' m'
         = (Err e, m').
Proof.
  apply (@first_pass_fixes_batch_size default_model _ 4 [224; 224; 3]
           [4; 1000] false).
  vm_compute. reflexivity.
Defined.

(** ** What the constructor of the PVT model builds *)







(** What [blocks] returns: as many blocks as the depth of the stage, each
    of the width, heads, reduction ratio and hidden width of the stage. *)
Lemma blocks_inv (nm : string) (c : PVT.PyramidVisionTransformer.config)
      (i : nat) (n dim heads sr : Z) (mlp_ratio : number)
      (bl : list PVT.Block.t) :
  py_index (PVT.PyramidVisionTransformer.cfg_depths c) i = Ok n ->
  py_index (PVT.PyramidVisionTransformer.cfg_embed_dims c) i = Ok dim ->
  py_index (PVT.PyramidVisionTransformer.cfg_num_heads c) i = Ok heads ->
  py_index (PVT.PyramidVisionTransformer.cfg_mlp_ratios c) i = Ok mlp_ratio ->
  py_index (PVT.PyramidVisionTransformer.cfg_sr_ratios c) i = Ok sr ->
  PVT.PyramidVisionTransformer.blocks nm c i = Ok bl ->
  List.length bl = Z.to_nat n
  /\ Forall (stage_block dim heads sr mlp_ratio) bl.
Proof.
  intros En Ed Eh Er Es.
  unfold PVT.PyramidVisionTransformer.blocks, py_range.
  rewrite En, Ed, Eh, Er, Es. cbn [bind]. intros Hb. split.
  - apply mapM_length in Hb. rewrite Hb. apply length_seq.
  - revert Hb. apply mapM_Forall. intros j blk Hblk.
    pose proof Hblk as Hmlp. apply Block_init_mlp in Hmlp.
    destruct Hmlp as (h & Eh' & _ & _ & Em).
    apply Block_init_spec in Hblk. destruct Hblk as [Ha _].
    apply Attention_init_spec in Ha.
    destruct Ha as (_ & _ & Edim & Ehe & Ehd & Esr & _ & _ & _ & Esrc & _).
    unfold stage_block. cbv zeta.
    rewrite Edim, Ehe, Ehd, Esr, Esrc, Em.
    cbn [PVT.MLP.fc1 PVT.MLP.fc2 units].
    repeat split; try reflexivity; try assumption.
    + destruct (Z.gtb_spec sr 1); [intros _; assumption | congruence].
    + destruct (Z.gtb_spec sr 1); [discriminate | lia].
Qed.

(** X16. The model that the constructor returns: stage [i] has
    [depths[i]] blocks (none for a depth below 1), each with the width,
    the heads, the reduction ratio and the hidden width
    [int(dim * mlp_ratio)] of its stage, the product being an integer
    product for an int ratio and a floating-point product, truncated, for
    a float ratio, and a reducing convolution exactly for a reduction
    ratio above 1; the position embeddings have
    one row per patch of their stage, one more in the last stage; the
    class token has the last width and the head has [num_classes] units. *)
Theorem constructor_builds_stages
        (img p num_classes d0 d1 d2 d3 h0 h1 h2 h3 : Z)
        (n0 n1 n2 n3 s0 s1 s2 s3 : Z) (r0 r1 r2 r3 : number)
        (qkv_bias : bool) (qk_scale : option Q)
        (drop_rate attn_drop_rate : Q)
        (m : PVT.PyramidVisionTransformer.t Shape.t) :
  PVT.PyramidVisionTransformer.init
    (PVT.PyramidVisionTransformer.mkConfig img p num_classes
       [d0; d1; d2; d3] [h0; h1; h2; h3] [r0; r1; r2; r3]
       qkv_bias qk_scale drop_rate attn_drop_rate
       [n0; n1; n2; n3] [s0; s1; s2; s3]) = Ok m ->
  (List.length (PVT.PyramidVisionTransformer.block1 m) = Z.to_nat n0
   /\ Forall (stage_block d0 h0 s0 r0) (PVT.PyramidVisionTransformer.block1 m))
  /\ (List.length (PVT.PyramidVisionTransformer.block2 m) = Z.to_nat n1
      /\ Forall (stage_block d1 h1 s1 r1)
           (PVT.PyramidVisionTransformer.block2 m))
  /\ (List.length (PVT.PyramidVisionTransformer.block3 m) = Z.to_nat n2
      /\ Forall (stage_block d2 h2 s2 r2)
           (PVT.PyramidVisionTransformer.block3 m))
  /\ (List.length (PVT.PyramidVisionTransformer.block4 m) = Z.to_nat n3
      /\ Forall (stage_block d3 h3 s3 r3)
           (PVT.PyramidVisionTransformer.block4 m))
  /\ PVT.PyramidVisionTransformer.pos_embed1 m
     = [1; img / p * (img / p); d0]
  /\ PVT.PyramidVisionTransformer.pos_embed2 m
     = [1; img / 4 / 2 * (img / 4 / 2); d1]
  /\ PVT.PyramidVisionTransformer.pos_embed3 m
     = [1; img / 8 / 2 * (img / 8 / 2); d2]
  /\ PVT.PyramidVisionTransformer.pos_embed4 m
     = [1; img / 16 / 2 * (img / 16 / 2) + 1; d3]
  /\ PVT.PyramidVisionTransformer.cls_token m = [1; 1; d3]
  /\ units (PVT.PyramidVisionTransformer.dense_ m) = num_classes.
Proof.
  intros Hi. apply init_inv in Hi.
  destruct Hi as (e0 & e1 & e2 & e3 & pe1 & pe2 & pe3 & pe4
                  & bl1 & bl2 & bl3 & bl4 & [= <-] & [= <-] & [= <-]
                  & [= <-] & E1 & E2 & E3 & E4 & F1 & F2 & F3 & F4 & ->
                  & _).
  apply PatchEmbedding_init_spec in E1, E2, E3, E4.
  destruct E1 as (_ & _ & ->), E2 as (_ & _ & ->), E3 as (_ & _ & ->),
    E4 as (_ & _ & ->).
  apply (@blocks_inv "block1" _ 0 n0 d0 h0 s0 r0) in F1; try reflexivity.
  apply (@blocks_inv "block2" _ 1 n1 d1 h1 s1 r1) in F2; try reflexivity.
  apply (@blocks_inv "block3" _ 2 n2 d2 h2 s2 r2) in F3; try reflexivity.
  apply (@blocks_inv "block4" _ 3 n3 d3 h3 s3 r3) in F4; try reflexivity.
  cbn [PVT.PyramidVisionTransformer.block1 PVT.PyramidVisionTransformer.block2
       PVT.PyramidVisionTransformer.block3 PVT.PyramidVisionTransformer.block4
       PVT.PyramidVisionTransformer.pos_embed1
       PVT.PyramidVisionTransformer.pos_embed2
       PVT.PyramidVisionTransformer.pos_embed3
       PVT.PyramidVisionTransformer.pos_embed4
       PVT.PyramidVisionTransformer.cls_token
       PVT.PyramidVisionTransformer.dense_
       PVT.PyramidVisionTransformer.cfg_img_size
       PVT.PyramidVisionTransformer.cfg_patch_size
       PVT.PyramidVisionTransformer.cfg_num_classes
       PVT.PatchEmbedding.num_patches units].
  repeat split; try reflexivity;
    first [apply F1 | apply F2 | apply F3 | apply F4].
Qed.

(** The default model: 3, 4, 6 and 3 blocks. *)
Lemma constructor_builds_stages_witness :
  (List.length (PVT.PyramidVisionTransformer.block1 default_model)
   = Z.to_nat 3
   /\ Forall (stage_block 64 1 8 (PyInt 4))
        (PVT.PyramidVisionTransformer.block1 default_model))
  /\ (List.length (PVT.PyramidVisionTransformer.block2 default_model)
      = Z.to_nat 4
      /\ Forall (stage_block 128 2 4 (PyInt 4))
           (PVT.PyramidVisionTransformer.block2 default_model))
  /\ (List.length (PVT.PyramidVisionTransformer.block3 default_model)
      = Z.to_nat 6
      /\ Forall (stage_block 256 4 2 (PyInt 4))
           (PVT.PyramidVisionTransformer.block3 default_model))
  /\ (List.length (PVT.PyramidVisionTransformer.block4 default_model)
      = Z.to_nat 3
      /\ Forall (stage_block 512 8 1 (PyInt 4))
           (PVT.PyramidVisionTransformer.block4 default_model))
  /\ PVT.PyramidVisionTransformer.pos_embed1 default_model
     = [1; 224 / 4 * (224 / 4); 64]
  /\ PVT.PyramidVisionTransformer.pos_embed2 default_model
     = [1; 224 / 4 / 2 * (224 / 4 / 2); 128]
  /\ PVT.PyramidVisionTransformer.pos_embed3 default_model
     = [1; 224 / 8 / 2 * (224 / 8 / 2); 256]
  /\ PVT.PyramidVisionTransformer.pos_embed4 default_model
     = [1; 224 / 16 / 2 * (224 / 16 / 2) + 1; 512]
  /\ PVT.PyramidVisionTransformer.cls_token default_model = [1; 1; 512]
  /\ units (PVT.PyramidVisionTransformer.dense_ default_model) = 1000.
Proof.
  apply (@constructor_builds_stages 224 4 1000 64 128 256 512 1 2 4 8
           3 4 6 3 8 4 2 1 (PyInt 4) (PyInt 4) (PyInt 4) (PyInt 4)
           false None 0 0 default_model).
  vm_compute. reflexivity.
Defined.

(** The blocks that [blocks] returns for a stage of positive width and
    heads are well formed. *)
Lemma blocks_stage_blocks (nm : string)
      (c : PVT.PyramidVisionTransformer.config)
      (i : nat) (n dim heads sr : Z) (mlp_ratio : number)
      (bl : list PVT.Block.t) :
  py_index (PVT.PyramidVisionTransformer.cfg_depths c) i = Ok n ->
  py_index (PVT.PyramidVisionTransformer.cfg_embed_dims c) i = Ok dim ->
  py_index (PVT.PyramidVisionTransformer.cfg_num_heads c) i = Ok heads ->
  py_index (PVT.PyramidVisionTransformer.cfg_mlp_ratios c) i = Ok mlp_ratio ->
  py_index (PVT.PyramidVisionTransformer.cfg_sr_ratios c) i = Ok sr ->
  0 < dim -> 0 < heads ->
  PVT.PyramidVisionTransformer.blocks nm c i = Ok bl ->
  stage_blocks bl dim sr.
Proof.
  intros En Ed Eh Er Es Hd Hh.
  unfold PVT.PyramidVisionTransformer.blocks, py_range.
  rewrite En, Ed, Eh, Er, Es. cbn [bind].
  apply mapM_Forall. intros j blk Hblk.
  eapply Block_init_wf; [| |exact Hblk]; assumption.
Qed.

(** ** The forward pass and the configuration *)





(** The first three stages and the fourth patch embedding of a model
    with patch size 4 whose first three stages fit the image size. *)
Lemma stages123_shape (img num_classes d0 d1 d2 d3 s0 s1 s2 : Z)
      (depths : list Z) (drop_rate : Q)
      (bl1 bl2 bl3 bl4 : list PVT.Block.t) (B ch : Z) (training : bool) :
  0 < img -> (32 | img) -> 0 < d0 -> 0 < d1 -> 0 < d2 -> 0 < d3 ->
  stage_sr s0 (img / 4) -> stage_sr s1 (img / 8) -> stage_sr s2 (img / 16) ->
  stage_blocks bl1 d0 s0 -> stage_blocks bl2 d1 s1 ->
  stage_blocks bl3 d2 s2 ->
  drops training (mkDropout drop_rate) ->
  Forall (Block_drops training) bl1 -> Forall (Block_drops training) bl2 ->
  Forall (Block_drops training) bl3 -> 0 < B -> 0 < ch ->
  stages123 (staged_model img num_classes d0 d1 d2 d3 depths drop_rate
               bl1 bl2 bl3 bl4) [B; img; img; ch] training
  = Ok (B, ([B; img / 16 / 2 * (img / 16 / 2); d3],
            (img / 16 / 2, img / 16 / 2))).
Proof.
  intros Himg Hdiv Hd0 Hd1 Hd2 Hd3 Hs0 Hs1 Hs2 F1 F2 F3 Hpd D1 D2 D3 HB Hch.
  assert (A4 : img mod 4 = 0 /\ 0 < img / 4)
    by (destruct Hdiv as [q Eq]; zdiv).
  assert (A8 : (img / 4) mod 2 = 0 /\ img / 4 / 2 = img / 8 /\ 0 < img / 8)
    by (destruct Hdiv as [q Eq]; zdiv).
  assert (A16 : (img / 8) mod 2 = 0 /\ img / 8 / 2 = img / 16
                /\ 0 < img / 16)
    by (destruct Hdiv as [q Eq]; zdiv).
  assert (A32 : (img / 16) mod 2 = 0 /\ img / 16 / 2 = img / 32
                /\ 0 < img / 32)
    by (destruct Hdiv as [q Eq]; zdiv).
  destruct A4 as [M4 P4]. destruct A8 as (M8 & E8 & P8).
  destruct A16 as (M16 & E16 & P16). destruct A32 as (M32 & E32 & P32).
  apply (stage_blocks_fit P4 Hs0 D1) in F1.
  apply (stage_blocks_fit P8 Hs1 D2) in F2.
  apply (stage_blocks_fit P16 Hs2 D3) in F3.
  unfold stages123, staged_model, patch_embedding.
  cbn [shape ShapeTensor py_index nth_error bind add dropout Reshape
       PVT.PyramidVisionTransformer.patch_embed1
       PVT.PyramidVisionTransformer.patch_embed2
       PVT.PyramidVisionTransformer.patch_embed3
       PVT.PyramidVisionTransformer.patch_embed4
       PVT.PyramidVisionTransformer.pos_embed1
       PVT.PyramidVisionTransformer.pos_embed2
       PVT.PyramidVisionTransformer.pos_embed3
       PVT.PyramidVisionTransformer.pos_drop1
       PVT.PyramidVisionTransformer.pos_drop2
       PVT.PyramidVisionTransformer.pos_drop3
       PVT.PyramidVisionTransformer.block1
       PVT.PyramidVisionTransformer.block2
       PVT.PyramidVisionTransformer.block3].
  rewrite PatchEmbedding_call_mk by (assumption || lia). cbn [bind].
  rewrite add_batch. cbn [bind].
  rewrite dropout_Ok by assumption. cbn [bind].
  rewrite run_blocks_shape by assumption. cbn [bind].
  rewrite Reshape_spatial by assumption. cbn [bind].
  rewrite PatchEmbedding_call_mk by (assumption || lia). cbn [bind].
  rewrite add_batch. cbn [bind]. rewrite !E8.
  rewrite dropout_Ok by assumption. cbn [bind].
  rewrite run_blocks_shape by assumption. cbn [bind].
  rewrite Reshape_spatial by assumption. cbn [bind].
  rewrite PatchEmbedding_call_mk by (assumption || lia). cbn [bind].
  rewrite add_batch. cbn [bind]. rewrite !E16.
  rewrite dropout_Ok by assumption. cbn [bind].
  rewrite run_blocks_shape by assumption. cbn [bind].
  rewrite Reshape_spatial by assumption. cbn [bind].
  rewrite PatchEmbedding_call_mk by (assumption || lia). cbn [bind].
  reflexivity.
Qed.

(** X19. Spatial reduction in the last stage makes the forward pass
    raise: the sequence of the last stage has one position more than its
    feature map has patches, so the first block of the stage cannot
    reshape it to the feature map, unless the patches divide the width.
    By then [self.cls_token] is assigned: the pass, outside training or
    with dropout rates below 1, raises and leaves the broadcast class
    token in the model. *)
Theorem last_stage_reduction_fails
        (img num_classes d0 d1 d2 d3 h0 h1 h2 h3 : Z)
        (n0 n1 n2 n3 s0 s1 s2 s3 : Z) (r0 r1 r2 r3 : number)
        (qkv_bias : bool) (qk_scale : option Q)
        (drop_rate attn_drop_rate : Q)
        (m : PVT.PyramidVisionTransformer.t Shape.t)
        (B ch : Z) (training : bool) :
  PVT.PyramidVisionTransformer.init
    (PVT.PyramidVisionTransformer.mkConfig img 4 num_classes
       [d0; d1; d2; d3] [h0; h1; h2; h3] [r0; r1; r2; r3]
       qkv_bias qk_scale drop_rate attn_drop_rate
       [n0; n1; n2; n3] [s0; s1; s2; s3]) = Ok m ->
  0 < img -> (32 | img) ->
  0 < d0 -> 0 < d1 -> 0 < d2 -> 0 < d3 ->
  0 < h0 -> 0 < h1 -> 0 < h2 -> 0 < h3 ->
  stage_sr s0 (img / 4) -> stage_sr s1 (img / 8) -> stage_sr s2 (img / 16) ->
  1 < s3 -> 0 < n3 -> d3 mod (img / 32 * (img / 32)) <> 0 ->
  0 < B -> 0 < ch ->
  training = false \/ (drop_rate < 1 /\ attn_drop_rate < 1)%Q ->
  PVT.PyramidVisionTransformer.call [B; img; img; ch] training m
  = (Err TensorShapeError,
     PVT.PyramidVisionTransformer.set_cls_token m [B; 1; d3]).
Proof.
  intros Hi Himg Hdiv Hd0 Hd1 Hd2 Hd3 Hh0 Hh1 Hh2 Hh3 Hs0 Hs1 Hs2 Hs3 Hn3
         Hmod HB Hch Htr.
  apply init_inv in Hi.
  destruct Hi as (e0 & e1 & e2 & e3 & pe1 & pe2 & pe3 & pe4
                  & bl1 & bl2 & bl3 & bl4 & [= <-] & [= <-] & [= <-]
                  & [= <-] & E1 & E2 & E3 & E4 & F1 & F2 & F3 & F4 & ->
                  & Hdr & _).
  cbn [PVT.PyramidVisionTransformer.cfg_drop_rate] in Hdr.
  assert (Hpd : drops training (mkDropout drop_rate))
    by (apply drops_rate; [exact Hdr | tauto]).
  pose proof (blocks_drops _ _ _ F1 Htr) as D1.
  pose proof (blocks_drops _ _ _ F2 Htr) as D2.
  pose proof (blocks_drops _ _ _ F3 Htr) as D3.
  apply PatchEmbedding_init_spec in E1, E2, E3, E4.
  destruct E1 as (_ & _ & ->), E2 as (_ & _ & ->), E3 as (_ & _ & ->),
    E4 as (_ & _ & ->).
  pose proof F4 as L4.
  apply (@blocks_inv "block4" _ 3 n3 d3 h3 s3 r3) in L4; try reflexivity.
  destruct L4 as [L4 _].
  apply (@blocks_stage_blocks "block1" _ 0 n0 d0 h0 s0 r0) in F1;
    try reflexivity; try assumption.
  apply (@blocks_stage_blocks "block2" _ 1 n1 d1 h1 s1 r1) in F2;
    try reflexivity; try assumption.
  apply (@blocks_stage_blocks "block3" _ 2 n2 d2 h2 s2 r2) in F3;
    try reflexivity; try assumption.
  apply (@blocks_stage_blocks "block4" _ 3 n3 d3 h3 s3 r3) in F4;
    try reflexivity; try assumption.
  destruct bl4 as [|blk bl4]; [cbn [List.length] in L4; lia|].
  inversion F4 as [|? ? (Hwf & Hdim & Hsr) _]; subst.
  assert (A32 : img / 16 / 2 = img / 32 /\ 0 < img / 32)
    by (destruct Hdiv as [q Eq]; zdiv).
  destruct A32 as [E32 P32].
  rewrite call_split. unfold call_in_parts.
  match goal with
  | |- match ?r with Ok _ => _ | Err _ => _ end = _ =>
      replace r
        with (Ok (A := Z * (Shape.t * (Z * Z)))
                (B, ([B; img / 16 / 2 * (img / 16 / 2);
                      PVT.Attention.dim (PVT.Block.attention blk)],
                     (img / 16 / 2, img / 16 / 2))))
  end.
  2:{ symmetry.
      apply (@stages123_shape img num_classes d0 d1 d2
               (PVT.Attention.dim (PVT.Block.attention blk)) s0 s1 s2
               [n0; n1; n2; n3] drop_rate bl1 bl2 bl3 (blk :: bl4));
        assumption. }
  unfold broadcast_cls_token, stage4.
  cbn [PVT.PyramidVisionTransformer.cls_token
       PVT.PyramidVisionTransformer.set_cls_token
       PVT.PyramidVisionTransformer.pos_embed4
       PVT.PyramidVisionTransformer.pos_drop4
       PVT.PyramidVisionTransformer.block4
       PVT.PatchEmbedding.num_patches
       PVT.PyramidVisionTransformer.cfg_img_size
       shape broadcast_to concat add dropout ShapeTensor
       py_last rev app bind].
  rewrite broadcast_to_batch. cbn [bind].
  rewrite concat_axis1. cbn [bind].
  rewrite (Z.add_comm 1), add_batch. cbn [bind].
  rewrite dropout_Ok by assumption. cbn [bind].
  unfold PVT.PyramidVisionTransformer.run_blocks. cbn [foldM].
  unfold PVT.Block.call at 1.
  cbn [layer_norm ShapeTensor Shape.last_axis_op bind].
  rewrite Attention_call_sr_rejects; [reflexivity | | | | | |].
  - apply Hwf.
  - lia.
  - assumption.
  - lia.
  - lia.
  - rewrite E32.
    replace ((img / 32 * (img / 32) + 1)
             * PVT.Attention.dim (PVT.Block.attention blk))
      with (PVT.Attention.dim (PVT.Block.attention blk)
            + PVT.Attention.dim (PVT.Block.attention blk)
              * (img / 32 * (img / 32))) by ring.
    rewrite Z.mod_add by nia. assumption.
Qed.

(** The default configuration with reduction ratio 2 in the last
    stage. *)
Lemma last_stage_reduction_fails_witness :
  exists m,
    PVT.PyramidVisionTransformer.init (T := Shape.t)
      (PVT.PyramidVisionTransformer.mkConfig 224 4 1000
         [64; 128; 256; 512] [1; 2; 4; 8]
         [PyInt 4; PyInt 4; PyInt 4; PyInt 4] false None
         0 0 [3; 4; 6; 3] [8; 4; 2; 2]) = Ok m
    /\ PVT.PyramidVisionTransformer.call [4; 224; 224; 3] false m
       = (Err TensorShapeError,
          PVT.PyramidVisionTransformer.set_cls_token m [4; 1; 512]).
Proof.
  eexists. split; [vm_compute; reflexivity|].
  apply (@last_stage_reduction_fails
           224 1000 64 128 256 512 1 2 4 8 3 4 6 3 8 4 2 2
           (PyInt 4) (PyInt 4) (PyInt 4) (PyInt 4) false None 0 0);
    first [lia | (vm_compute; reflexivity) | (left; reflexivity)
          | (right; (exists 7 || exists 14); reflexivity)
          | (exists 7; reflexivity) | (vm_compute; discriminate)].
Defined.
